(** * litter-tracker: the event classification and session-analytics engine

    A shallow embedding of [app.py]: the weight classifier [classify_row],
    the look-ahead correlator and the idempotent insert of [upload_file], the
    correction actions of [fix_entry], the visit counter of [dashboard] and
    the cycle and dwell series of [analysis].

    Conventions of the embedding.
    - Weights are IEEE binary64 values, Python's [float]: Rocq's primitive
      [float] with its own subtraction, absolute value and comparisons.
    - A datetime is its number of seconds on the local wall clock ([Z]); the
      [timestamp] text of a row, [strftime('%Y-%m-%d %H:%M:%S')] of that
      datetime, is in order-preserving bijection with it and is identified
      with it, so the [dt] column that [pd.to_datetime] adds is [timestamp].
      Every duration of the program is a whole number of seconds; a test on
      [total_seconds() / 60] against a whole number of minutes is written on
      the seconds.
    - Activity texts are byte strings; [str.lower] acts on ASCII letters,
      which is all the keywords of the program can meet.
    - A SQLite table with a primary key is a finite map on the key; a table
      without one is the list of its rows in insertion order.
    - A [REAL] column returns the double that was stored, with two
      exceptions: the negative zero comes back as [0.0], and a NaN is stored
      as NULL, which Python reads as [None].  A stored row therefore never
      holds a NaN, and in the rows of the tables a NaN weight stands for
      NULL; the places where the program meets that [None] are modelled as
      the exceptions they raise. *)

From Stdlib Require Import Floats ZArith Bool Ascii String List Lia DecimalString Sorted.
From stdpp Require Import gmap strings list.
Import ListNotations.

Open Scope Z_scope.

(** A decimal float literal denotes the nearest double, as it does in Python. *)
#[local] Set Warnings "-inexact-float".

(** ** Text *)

(** [str.lower] on one ASCII character. *)
Definition lower_ascii (c : ascii) : ascii :=
  let n := nat_of_ascii c in
  if (Nat.leb 65 n && Nat.leb n 90)%bool then ascii_of_nat (n + 32) else c.

(** [s.lower()]. *)
Fixpoint lower (s : string) : string :=
  match s with
  | EmptyString => EmptyString
  | String c s' => String (lower_ascii c) (lower s')
  end.

(** [needle in hay], Python's substring test. *)
Fixpoint contains (needle hay : string) : bool :=
  String.prefix needle hay
  || match hay with
     | EmptyString => false
     | String _ hay' => contains needle hay'
     end.

(** [str(n)] of an integer. *)
Definition Z_str (z : Z) : string := NilZero.string_of_int (Z.to_int z).

(** ** Floats as text

    [format_1f x] is [f"{x:.1f}"] and [float_str x] is [f"{x}"], Python's
    [repr]: the shortest decimal digits that read back as [x], in positional
    notation when the decimal exponent is in (-4, 16] and in exponent
    notation otherwise.  Both work on the exact value [m * 2^e] of the
    float. *)

(** The quotient of two non-negative integers, rounded half to even. *)
Definition div_half_even (num den : Z) : Z :=
  let q := num / den in
  match 2 * (num mod den) ?= den with
  | Lt => q
  | Gt => q + 1
  | Eq => if Z.even q then q else q + 1
  end.

Definition signed (neg : bool) (s : string) : string :=
  if neg then "-" +:+ s else s.

(** [m * 2^e] in tenths, rounded half to even. *)
Definition tenths (m : positive) (e : Z) : Z :=
  if 0 <=? e then Zpos m * 2 ^ e * 10
  else div_half_even (Zpos m * 10) (2 ^ (- e)).

Definition format_1f (x : float) : string :=
  match Prim2SF x with
  | S754_nan => "nan"
  | S754_infinity s => signed s "inf"
  | S754_zero s => signed s "0.0"
  | S754_finite s m e =>
      let t := tenths m e in
      signed s (Z_str (t / 10) +:+ "." +:+ Z_str (t mod 10))
  end.

(** [a * 10^k] against [b * 2^e], for any signs of [k] and [e]. *)
Definition cmp_scaled (a k b e : Z) : comparison :=
  let l := a * (if 0 <=? k then 10 ^ k else 1) * (if 0 <=? e then 1 else 2 ^ (- e)) in
  let r := b * (if 0 <=? e then 2 ^ e else 1) * (if 0 <=? k then 1 else 10 ^ (- k)) in
  l ?= r.

(** The integer part of [b * 2^e / 10^k]. *)
Definition floor_scaled (b e k : Z) : Z :=
  let num := b * (if 0 <=? e then 2 ^ e else 1) * (if 0 <=? k then 1 else 10 ^ (- k)) in
  let den := (if 0 <=? k then 10 ^ k else 1) * (if 0 <=? e then 1 else 2 ^ (- e)) in
  num / den.

(** The decimal exponent [d] of [v = m * 2^e]: [10^(d-1) <= v < 10^d]. *)
Fixpoint decpt_up (fuel : nat) (m e d : Z) : Z :=
  match fuel with
  | O => d
  | S f =>
      match cmp_scaled 1 d m e with
      | Gt => d
      | _ => decpt_up f m e (d + 1)
      end
  end.

Fixpoint decpt_down (fuel : nat) (m e d : Z) : Z :=
  match fuel with
  | O => d
  | S f =>
      match cmp_scaled 1 (d - 1) m e with
      | Gt => decpt_down f m e (d - 1)
      | _ => d
      end
  end.

Definition decpt_of (m e : Z) : Z := decpt_down 400 m e (decpt_up 400 m e 0).

(** [D * 10^k] lies in the rounding interval of the float, whose ends are
    [lo * 2^e2] and [hi * 2^e2]; the ends belong to it when the mantissa is
    even. *)
Definition in_interval (lo hi e2 : Z) (closed : bool) (D k : Z) : bool :=
  if closed then
    match cmp_scaled D k lo e2 with Lt => false | _ => true end
    && match cmp_scaled D k hi e2 with Gt => false | _ => true end
  else
    match cmp_scaled D k lo e2 with Gt => true | _ => false end
    && match cmp_scaled D k hi e2 with Lt => true | _ => false end.

(** The shortest digits [D] and exponent [k] with [D * 10^k] in the rounding
    interval, the nearest to the value when two of that length are. *)
Fixpoint shortest (fuel : nat) (n m e d lo hi : Z) (closed : bool) : Z * Z :=
  match fuel with
  | O => (0, 0)
  | S f =>
      let k := d - n in
      let e2 := e - 2 in
      let Df := floor_scaled (4 * m) e2 k in
      let Dc := Df + 1 in
      let okf := in_interval lo hi e2 closed Df k in
      let okc := in_interval lo hi e2 closed Dc k in
      let nearer_c :=
        match cmp_scaled (Df + Dc) k (8 * m) e2 with
        | Lt => true
        | Gt => false
        | Eq => Z.odd Df
        end in
      if okf && okc then (if nearer_c then (Dc, k) else (Df, k))
      else if okf then (Df, k)
      else if okc then (Dc, k)
      else shortest f (n + 1) m e d lo hi closed
  end.

Fixpoint strip_zeros (fuel : nat) (D k : Z) : Z * Z :=
  match fuel with
  | O => (D, k)
  | S f =>
      if (D mod 10 =? 0) && negb (D =? 0) then strip_zeros f (D / 10) (k + 1)
      else (D, k)
  end.

Fixpoint zeros (n : nat) : string :=
  match n with
  | O => ""
  | S n' => "0" +:+ zeros n'
  end.

Definition repr_pos (m : positive) (e : Z) : string :=
  let mz := Zpos m in
  let lo := if (mz =? 2 ^ 52) && (-1074 <? e) then 4 * mz - 1 else 4 * mz - 2 in
  let hi := 4 * mz + 2 in
  let d := decpt_of mz e in
  let '(D, k) := shortest 18 1 mz e d lo hi (Z.even mz) in
  let '(D, k) := strip_zeros 20 D k in
  let ds := Z_str D in
  let len := Z.of_nat (String.length ds) in
  let decpt := k + len in
  if (-4 <? decpt) && (decpt <=? 16) then
    if decpt <=? 0 then "0." +:+ zeros (Z.to_nat (- decpt)) +:+ ds
    else if len <=? decpt then ds +:+ zeros (Z.to_nat (decpt - len)) +:+ ".0"
    else substring 0 (Z.to_nat decpt) ds +:+ "."
         +:+ substring (Z.to_nat decpt) (Z.to_nat (len - decpt)) ds
  else
    let x := decpt - 1 in
    let mant :=
      if len =? 1 then ds
      else substring 0 1 ds +:+ "." +:+ substring 1 (Z.to_nat (len - 1)) ds in
    let ex := Z_str (Z.abs x) in
    mant +:+ "e" +:+ (if x <? 0 then "-" else "+")
         +:+ (if Z.abs x <? 10 then "0" +:+ ex else ex).

Definition float_str (x : float) : string :=
  match Prim2SF x with
  | S754_nan => "nan"
  | S754_infinity s => signed s "inf"
  | S754_zero s => signed s "0.0"
  | S754_finite s m e => signed s (repr_pos m e)
  end.

(** ** The data model *)

(** A row of [cat_profiles]; a NaN [target_weight] stands for NULL. *)
Record profile := {
  name : string;
  target_weight : float;
  color_hex : string;
  birthday : string
}.

(** A row of the batch being ingested: the dict [upload_file] appends to
    [parsed_rows].  Its [timestamp], [date] and [time] entries are texts of
    [dt]. *)
Record parsed_row := {
  dt : Z;
  activity : string;
  weight : float;
  raw_val : string
}.

(** The [metadata] column: [json.dumps({'raw_val': ...})] at ingestion, the
    text of an empty object after a restore. *)
Inductive metadata_json :=
  | Meta_raw_val (v : string)
  | Meta_empty.

(** A row of [usage_logs]; [timestamp] is its primary key, and a NaN
    [log_weight] stands for NULL. *)
Record usage_log := {
  timestamp : Z;
  log_weight : float;
  log_activity : string;
  metadata : metadata_json;
  cat_identity : string;
  flag_reason : string
}.

(** A row of [data_blacklist]; the table has no key, and a NaN [bl_weight]
    stands for NULL. *)
Record blacklist_entry := {
  bl_timestamp : Z;
  bl_weight : float;
  bl_reason : string
}.

(** A row of [upload_history] (its date is the wall clock of the upload). *)
Record upload_record := {
  filename : string;
  entries_added : nat
}.

Record database := {
  usage_logs : gmap Z usage_log;
  upload_history : list upload_record;
  data_blacklist : list blacklist_entry;
  cat_profiles : list profile
}.

(** ** [classify_row] *)

Definition WEIGHT_TOLERANCE : float := 2.0%float.

Definition sys_keywords : list string :=
  ["clean"; "cycle"; "reset"; "power"; "bonnet"; "ready"; "full"].

(** The initial [closest_diff], the double that Python reads from [99.9]. *)
Definition closest_diff_init : float := 99.9%float.

(** [abs(weight - cat['target_weight'])]. *)
Definition diff_to (w : float) (cat : profile) : float :=
  PrimFloat.abs (w - target_weight cat)%float.

(** One turn of the loop over the profiles, on the pair
    [(best_match, closest_diff)]. *)
Definition nearest_step (w : float) (st : string * float) (cat : profile)
  : string * float :=
  let diff := diff_to w cat in
  if (diff <? snd st)%float then (name cat, diff) else st.

(** The reason of an event that no profile matches. *)
Definition no_match_reason (best_match : string) (closest_diff : float) : string :=
  "No match within " +:+ float_str WEIGHT_TOLERANCE +:+ "lbs (Closest: "
  +:+ best_match +:+ " @ " +:+ format_1f closest_diff +:+ " diff)".

Definition nearest (w : float) (profiles : list profile) : string * float :=
  fold_left (nearest_step w) profiles ("Unknown", closest_diff_init).

Definition classify_row (row : parsed_row) (profiles : list profile)
  : string * string :=
  let activity := lower (activity row) in
  let weight := weight row in
  if existsb (fun k => contains k activity) sys_keywords then
    ("System", "Machine Operation")
  else if contains "cat detected" activity && (weight <? 0.5)%float then
    ("Unknown", "Motion detected (No weight)")
  else if PrimFloat.is_nan weight || (weight <? 0.5)%float then
    ("Error", "Weight too low (" +:+ float_str weight +:+ " lbs)")
  else
    let '(best_match, closest_diff) := nearest weight profiles in
    if (closest_diff <=? WEIGHT_TOLERANCE)%float then (best_match, "")
    else ("Unknown", no_match_reason best_match closest_diff).

(** ** [upload_file]: look-ahead correlation and insertion *)

(** The rows [parsed_rows[j]] for [j] in [range(i + 1, min(i + 20, len))]. *)
Definition look_ahead_rows (i : nat) (parsed_rows : list parsed_row)
  : list parsed_row :=
  firstn (Nat.min (i + 20) (List.length parsed_rows) - (i + 1))
         (skipn (i + 1) parsed_rows).

(** The adoption test of the inner loop. *)
Definition weight_reading (future_row : parsed_row) : bool :=
  contains "weight recorded" (lower (activity future_row))
  && (0.5 <? weight future_row)%float.

(** The inner loop: [None] when it ends by exhaustion or by the [break] on
    the elapsed time, [Some (future_row, seconds)] when a weight row is
    adopted.  [time_diff > 7] is [seconds > 7 * 60]. *)
Fixpoint look_ahead (row : parsed_row) (futures : list parsed_row)
  : option (parsed_row * Z) :=
  match futures with
  | [] => None
  | future_row :: rest =>
      let seconds := dt future_row - dt row in
      if 7 * 60 <? seconds then None
      else if weight_reading future_row then Some (future_row, seconds)
      else look_ahead row rest
  end.

(** [f"Matched w/ {future_row['weight']}lbs (+{int(time_diff)}m)"]. *)
Definition matched_reason (future_row : parsed_row) (seconds : Z) : string :=
  "Matched w/ " +:+ float_str (weight future_row) +:+ "lbs (+"
  +:+ Z_str (seconds ÷ 60) +:+ "m)".

(** The identity and reason written for [parsed_rows[i] = row]. *)
Definition correlate (profiles : list profile) (parsed_rows : list parsed_row)
    (i : nat) (row : parsed_row) : string * string :=
  let '(cat_id, reason) := classify_row row profiles in
  if contains "cat detected" (lower (activity row)) then
    let '(cat_id, reason) :=
      match look_ahead row (look_ahead_rows i parsed_rows) with
      | Some (future_row, seconds) =>
          (fst (classify_row future_row profiles),
           matched_reason future_row seconds)
      | None => (cat_id, reason)
      end in
    if String.eqb cat_id "Unknown" then (cat_id, "No weight found in 7m")
    else (cat_id, reason)
  else (cat_id, reason).

(** Sorting rows on a time key, stably: [parsed_rows.sort(key=...)] and,
    on the distinct timestamps of a query result, [sort_values('dt')]. *)
Fixpoint insert_by {A : Type} (key : A -> Z) (r : A) (l : list A) : list A :=
  match l with
  | [] => [r]
  | x :: l' => if key r <=? key x then r :: l else x :: insert_by key r l'
  end.

Definition sort_by {A : Type} (key : A -> Z) (l : list A) : list A :=
  fold_right (insert_by key) [] l.

(** [INSERT INTO usage_logs]: [None] is the [sqlite3.IntegrityError] of a
    primary key that is already there. *)
Definition insert_usage_log (logs : gmap Z usage_log) (r : usage_log)
  : option (gmap Z usage_log) :=
  match logs !! timestamp r with
  | Some _ => None
  | None => Some (<[timestamp r := r]> logs)
  end.

(** What a [REAL] column keeps of the float bound to an [INSERT]: the value
    itself, but [0.0] for the negative zero; a NaN becomes NULL, for which the
    NaN stands in a stored row. *)
Definition sql_real (w : float) : float :=
  if (w =? 0)%float then 0%float else w.

(** The row that the [INSERT] of the loop stores. *)
Definition log_of (row : parsed_row) (cat_id reason : string) : usage_log :=
  {| timestamp := dt row;
     log_weight := sql_real (weight row);
     log_activity := activity row;
     metadata := Meta_raw_val (raw_val row);
     cat_identity := cat_id;
     flag_reason := reason |}.

(** The [try] around the insert, on the pair of the table and the [added]
    counter: the [IntegrityError] is passed over. *)
Definition add_row (st : gmap Z usage_log * nat) (r : usage_log)
  : gmap Z usage_log * nat :=
  match insert_usage_log (fst st) r with
  | Some logs => (logs, S (snd st))
  | None => st
  end.

(** The loop [for i, row in enumerate(parsed_rows)], from index [i] on, when
    no call of [classify_row] raises. *)
Fixpoint insert_rows (profiles : list profile) (parsed_rows : list parsed_row)
    (i : nat) (todo : list parsed_row) (st : gmap Z usage_log * nat)
  : gmap Z usage_log * nat :=
  match todo with
  | [] => st
  | row :: rest =>
      let '(cat_id, reason) := correlate profiles parsed_rows i row in
      insert_rows profiles parsed_rows (S i) rest
        (add_row st (log_of row cat_id reason))
  end.

(** The [TypeError] of [abs(weight - cat['target_weight'])]: a row that
    reaches the loop over the profiles raises it when a profile has a NULL
    target weight. *)
Definition classify_row_raises (row : parsed_row) (profiles : list profile) : bool :=
  let activity := lower (activity row) in
  let weight := weight row in
  if existsb (fun k => contains k activity) sys_keywords then false
  else if contains "cat detected" activity && (weight <? 0.5)%float then false
  else if PrimFloat.is_nan weight || (weight <? 0.5)%float then false
  else existsb (fun cat => PrimFloat.is_nan (target_weight cat)) profiles.

(** [classify_row] on the profiles read from the table; [None] is the
    [TypeError]. *)
Definition classify_row_checked (row : parsed_row) (profiles : list profile)
  : option (string * string) :=
  if classify_row_raises row profiles then None
  else Some (classify_row row profiles).

(** The body of the loop up to the insert, with its two calls of
    [classify_row]: on the row, and on the row that the look-ahead adopts. *)
Definition correlate_checked (profiles : list profile)
    (parsed_rows : list parsed_row) (i : nat) (row : parsed_row)
  : option (string * string) :=
  match classify_row_checked row profiles with
  | None => None
  | Some _ =>
      if contains "cat detected" (lower (activity row)) then
        match look_ahead row (look_ahead_rows i parsed_rows) with
        | Some (future_row, _) =>
            match classify_row_checked future_row profiles with
            | None => None
            | Some _ => Some (correlate profiles parsed_rows i row)
            end
        | None => Some (correlate profiles parsed_rows i row)
        end
      else Some (correlate profiles parsed_rows i row)
  end.

(** The loop [for i, row in enumerate(parsed_rows)] inside the [try] of
    [upload_file]: [None] when a [TypeError] leaves it. *)
Fixpoint insert_rows_checked (profiles : list profile)
    (parsed_rows : list parsed_row) (i : nat) (todo : list parsed_row)
    (st : gmap Z usage_log * nat) : option (gmap Z usage_log * nat) :=
  match todo with
  | [] => Some st
  | row :: rest =>
      match correlate_checked profiles parsed_rows i row with
      | None => None
      | Some (cat_id, reason) =>
          insert_rows_checked profiles parsed_rows (S i) rest
            (add_row st (log_of row cat_id reason))
      end
  end.

(** The key [f"{timestamp}|{weight}"] of the blacklist set. *)
Definition blacklist_key (ts : Z) (w : float) : Z * string := (ts, float_str w).

Definition blacklist_set (bl_rows : list blacklist_entry) : gset (Z * string) :=
  list_to_set (map (fun r => blacklist_key (bl_timestamp r) (bl_weight r)) bl_rows).

Section Ingestion.

(** The decoding of one CSV record (the body of the reading loop up to the
    computation of [weight]): the current-year anchor, the meridiem, the
    [TIMEZONE_OFFSET] shift and the [lbs] value; [None] when the record is
    skipped.  The [reader] of the functions below is the list of the records
    that [csv.reader] yields after the header line, for a file that it reads
    to the end. *)
Variable parse_row : list string -> option parsed_row.

(** The reading loop: decoded rows whose key is not in the blacklist set. *)
Fixpoint read_rows (blacklist : gset (Z * string)) (reader : list (list string))
  : list parsed_row :=
  match reader with
  | [] => []
  | record :: rest =>
      match parse_row record with
      | None => read_rows blacklist rest
      | Some r =>
          if bool_decide (blacklist_key (dt r) (weight r) ∈ blacklist)
          then read_rows blacklist rest
          else r :: read_rows blacklist rest
      end
  end.

(** The sorted batch of an upload. *)
Definition parsed_rows_of (reader : list (list string)) (db : database)
  : list parsed_row :=
  sort_by dt (read_rows (blacklist_set (data_blacklist db)) reader).

(** [upload_file], from the profile check to the commit.  The ledger is
    returned as it was when the upload is refused for want of a profile, when
    [float(r['weight'])] raises on a NULL weight of the blacklist (before the
    [try]: the request fails), and when a [TypeError] leaves the loop (caught
    by the outer [except], which does not commit: the inserts made so far are
    rolled back with the connection). *)
Definition upload_file (file_name : string) (reader : list (list string))
    (db : database) : database :=
  if Nat.eqb (List.length (cat_profiles db)) 0 then db
  else
    let profiles := cat_profiles db in
    if existsb (fun r => PrimFloat.is_nan (bl_weight r)) (data_blacklist db) then db
    else
      let parsed_rows := parsed_rows_of reader db in
      match
        insert_rows_checked profiles parsed_rows 0 parsed_rows (usage_logs db, 0%nat)
      with
      | None => db
      | Some (logs, added) =>
          {| usage_logs := logs;
             upload_history :=
               upload_history db
               ++ [{| filename := file_name; entries_added := added |}];
             data_blacklist := data_blacklist db;
             cat_profiles := cat_profiles db |}
      end.

(** The upload that reaches the commit: the loop without exception. *)
Definition upload_file_run (file_name : string) (reader : list (list string))
    (db : database) : database :=
  if Nat.eqb (List.length (cat_profiles db)) 0 then db
  else
    let profiles := cat_profiles db in
    let parsed_rows := parsed_rows_of reader db in
    let '(logs, added) :=
      insert_rows profiles parsed_rows 0 parsed_rows (usage_logs db, 0%nat) in
    {| usage_logs := logs;
       upload_history :=
         upload_history db ++ [{| filename := file_name; entries_added := added |}];
       data_blacklist := data_blacklist db;
       cat_profiles := cat_profiles db |}.

End Ingestion.

(** ** [fix_entry] *)

Definition with_logs (db : database) (logs : gmap Z usage_log) : database :=
  {| usage_logs := logs;
     upload_history := upload_history db;
     data_blacklist := data_blacklist db;
     cat_profiles := cat_profiles db |}.

Definition with_logs_blacklist (db : database) (logs : gmap Z usage_log)
    (bl : list blacklist_entry) : database :=
  {| usage_logs := logs;
     upload_history := upload_history db;
     data_blacklist := bl;
     cat_profiles := cat_profiles db |}.

(** The row that the restore action inserts. *)
Definition restored_log (row : blacklist_entry) : usage_log :=
  {| timestamp := bl_timestamp row;
     log_weight := bl_weight row;
     log_activity := bl_reason row;
     metadata := Meta_empty;
     cat_identity := "Unknown";
     flag_reason := "Restored from Blacklist" |}.

(** [UPDATE usage_logs SET cat_identity = ?, flag_reason = '']. *)
Definition reassign (action : string) (r : usage_log) : usage_log :=
  {| timestamp := timestamp r;
     log_weight := log_weight r;
     log_activity := log_activity r;
     metadata := metadata r;
     cat_identity := action;
     flag_reason := "" |}.

Definition fix_entry (timestamp_id : Z) (action : string) (db : database)
  : database :=
  if String.eqb action "delete" then
    with_logs db (delete timestamp_id (usage_logs db))
  else if String.eqb action "blacklist" then
    match usage_logs db !! timestamp_id with
    | Some row =>
        with_logs_blacklist db (delete timestamp_id (usage_logs db))
          (data_blacklist db
           ++ [{| bl_timestamp := timestamp row;
                  bl_weight := log_weight row;
                  bl_reason := log_activity row |}])
    | None => db
    end
  else if String.eqb action "restore" then
    match List.find (fun e => bl_timestamp e =? timestamp_id) (data_blacklist db) with
    | Some row =>
        match insert_usage_log (usage_logs db) (restored_log row) with
        | Some logs =>
            with_logs_blacklist db logs
              (List.filter (fun e => negb (bl_timestamp e =? timestamp_id))
                           (data_blacklist db))
        | None => db
        end
    | None => db
    end
  else
    with_logs db (alter (reassign action) timestamp_id (usage_logs db)).

(** ** [dashboard]: true visits *)

(** One turn of the visit loop on the pair [(visits, last_time)];
    [total_seconds() / 60 > 10] is [seconds > 10 * 60]. *)
Definition visit_step (st : nat * option Z) (t : Z) : nat * option Z :=
  match snd st with
  | None => (S (fst st), Some t)
  | Some last_time =>
      if 10 * 60 <? t - last_time then (S (fst st), Some t) else st
  end.

(** The loop over the event times of one identity. *)
Definition visit_loop (times : list Z) : nat * option Z :=
  fold_left visit_step times (0%nat, None).

(** [true_visits] of the dashboard for [cat_name]; [df] is the query result,
    ordered by timestamp. *)
Definition true_visits (cat_name : string) (thirty_days_ago_dt : Z)
    (df : list usage_log) : nat :=
  let cat_df := List.filter (fun r => String.eqb (cat_identity r) cat_name) df in
  let recent_df :=
    sort_by timestamp (List.filter (fun r => thirty_days_ago_dt <? timestamp r) cat_df) in
  fst (visit_loop (map timestamp recent_df)).

(** ** [analysis] *)

(** The calendar day of a datetime, the [date_str] column. *)
Definition date_of (t : Z) : Z := t / 86400.

(** The visits of [cat] on [day], one entry of [daily_counts]. *)
Definition day_visits (cat : string) (day : Z) (df : list usage_log) : nat :=
  let day_log :=
    sort_by timestamp
      (List.filter
         (fun r => (date_of (timestamp r) =? day) && String.eqb (cat_identity r) cat)
         df) in
  fst (visit_loop (map timestamp day_log)).

Definition cycle_start (df : list usage_log) : list usage_log :=
  List.filter (fun r => String.eqb (log_activity r) "Clean Cycle In Progress") df.

Definition cycle_end (df : list usage_log) : list usage_log :=
  List.filter (fun r => String.eqb (log_activity r) "Clean Cycle Complete") df.

(** The rows selected by [mask] for the cycle from [start_row] to [end_row]. *)
Definition interruptions (df : list usage_log) (start_row end_row : usage_log)
  : list usage_log :=
  List.filter
    (fun r => (timestamp start_row <? timestamp r)
              && (timestamp r <? timestamp end_row)
              && String.eqb (log_activity r) "Cycle interrupted")
    df.

(** The body of the loop over [cycle_end]; [last] is [iloc[-1]], [None] on an
    empty frame.  The result is the point appended for [end_row], if any, as the timestamp of the start and the duration in seconds (the
    chart shows [round(duration_sec / 60, 2)]). *)
Definition machine_point (df : list usage_log) (end_row : usage_log)
  : option (Z * Z) :=
  let start_candidates :=
    List.filter (fun s => timestamp s <? timestamp end_row) (cycle_start df) in
  match last start_candidates with
  | None => None
  | Some start_row =>
      let duration_sec := timestamp end_row - timestamp start_row in
      if Nat.eqb (List.length (interruptions df start_row end_row)) 0
         && ((60 <? duration_sec) && (duration_sec <? 300))
      then Some (timestamp start_row, duration_sec)
      else None
  end.

Definition machine_health (df : list usage_log) : list (Z * Z) :=
  omap (machine_point df) (cycle_end df).

(** The motion rows of the lookback window of one cycle start. *)
Definition dwell_candidates (df : list usage_log) (start_row : usage_log)
  : list usage_log :=
  let virtual_exit := timestamp start_row - 15 * 60 in
  let window_start := virtual_exit - 30 * 60 in
  List.filter
    (fun r => (window_start <=? timestamp r)
              && (timestamp r <=? virtual_exit)
              && contains "cat detected" (lower (log_activity r)))
    df.

(** The body of the dwell loop for [cat] and one cycle start: the point
    appended, if any, as the timestamp of the start and the dwell in seconds
    (the chart shows [round(dwell_min, 1)]); [0 < dwell_min < 30] is
    [0 < seconds < 30 * 60]. *)
Definition dwell_point (cat : string) (df : list usage_log) (start_row : usage_log)
  : option (Z * Z) :=
  match last (dwell_candidates df start_row) with
  | None => None
  | Some last_cat =>
      if String.eqb (cat_identity last_cat) cat then
        let dwell_sec := (timestamp start_row - 15 * 60) - timestamp last_cat in
        if (0 <? dwell_sec) && (dwell_sec <? 30 * 60)
        then Some (timestamp start_row, dwell_sec)
        else None
      else None
  end.

Definition cat_points (cat : string) (df : list usage_log) : list (Z * Z) :=
  omap (dwell_point cat df) (cycle_start df).

(** [colors.keys()]: the profile names, then the two reserved identities. *)
Definition colors_keys (profiles : list profile) : list string :=
  let names := map name profiles in
  let k := if existsb (String.eqb "Unknown") names then names else names ++ ["Unknown"] in
  if existsb (String.eqb "System") k then k else k ++ ["System"].

Definition dwell_data (profiles : list profile) (df : list usage_log)
  : list (string * list (Z * Z)) :=
  flat_map
    (fun cat =>
       if String.eqb cat "System" then []
       else match cat_points cat df with
            | [] => []
            | pts => [(cat, pts)]
            end)
    (colors_keys profiles).

(** [sorted(df['date_str'].unique())], the labels of the frequency chart. *)
Definition days_of (df : list usage_log) : list Z :=
  sort_by (fun d => d) (nodup Z.eq_dec (map (fun r => date_of (timestamp r)) df)).

(** The datasets of the frequency chart: for each key of [colors] but System,
    the visits per day, kept when their sum is positive. *)
Definition freq_data (profiles : list profile) (df : list usage_log)
  : list (string * list nat) :=
  flat_map
    (fun cat =>
       if String.eqb cat "System" then []
       else
         let daily_counts := map (fun day => day_visits cat day df) (days_of df) in
         if Nat.ltb 0 (list_sum daily_counts) then [(cat, daily_counts)] else [])
    (colors_keys profiles).

(** ** [manage_cats] *)

Definition with_profiles (db : database) (profiles : list profile) : database :=
  {| usage_logs := usage_logs db;
     upload_history := upload_history db;
     data_blacklist := data_blacklist db;
     cat_profiles := profiles |}.

(** [manage_cats] on a form whose fields are those of a profile; the insert
    of a name that is there raises the [IntegrityError] that is answered by
    "Cat name already exists.". *)
Definition manage_cats (action : string) (form : profile) (db : database)
  : database :=
  if String.eqb action "add" then
    if existsb (fun p => String.eqb (name p) (name form)) (cat_profiles db)
    then db
    else with_profiles db (cat_profiles db ++ [form])
  else if String.eqb action "delete" then
    with_profiles db
      (List.filter (fun p => negb (String.eqb (name p) (name form)))
                   (cat_profiles db))
  else db.

(** ** [review] and the review count of [dashboard] *)

(** The condition of both queries:
    [(cat_identity IN ('Error', 'Unknown') OR flag_reason != '')
     AND cat_identity != 'System']. *)
Definition needs_review (r : usage_log) : bool :=
  (String.eqb (cat_identity r) "Error" || String.eqb (cat_identity r) "Unknown"
   || negb (String.eqb (flag_reason r) ""))
  && negb (String.eqb (cat_identity r) "System").

(** The rows of the table, [ORDER BY timestamp ASC]. *)
Definition rows_asc (logs : gmap Z usage_log) : list usage_log :=
  sort_by timestamp (map snd (map_to_list logs)).

(** The [logs] that [review] renders, [ORDER BY timestamp DESC]. *)
Definition review (db : database) : list usage_log :=
  List.filter needs_review (rev (rows_asc (usage_logs db))).

(** [review_count] of the dashboard: counted only when the frame of the
    current year is not empty. *)
Definition review_count (current_year_start : Z) (db : database) : nat :=
  let df :=
    List.filter (fun r => current_year_start <=? timestamp r)
                (rows_asc (usage_logs db)) in
  if Nat.eqb (List.length df) 0 then 0%nat
  else List.length (List.filter needs_review (rows_asc (usage_logs db))).

(** The frame of [dashboard]:
    [SELECT * FROM usage_logs WHERE timestamp >= current_year_start
     ORDER BY timestamp ASC]. *)
Definition dashboard_df (current_year_start : Z) (db : database) : list usage_log :=
  List.filter (fun r => current_year_start <=? timestamp r)
              (rows_asc (usage_logs db)).

(** [trends[cat_name]["visits_total"]]: the visits of the cat in the frame,
    strictly after [thirty_days_ago_dt]. *)
Definition visits_total (cat_name : string)
    (current_year_start thirty_days_ago_dt : Z) (db : database) : nat :=
  true_visits cat_name thirty_days_ago_dt (dashboard_df current_year_start db).

(** ** Notions used in the statements *)

(** The longest prefix whose elements satisfy [f]. *)
Fixpoint take_while {A : Type} (f : A -> bool) (l : list A) : list A :=
  match l with
  | [] => []
  | x :: l' => if f x then x :: take_while f l' else []
  end.

(** [r] is at most 7 minutes after [row]. *)
Definition within_7m (row r : parsed_row) : bool := negb (7 * 60 <? dt r - dt row).

(** The order of a query result, [ORDER BY timestamp ASC] on the primary key. *)
Definition time_ordered (df : list usage_log) : Prop :=
  StronglySorted (fun a b => timestamp a < timestamp b) df.

(** The primary key of [usage_logs] is the [timestamp] column: every row is
    stored under its own timestamp. *)
Definition keyed (logs : gmap Z usage_log) : Prop :=
  forall k r, logs !! k = Some r -> timestamp r = k.

(** No NULL in the weight columns that an upload reads: the weights of the
    blacklist and the target weights of the profiles. *)
Definition no_null_weights (db : database) : bool :=
  forallb (fun r => negb (PrimFloat.is_nan (bl_weight r))) (data_blacklist db)
  && forallb (fun cat => negb (PrimFloat.is_nan (target_weight cat)))
             (cat_profiles db).

(** The upload does not reach its commit: a weight of the blacklist is NULL,
    or a row of the batch raises in [classify_row]. *)
Definition upload_aborts (parse_row : list string -> option parsed_row)
    (reader : list (list string)) (db : database) : bool :=
  existsb (fun r => PrimFloat.is_nan (bl_weight r)) (data_blacklist db)
  || existsb (fun r => classify_row_raises r (cat_profiles db))
             (parsed_rows_of parse_row reader db).

(** ** The behaviour the specification words

    Definitions that follow the sentences of the specification where these
    depart from the program; each is compared with the program below. *)

(** The classifier as worded, for a closest profile [p]: a match within the
    tolerance, else Unknown with a reason naming [p] and its difference. *)
Definition classify_as_worded (row : parsed_row) (p : profile) : string * string :=
  if (diff_to (weight row) p <=? WEIGHT_TOLERANCE)%float then (name p, "")
  else ("Unknown", no_match_reason (name p) (diff_to (weight row) p)).

(** The correlator as worded: up to 20 subsequent rows, cut where the
    elapsed time exceeds 7 minutes; the first weight row of at least 0.5
    donates its classification; otherwise Unknown. *)
Definition correlate_as_worded (profiles : list profile)
    (parsed_rows : list parsed_row) (i : nat) (row : parsed_row) : string * string :=
  let examined := take_while (within_7m row) (firstn 20 (skipn (S i) parsed_rows)) in
  match
    List.find (fun r => contains "weight recorded" (lower (activity r))
                        && (0.5 <=? weight r)%float) examined
  with
  | Some r => (fst (classify_row r profiles), matched_reason r (dt r - dt row))
  | None => ("Unknown", "No weight found in 7m")
  end.

(** The visit loop as worded: a merged event moves the anchor. *)
Definition visit_step_as_worded (st : nat * option Z) (t : Z) : nat * option Z :=
  match snd st with
  | None => (S (fst st), Some t)
  | Some anchor =>
      if 10 * 60 <? t - anchor then (S (fst st), Some t) else (fst st, Some t)
  end.

Definition visit_loop_as_worded (times : list Z) : nat * option Z :=
  fold_left visit_step_as_worded times (0%nat, None).

(** Cycle pairing as worded: an end marker takes the most recent start marker
    that no earlier end marker has taken. *)
Fixpoint pairs_as_worded (unmatched : list usage_log) (df : list usage_log)
  : list (usage_log * usage_log) :=
  match df with
  | [] => []
  | r :: rest =>
      if String.eqb (log_activity r) "Clean Cycle In Progress" then
        pairs_as_worded (r :: unmatched) rest
      else if String.eqb (log_activity r) "Clean Cycle Complete" then
        match unmatched with
        | s :: unmatched' => (s, r) :: pairs_as_worded unmatched' rest
        | [] => pairs_as_worded [] rest
        end
      else pairs_as_worded unmatched rest
  end.

Definition machine_health_as_worded (df : list usage_log) : list (Z * Z) :=
  omap
    (fun '(start_row, end_row) =>
       let duration_sec := timestamp end_row - timestamp start_row in
       if Nat.eqb (List.length (interruptions df start_row end_row)) 0
          && ((60 <? duration_sec) && (duration_sec <? 300))
       then Some (timestamp start_row, duration_sec)
       else None)
    (pairs_as_worded [] df).

(** Dwell as worded: the most recent motion row of the identity itself. *)
Definition dwell_point_as_worded (cat : string) (df : list usage_log)
    (start_row : usage_log) : option (Z * Z) :=
  match
    last (List.filter (fun r => String.eqb (cat_identity r) cat)
                      (dwell_candidates df start_row))
  with
  | None => None
  | Some last_cat =>
      let dwell_sec := (timestamp start_row - 15 * 60) - timestamp last_cat in
      if (0 <? dwell_sec) && (dwell_sec <? 30 * 60)
      then Some (timestamp start_row, dwell_sec)
      else None
  end.

(** ** Sample data *)

Definition mk_cat (n : string) (target : float) : profile :=
  {| name := n; target_weight := target; color_hex := "#36a2eb"; birthday := "" |}.

Definition reading (t : Z) (a : string) (w : float) : parsed_row :=
  {| dt := t; activity := a; weight := w; raw_val := float_str w +:+ " lbs" |}.

Definition logged (t : Z) (a : string) (w : float) (identity : string) : usage_log :=
  {| timestamp := t; log_weight := w; log_activity := a;
     metadata := Meta_raw_val (float_str w +:+ " lbs");
     cat_identity := identity; flag_reason := "" |}.

(** A decoder for the sample batches: two clock texts of one day, already
    shifted to local time, and the weights the samples carry. *)
Definition sample_parse (record : list string) : option parsed_row :=
  match record with
  | a :: t :: v :: _ =>
      let clock :=
        if String.eqb t "1/5 3:05 PM" then Some 36300
        else if String.eqb t "1/5 3:09 PM" then Some 36540
        else None in
      let w :=
        if String.eqb v "10.4 lbs" then Some 10.4%float
        else if String.eqb v "-0.0 lbs" then Some neg_zero
        else if String.eqb v "nan lbs" then Some nan
        else if contains "lbs" v then None
        else Some 0%float in
      match clock, w with
      | Some t', Some w' => Some {| dt := t'; activity := a; weight := w'; raw_val := v |}
      | _, _ => None
      end
  | _ => None
  end.

(** A batch with two events in one minute, and one malformed record. *)
Definition sample_batch : list (list string) :=
  [ ["Cat detected"; "1/5 3:05 PM"; "-"];
    ["Weight recorded"; "1/5 3:05 PM"; "10.4 lbs"];
    ["Weight recorded"; "tomorrow"; "10.4 lbs"];
    ["Clean Cycle In Progress"; "1/5 3:09 PM"; "-"] ].

Definition luna : profile := mk_cat "Luna" 10.5%float.
Definition milo : profile := mk_cat "Milo" 14.5%float.
(** A profile whose target is out of every plausible reading, and one as far
    from a reading of 10 on the other side. *)
Definition titan : profile := mk_cat "Titan" 200%float.
Definition titan2 : profile := mk_cat "Titan2" (-180)%float.
Definition felix : profile := mk_cat "Felix" 12.5%float.

(** A ledger with one profile and nothing else. *)
Definition sample_db : database :=
  {| usage_logs := ∅; upload_history := []; data_blacklist := [];
     cat_profiles := [luna] |}.

(** The ledger after a first upload of the sample batch and the blacklisting
    of its first event, and then after a second upload of the same batch. *)
Definition sample_db_blacklisted : database :=
  fix_entry 36300 "blacklist"
    (upload_file sample_parse "first.csv" sample_batch sample_db).

Definition sample_db_reuploaded : database :=
  upload_file sample_parse "again.csv" sample_batch sample_db_blacklisted.

(** A ledger whose one profile was added with the weight text [nan]: its
    target weight is NULL. *)
Definition null_target_db : database :=
  {| usage_logs := ∅; upload_history := []; data_blacklist := [];
     cat_profiles := [mk_cat "Luna" nan] |}.

(** A file whose one record weighs the negative zero, and the ledger after
    its upload and the blacklisting of the event. *)
Definition signed_zero_batch : list (list string) :=
  [ ["Weight recorded"; "1/5 3:05 PM"; "-0.0 lbs"] ].

Definition signed_zero_blacklisted : database :=
  fix_entry 36300 "blacklist"
    (upload_file sample_parse "first.csv" signed_zero_batch sample_db).

(** * Properties *)

(** ** The text of floats on sample values *)

Example float_str_samples :
  map float_str
    [0.1; 9.1; 2.0; 0.5; 30; 12.5001; 0.30000000000000004; 1e22; 1e16; 1e15;
     0.0001; 0.00001; 5e-324; 1.7976931348623157e308]%float
  = ["0.1"; "9.1"; "2.0"; "0.5"; "30.0"; "12.5001"; "0.30000000000000004";
     "1e+22"; "1e+16"; "1000000000000000.0"; "0.0001"; "1e-05"; "5e-324";
     "1.7976931348623157e+308"]%string.
Proof. vm_compute. reflexivity. Qed.

Example format_1f_samples :
  map format_1f
    [0.1; 9.1; 2.0; 0.25; 0.35; 99.9; 99.95; 190; 0.05; 0.15; 2.0001; 0.04;
     12.25; 12.35]%float
  = ["0.1"; "9.1"; "2.0"; "0.2"; "0.3"; "99.9"; "100.0"; "190.0"; "0.1"; "0.1";
     "2.0"; "0.0"; "12.2"; "12.3"]%string.
Proof. vm_compute. reflexivity. Qed.

(** ** The order of floats

    The comparisons of primitive floats are those of their [spec_float]
    images; on these the order laws follow by cases. *)

Ltac sf_cases :=
  repeat match goal with
  | |- context [Z.compare ?a ?b] => destruct (Z.compare_spec a b)
  | |- context [PosDef.Pos.compare_cont Eq ?a ?b] =>
      change (PosDef.Pos.compare_cont Eq a b) with (Pos.compare a b);
      destruct (Pos.compare_spec a b)
  end; simpl in *; intros; subst; try congruence; try lia.

Ltac sf_destruct :=
  unfold SFltb, SFleb, SFeqb, SFcompare;
  repeat match goal with
  | x : spec_float |- _ => destruct x as [[]|[]| |[] ? ?]
  end;
  simpl; try congruence; sf_cases.

Lemma SFltb_trans x y z :
  SFltb x y = true -> SFltb y z = true -> SFltb x z = true.
Proof. sf_destruct. Qed.

Lemma SFleb_ltb_trans x y z :
  SFleb x y = true -> SFltb y z = true -> SFltb x z = true.
Proof. sf_destruct. Qed.

Lemma SFleb_not_ltb x y : SFleb x y = true -> SFltb y x = false.
Proof. sf_destruct. Qed.

Lemma SFleb_eqb_r x y : SFleb x y = true -> SFeqb y y = true.
Proof. sf_destruct. Qed.

Lemma SFltb_leb_refl x y : SFltb x y = true -> SFleb x x = true /\ SFleb y y = true.
Proof. intros H; split; revert H; sf_destruct. Qed.

Lemma SFleb_total x y :
  SFleb x x = true -> SFleb y y = true -> SFleb x y = false -> SFltb y x = true.
Proof. sf_destruct. Qed.

Lemma SFltb_irrefl x : SFltb x x = false.
Proof. sf_destruct. Qed.

Section FloatOrder.
Open Scope float_scope.

Lemma ltb_trans x y z : (x <? y) = true -> (y <? z) = true -> (x <? z) = true.
Proof. rewrite !ltb_spec. apply SFltb_trans. Qed.

Lemma leb_ltb_trans x y z : (x <=? y) = true -> (y <? z) = true -> (x <? z) = true.
Proof. rewrite !ltb_spec, leb_spec. apply SFleb_ltb_trans. Qed.

Lemma leb_not_ltb x y : (x <=? y) = true -> (y <? x) = false.
Proof. rewrite ltb_spec, leb_spec. apply SFleb_not_ltb. Qed.

Lemma leb_not_nan x y : (x <=? y) = true -> is_nan y = false.
Proof.
  unfold is_nan. rewrite leb_spec, FloatAxioms.eqb_spec. intros H.
  now rewrite (SFleb_eqb_r _ _ H).
Qed.

Lemma ltb_ordered x y : (x <? y) = true -> (x <=? x) = true /\ (y <=? y) = true.
Proof. rewrite ltb_spec, !leb_spec. apply SFltb_leb_refl. Qed.

Lemma leb_total x y :
  (x <=? x) = true -> (y <=? y) = true -> (x <=? y) = false -> (y <? x) = true.
Proof. rewrite ltb_spec, !leb_spec. apply SFleb_total. Qed.

Lemma ltb_irrefl x : (x <? x) = false.
Proof. rewrite ltb_spec. apply SFltb_irrefl. Qed.
End FloatOrder.

(** ** The nearest-neighbour loop *)

Section Nearest.
Open Scope float_scope.
Variable w : float.

(** Profiles that are not strictly closer leave the state as it is. *)
Lemma nearest_fold_unchanged (l : list profile) (b : string) (c : float) :
  (forall r, In r l -> (diff_to w r <? c) = false) ->
  fold_left (nearest_step w) l (b, c) = (b, c).
Proof.
  induction l as [|r l IH]; intros Hl; [reflexivity|].
  simpl. unfold nearest_step at 2. simpl.
  rewrite (Hl r (or_introl eq_refl)). apply IH.
  intros q Hq. apply Hl. now right.
Qed.

(** What is not below the running difference stays so after one turn. *)
Lemma nearest_step_not_below (d : float) (st : string * float) (r : profile) :
  (d <? snd st) = false -> (d <? snd (nearest_step w st r)) = false.
Proof.
  intros Hd. unfold nearest_step.
  destruct (diff_to w r <? snd st) eqn:Hr; [|exact Hd].
  simpl. destruct (d <? diff_to w r) eqn:Hlt; [|reflexivity].
  now rewrite (ltb_trans _ _ _ Hlt Hr) in Hd.
Qed.

Lemma nearest_fold_not_below (d : float) (l : list profile) (st : string * float) :
  (d <? snd st) = false ->
  (d <? snd (fold_left (nearest_step w) l st)) = false.
Proof.
  revert st. induction l as [|r l IH]; intros st Hd; [exact Hd|].
  simpl. apply IH. now apply nearest_step_not_below.
Qed.

(** After its own turn a profile is not below the running difference. *)
Lemma nearest_step_self (st : string * float) (p : profile) :
  (diff_to w p <? snd (nearest_step w st p)) = false.
Proof.
  unfold nearest_step. destruct (diff_to w p <? snd st) eqn:Hp; [|exact Hp].
  apply ltb_irrefl.
Qed.

(** The first profile at the smallest difference wins, from any state whose
    difference it is below. *)
Lemma nearest_fold_first_min (l1 : list profile) (p : profile) (l2 : list profile)
    (b : string) (c : float) :
  (diff_to w p <? c) = true ->
  (forall r, In r l1 -> (diff_to w r <=? diff_to w p) = false) ->
  (forall r, In r l2 -> (diff_to w r <? diff_to w p) = false) ->
  fold_left (nearest_step w) (l1 ++ p :: l2) (b, c) = (name p, diff_to w p).
Proof.
  revert b c. induction l1 as [|r l1 IH]; intros b c Hp H1 H2.
  - simpl. unfold nearest_step at 2. simpl. rewrite Hp.
    now apply nearest_fold_unchanged.
  - simpl. unfold nearest_step at 2. simpl.
    assert (H1' : forall q, In q l1 -> (diff_to w q <=? diff_to w p) = false)
      by (intros q Hq; apply H1; now right).
    destruct (diff_to w r <? c) eqn:Hr.
    + apply IH; [|exact H1'|exact H2].
      apply leb_total.
      * exact (proj1 (ltb_ordered _ _ Hr)).
      * exact (proj1 (ltb_ordered _ _ Hp)).
      * apply H1. now left.
    + now apply IH.
Qed.

(** A profile tied with an earlier one never takes its place. *)
Lemma nearest_later_tie_skipped (l1 : list profile) (p : profile)
    (l2 : list profile) (q : profile) (l3 : list profile) :
  diff_to w q = diff_to w p ->
  nearest w (l1 ++ p :: l2 ++ q :: l3) = nearest w (l1 ++ p :: l2 ++ l3).
Proof.
  intros Hpq. unfold nearest.
  rewrite !fold_left_app. simpl. rewrite !fold_left_app. simpl.
  set (st := fold_left (nearest_step w) l2
               (nearest_step w (fold_left (nearest_step w) l1
                                  ("Unknown"%string, closest_diff_init)) p)).
  assert (Hst : (diff_to w p <? snd st) = false).
  { apply nearest_fold_not_below, nearest_step_self. }
  unfold nearest_step at 2. rewrite Hpq, Hst. reflexivity.
Qed.

(** With no profile below the initial difference the state never moves. *)
Lemma nearest_sentinel (profiles : list profile) :
  (forall p, In p profiles -> (diff_to w p <? closest_diff_init) = false) ->
  nearest w profiles = ("Unknown"%string, closest_diff_init).
Proof. apply nearest_fold_unchanged. Qed.

End Nearest.

(** The classifier on a row that is no machine operation and weighs at least
    0.5: the nearest-neighbour match decides. *)
Lemma classify_row_weighed (row : parsed_row) (profiles : list profile) :
  existsb (fun k => contains k (lower (activity row))) sys_keywords = false ->
  (0.5 <=? weight row)%float = true ->
  classify_row row profiles =
    (if (snd (nearest (weight row) profiles) <=? WEIGHT_TOLERANCE)%float
     then (fst (nearest (weight row) profiles), ""%string)
     else ("Unknown"%string,
           no_match_reason (fst (nearest (weight row) profiles))
                           (snd (nearest (weight row) profiles)))).
Proof.
  intros Hsys Hw. unfold classify_row. rewrite Hsys.
  rewrite (leb_not_ltb _ _ Hw), (leb_not_nan _ _ Hw), andb_false_r. simpl.
  now destruct (nearest (weight row) profiles).
Qed.

(** ** The classifier: claims C6, C7 and C10 *)

(** C10. If every profile's |weight - target_weight| is at least 99.9 (the
    empty profile list included), a row that is no machine operation and
    weighs at least 0.5 is classified Unknown with the reason
    "No match within 2.0lbs (Closest: Unknown @ 99.9 diff)": no profile is
    strictly below the initial difference, so the initial name and difference
    are the ones reported. *)
Theorem classify_row_sentinel_reported (row : parsed_row) (profiles : list profile) :
  existsb (fun k => contains k (lower (activity row))) sys_keywords = false ->
  (0.5 <=? weight row)%float = true ->
  (forall p, In p profiles ->
     (closest_diff_init <=? diff_to (weight row) p)%float = true) ->
  nearest (weight row) profiles = ("Unknown"%string, closest_diff_init)
  /\ classify_row row profiles =
       ("Unknown"%string,
        "No match within 2.0lbs (Closest: Unknown @ 99.9 diff)"%string).
Proof.
  intros Hsys Hw Hfar.
  assert (Hn : nearest (weight row) profiles = ("Unknown"%string, closest_diff_init)).
  { apply nearest_sentinel. intros p Hp. apply leb_not_ltb. now apply Hfar. }
  split; [exact Hn|].
  rewrite (classify_row_weighed row profiles Hsys Hw), Hn. simpl.
  vm_compute. reflexivity.
Qed.

Lemma classify_row_sentinel_reported_witness :
  classify_row (reading 0 "Weight recorded" 10%float) [titan] =
    ("Unknown"%string, "No match within 2.0lbs (Closest: Unknown @ 99.9 diff)"%string)
  /\ classify_row (reading 0 "Weight recorded" 10%float) [] =
    ("Unknown"%string, "No match within 2.0lbs (Closest: Unknown @ 99.9 diff)"%string).
Proof.
  split.
  - apply (classify_row_sentinel_reported (reading 0 "Weight recorded" 10%float) [titan]).
    + vm_compute; reflexivity.
    + vm_compute; reflexivity.
    + intros p [<-|[]]. vm_compute; reflexivity.
  - apply (classify_row_sentinel_reported (reading 0 "Weight recorded" 10%float) []).
    + vm_compute; reflexivity.
    + vm_compute; reflexivity.
    + intros p [].
Defined.

(** C6, as the program has it. For a row that is no machine operation and
    weighs at least 0.5, let [p] be the first profile at the smallest
    |weight - target_weight|, the difference as the floats give it. If that
    difference is below the initial 99.9, the classifier returns [p]'s name
    with an empty reason when the difference is at most 2.0, and otherwise
    Unknown with a reason naming [p] and its difference to one decimal. A
    difference of exactly 2.0 matches, and every difference above 2.0 falls
    to Unknown. *)
Theorem classify_row_nearest_profile
    (row : parsed_row) (l1 : list profile) (p : profile) (l2 : list profile) :
  existsb (fun k => contains k (lower (activity row))) sys_keywords = false ->
  (0.5 <=? weight row)%float = true ->
  (forall r, In r l1 -> (diff_to (weight row) r <=? diff_to (weight row) p)%float = false) ->
  (forall r, In r l2 -> (diff_to (weight row) r <? diff_to (weight row) p)%float = false) ->
  (diff_to (weight row) p <? closest_diff_init)%float = true ->
  classify_row row (l1 ++ p :: l2) =
    (if (diff_to (weight row) p <=? 2.0)%float then (name p, ""%string)
     else ("Unknown"%string, no_match_reason (name p) (diff_to (weight row) p)))
  /\ (diff_to (weight row) p = 2.0%float ->
      classify_row row (l1 ++ p :: l2) = (name p, ""%string))
  /\ ((2.0 <? diff_to (weight row) p)%float = true ->
      classify_row row (l1 ++ p :: l2) =
        ("Unknown"%string, no_match_reason (name p) (diff_to (weight row) p))).
Proof.
  intros Hsys Hw H1 H2 Hp.
  assert (Hn : nearest (weight row) (l1 ++ p :: l2) = (name p, diff_to (weight row) p))
    by now apply nearest_fold_first_min.
  assert (Hc : classify_row row (l1 ++ p :: l2) =
               (if (diff_to (weight row) p <=? 2.0)%float then (name p, ""%string)
                else ("Unknown"%string,
                      no_match_reason (name p) (diff_to (weight row) p)))).
  { rewrite (classify_row_weighed row _ Hsys Hw), Hn. reflexivity. }
  split; [exact Hc|]. split.
  - intros H2'. rewrite Hc, H2'. reflexivity.
  - intros Habove. rewrite Hc.
    destruct (diff_to (weight row) p <=? 2.0)%float eqn:Hle; [|reflexivity].
    apply leb_not_ltb in Hle. rewrite Hle in Habove. discriminate.
Qed.

Lemma classify_row_nearest_profile_witness :
  classify_row (reading 0 "Weight recorded" 12.5%float) [milo; luna] = ("Milo"%string, ""%string)
  /\ classify_row (reading 0 "Weight recorded" 12.5%float) [luna] = ("Luna"%string, ""%string)
  /\ classify_row (reading 0 "Weight recorded" 12.5001%float) [luna] =
       ("Unknown"%string, "No match within 2.0lbs (Closest: Luna @ 2.0 diff)"%string).
Proof.
  split; [|split].
  - refine (proj1 (classify_row_nearest_profile
             (reading 0 "Weight recorded" 12.5%float) [] milo [luna] _ _ _ _ _));
      try (vm_compute; reflexivity).
    + intros r [].
    + intros r [<-|[]]. vm_compute; reflexivity.
  - refine (proj1 (classify_row_nearest_profile
             (reading 0 "Weight recorded" 12.5%float) [] luna [] _ _ _ _ _));
      try (vm_compute; reflexivity); intros r [].
  - etransitivity.
    + refine (proj2 (proj2 (classify_row_nearest_profile
               (reading 0 "Weight recorded" 12.5001%float) [] luna [] _ _ _ _ _)) _);
        try (vm_compute; reflexivity); intros r [].
    + vm_compute. reflexivity.
Defined.

(** C6 as worded fails in three ways.

    On a far profile: with the single profile Titan (target 200) and a
    reading of 10, Titan is the closest candidate, at 190, yet the reason
    names "Unknown" at 99.9.

    On the boundary: a weight of exactly target_weight + 2.0 need not match.
    With the target 7.8 the sum 7.8 + 2.0 is the double 9.8, whose difference
    to 7.8 is the double 2.000000000000001: the row falls to Unknown.

    Past the boundary: a weight of target_weight + 2.0001 need not fall to
    Unknown. With the target 1e16 the sum rounds to 1e16 + 2, at the
    difference 2.0: the row matches. *)
Lemma classify_row_counterexample :
  (existsb (fun k => contains k (lower (activity (reading 0 "Weight recorded" 10%float))))
           sys_keywords = false
   /\ contains "cat detected" (lower (activity (reading 0 "Weight recorded" 10%float))) = false
   /\ (0.5 <=? weight (reading 0 "Weight recorded" 10%float))%float = true
   /\ diff_to 10%float titan = 190%float
   /\ classify_as_worded (reading 0 "Weight recorded" 10%float) titan =
        ("Unknown"%string, "No match within 2.0lbs (Closest: Titan @ 190.0 diff)"%string)
   /\ classify_row (reading 0 "Weight recorded" 10%float) [titan] =
        ("Unknown"%string, "No match within 2.0lbs (Closest: Unknown @ 99.9 diff)"%string)
   /\ classify_row (reading 0 "Weight recorded" 10%float) [titan]
      <> classify_as_worded (reading 0 "Weight recorded" 10%float) titan)
  /\ ((7.8 + 2.0)%float = 9.8%float
      /\ float_str (diff_to (7.8 + 2.0)%float (mk_cat "Luna" 7.8%float))
         = "2.000000000000001"%string
      /\ classify_row (reading 0 "Weight recorded" (7.8 + 2.0)%float)
           [mk_cat "Luna" 7.8%float]
         = ("Unknown"%string,
            "No match within 2.0lbs (Closest: Luna @ 2.0 diff)"%string))
  /\ (diff_to (1e16 + 2.0001)%float (mk_cat "Luna" 1e16%float) = 2.0%float
      /\ classify_row (reading 0 "Weight recorded" (1e16 + 2.0001)%float)
           [mk_cat "Luna" 1e16%float]
         = ("Luna"%string, ""%string)).
Proof.
  split; [|split].
  - repeat split; try (vm_compute; reflexivity). vm_compute. discriminate.
  - repeat split; vm_compute; reflexivity.
  - split; vm_compute; reflexivity.
Qed.

(** The classification depends on the profiles through [nearest] alone. *)
Lemma classify_row_nearest_ext (row : parsed_row) (ps ps' : list profile) :
  nearest (weight row) ps = nearest (weight row) ps' ->
  classify_row row ps = classify_row row ps'.
Proof. intros H. unfold classify_row. now rewrite H. Qed.

(** C7, as the program has it. Of two profiles at the same
    |weight - target_weight|, the later one never takes the place of the
    earlier: the classifier answers as if the later were not in the list.
    When the tie is at the smallest difference of the list and that
    difference is below the initial 99.9, the earlier profile is the one
    selected, whatever follows it; it is the match when the difference is
    within the tolerance. *)
Theorem classify_row_tie_keeps_first
    (row : parsed_row) (l1 : list profile) (p : profile) (l2 : list profile)
    (q : profile) (l3 : list profile) :
  diff_to (weight row) q = diff_to (weight row) p ->
  nearest (weight row) (l1 ++ p :: l2 ++ q :: l3)
    = nearest (weight row) (l1 ++ p :: l2 ++ l3)
  /\ classify_row row (l1 ++ p :: l2 ++ q :: l3)
     = classify_row row (l1 ++ p :: l2 ++ l3)
  /\ ((forall r, In r l1 ->
         (diff_to (weight row) r <=? diff_to (weight row) p)%float = false) ->
      (forall r, In r (l2 ++ l3) ->
         (diff_to (weight row) r <? diff_to (weight row) p)%float = false) ->
      (diff_to (weight row) p <? closest_diff_init)%float = true ->
      fst (nearest (weight row) (l1 ++ p :: l2 ++ q :: l3)) = name p
      /\ (existsb (fun k => contains k (lower (activity row))) sys_keywords = false ->
          (0.5 <=? weight row)%float = true ->
          (diff_to (weight row) p <=? WEIGHT_TOLERANCE)%float = true ->
          classify_row row (l1 ++ p :: l2 ++ q :: l3) = (name p, ""%string))).
Proof.
  intros Htie.
  assert (Hskip := nearest_later_tie_skipped (weight row) l1 p l2 q l3 Htie).
  split; [exact Hskip|].
  split; [now apply classify_row_nearest_ext|].
  intros H1 H23 Hp.
  assert (Hn : nearest (weight row) (l1 ++ p :: l2 ++ l3)
               = (name p, diff_to (weight row) p))
    by now apply nearest_fold_first_min.
  split; [now rewrite Hskip, Hn|].
  intros Hsys Hw Htol.
  rewrite (classify_row_weighed row _ Hsys Hw), Hskip, Hn. simpl.
  now rewrite Htol.
Qed.

Lemma classify_row_tie_keeps_first_witness :
  classify_row (reading 0 "Weight recorded" 12.5%float) [luna; milo]
    = ("Luna"%string, ""%string)
  /\ classify_row (reading 0 "Weight recorded" 12.5%float) [milo; luna]
    = ("Milo"%string, ""%string).
Proof.
  split.
  - refine (proj2 (proj2 (proj2 (classify_row_tie_keeps_first
             (reading 0 "Weight recorded" 12.5%float) [] luna [] milo [] _)) _ _ _)
             _ _ _);
      try (vm_compute; reflexivity); intros r [].
  - refine (proj2 (proj2 (proj2 (classify_row_tie_keeps_first
             (reading 0 "Weight recorded" 12.5%float) [] milo [] luna [] _)) _ _ _)
             _ _ _);
      try (vm_compute; reflexivity); intros r [].
Defined.

(** C7 as worded fails in two ways.

    On a far tie: Titan (target 200) and Titan2 (target -180) are both at 190
    from a reading of 10; neither is selected, and the reason names "Unknown"
    at 99.9.

    On a tie that is not at the smallest difference: Luna (10.5) and Milo
    (14.5) are both at 2.0 from a reading of 12.5, and Felix (12.5), later in
    the list, is selected. *)
Lemma classify_row_tie_counterexample :
  (diff_to 10%float titan = diff_to 10%float titan2
   /\ nearest 10%float [titan; titan2] = ("Unknown"%string, closest_diff_init)
   /\ classify_row (reading 0 "Weight recorded" 10%float) [titan; titan2] =
        ("Unknown"%string,
         "No match within 2.0lbs (Closest: Unknown @ 99.9 diff)"%string)
   /\ fst (nearest 10%float [titan; titan2]) <> name titan)
  /\ (diff_to 12.5%float luna = diff_to 12.5%float milo
      /\ classify_row (reading 0 "Weight recorded" 12.5%float) [luna; milo; felix]
         = ("Felix"%string, ""%string)
      /\ fst (nearest 12.5%float [luna; milo; felix]) <> name luna).
Proof.
  split.
  - split; [vm_compute; reflexivity|]. split; [vm_compute; reflexivity|].
    split; [vm_compute; reflexivity|]. vm_compute. discriminate.
  - split; [vm_compute; reflexivity|]. split; [vm_compute; reflexivity|].
    vm_compute. discriminate.
Qed.

Example tie_luna_first :
  classify_row (reading 0 "Weight recorded" 12.5%float) [luna; milo] = ("Luna"%string, ""%string).
Proof. vm_compute; reflexivity. Qed.

Example tie_milo_first :
  classify_row (reading 0 "Weight recorded" 12.5%float) [milo; luna] = ("Milo"%string, ""%string).
Proof. vm_compute; reflexivity. Qed.

(** ** Visit grouping: claims C2 and C3 *)

(** Decides the integer comparisons of a goal by cases. *)
Ltac z_cases :=
  repeat match goal with
  | |- context [?a <? ?b] => destruct (Z.ltb_spec a b); try lia
  | |- context [?a <=? ?b] => destruct (Z.leb_spec a b); try lia
  | |- context [?a =? ?b] => destruct (Z.eqb_spec a b); try lia
  end; simpl.

(** The loop on three events at T, T + 5 min and T + 12 min. *)
Lemma visit_loop_T_5_12 (T : Z) :
  visit_loop [T; T + 5 * 60; T + 12 * 60] = (2%nat, Some (T + 12 * 60)).
Proof.
  unfold visit_loop, visit_step. simpl. z_cases. z_cases. reflexivity.
Qed.

(** C3. For any identity, three events of that identity at T, T + 5 min and
    T + 12 min inside the dashboard's 30-day range count as exactly 2 visits. *)
Theorem true_visits_T_5_12
    (cat_name : string) (thirty_days_ago_dt T : Z) (r1 r2 r3 : usage_log) :
  thirty_days_ago_dt < T ->
  cat_identity r1 = cat_name -> cat_identity r2 = cat_name ->
  cat_identity r3 = cat_name ->
  timestamp r1 = T -> timestamp r2 = T + 5 * 60 -> timestamp r3 = T + 12 * 60 ->
  true_visits cat_name thirty_days_ago_dt [r1; r2; r3] = 2%nat
  /\ true_visits cat_name thirty_days_ago_dt [r1; r2; r3] <> 1%nat
  /\ true_visits cat_name thirty_days_ago_dt [r1; r2; r3] <> 3%nat.
Proof.
  intros Hrecent H1 H2 H3 T1 T2 T3.
  assert (Hv : true_visits cat_name thirty_days_ago_dt [r1; r2; r3] = 2%nat).
  { unfold true_visits. simpl.
    rewrite H1, H2, H3, String.eqb_refl. simpl.
    rewrite T1, T2, T3. z_cases.
    unfold sort_by. simpl. rewrite T2, T3. z_cases.
    rewrite T1, T2. z_cases.
    rewrite T1, T2, T3.
    now rewrite (visit_loop_T_5_12 T). }
  rewrite Hv. repeat split; discriminate.
Qed.

Lemma true_visits_T_5_12_witness :
  true_visits "Luna" 0
    [ logged 1000 "Weight recorded" 10.5%float "Luna";
      logged 1300 "Cat detected" 0%float "Luna";
      logged 1720 "Weight recorded" 10.4%float "Luna" ] = 2%nat.
Proof.
  refine (proj1 (true_visits_T_5_12 "Luna" 0 1000 _ _ _ _ _ _ _ _ _ _));
    solve [reflexivity | lia].
Defined.

Lemma visit_loop_snoc (times : list Z) (t : Z) :
  visit_loop (times ++ [t]) = visit_step (visit_loop times) t.
Proof. unfold visit_loop. now rewrite fold_left_app. Qed.

(** The anchor is the time of an event of the sequence, and there is one as
    soon as there is an event. *)
Lemma visit_loop_anchor_in (times : list Z) :
  (snd (visit_loop times) = None <-> times = [])
  /\ (forall a, snd (visit_loop times) = Some a -> In a times).
Proof.
  induction times as [|t times IH] using rev_ind.
  - split; [tauto|]. intros a H. discriminate.
  - rewrite visit_loop_snoc. destruct IH as [IHn IHa].
    unfold visit_step. destruct (snd (visit_loop times)) as [a0|] eqn:Ha.
    + destruct (10 * 60 <? t - a0); simpl.
      * split; [split; [discriminate|intros H; now destruct times]|].
        intros a [= <-]. apply in_or_app. right. now left.
      * rewrite Ha. split; [split; [discriminate|intros H; now destruct times]|].
        intros a [= <-]. apply in_or_app. left. now apply IHa.
    + simpl. split; [split; [discriminate|intros H; now destruct times]|].
      intros a [= <-]. apply in_or_app. right. now left.
Qed.

(** C2, as the program has it. Walking the sequence once, the loop starts a
    new visit exactly when there is no prior visit or when the current event
    is more than 10 minutes after the anchor of the open visit; the anchor is
    the time of the event that opened the visit and stays there when an event
    merges, so events at T, T + 8 min and T + 16 min form two visits. *)
Theorem visit_loop_anchor_fixed (times : list Z) (t : Z) :
  (fst (visit_loop (times ++ [t])) = S (fst (visit_loop times)) <->
     (snd (visit_loop times) = None
      \/ exists a, snd (visit_loop times) = Some a /\ 10 * 60 < t - a))
  /\ (fst (visit_loop (times ++ [t])) = S (fst (visit_loop times)) ->
      snd (visit_loop (times ++ [t])) = Some t)
  /\ (fst (visit_loop (times ++ [t])) <> S (fst (visit_loop times)) ->
      visit_loop (times ++ [t]) = visit_loop times)
  /\ (snd (visit_loop times) = None <-> times = [])
  /\ (forall a, snd (visit_loop times) = Some a -> In a times)
  /\ (forall T, visit_loop [T; T + 8 * 60; T + 16 * 60] = (2%nat, Some (T + 16 * 60))).
Proof.
  destruct (visit_loop_anchor_in times) as [Hnone Hin].
  assert (HT : forall T, visit_loop [T; T + 8 * 60; T + 16 * 60]
                         = (2%nat, Some (T + 16 * 60))).
  { intros T. unfold visit_loop, visit_step. simpl. z_cases. z_cases. reflexivity. }
  rewrite visit_loop_snoc. unfold visit_step.
  destruct (visit_loop times) as [n [a|]] eqn:Hst; simpl in *.
  - destruct (Z.ltb_spec (10 * 60) (t - a)) as [Hgap|Hgap]; simpl.
    + split; [|split; [|split; [|split; [|split]]]]; trivial.
      * split; [|reflexivity]. intros _. right. exists a. now split.
      * intros H. now contradict H.
    + split; [|split; [|split; [|split; [|split]]]]; trivial.
      * split; [lia|]. intros [H|(a' & H & H')]; [discriminate|].
        injection H as <-. lia.
      * lia.
  - split; [|split; [|split; [|split; [|split]]]]; trivial.
    + split; [|reflexivity]. intros _. now left.
    + intros H. now contradict H.
Qed.

(** C2 as worded fails on events at 0, 8 and 16 minutes: the anchor stays at
    the first event, so the third event opens a second visit, where a moving
    anchor gives a single visit. *)
Lemma visit_anchor_counterexample :
  visit_loop [0; 8 * 60; 16 * 60] = (2%nat, Some (16 * 60))
  /\ visit_loop_as_worded [0; 8 * 60; 16 * 60] = (1%nat, Some (16 * 60))
  /\ snd (visit_loop [0; 8 * 60]) = Some 0
  /\ snd (visit_loop_as_worded [0; 8 * 60]) = Some (8 * 60).
Proof. repeat split; reflexivity. Qed.

(** ** The look-ahead correlator: claim C1 *)

(** The rows of the look-ahead are the 19 that follow the row, or fewer at
    the end of the batch. *)
Lemma look_ahead_rows_19 (i : nat) (parsed_rows : list parsed_row) :
  look_ahead_rows i parsed_rows = firstn 19 (skipn (S i) parsed_rows).
Proof.
  unfold look_ahead_rows. replace (i + 1)%nat with (S i) by lia.
  destruct (Nat.le_gt_cases (i + 20) (List.length parsed_rows)) as [Hlen|Hlen].
  - rewrite Nat.min_l by exact Hlen. f_equal. lia.
  - rewrite Nat.min_r by lia.
    rewrite !firstn_all2; trivial; rewrite length_skipn; lia.
Qed.

(** The loop with its two exits is a search in the rows before the first one
    that is more than 7 minutes away. *)
Lemma look_ahead_find (row : parsed_row) (futures : list parsed_row) :
  look_ahead row futures =
    option_map (fun r => (r, dt r - dt row))
               (List.find weight_reading (take_while (within_7m row) futures)).
Proof.
  induction futures as [|r futures IH]; [reflexivity|].
  simpl. unfold within_7m at 1.
  destruct (7 * 60 <? dt r - dt row); [reflexivity|].
  simpl. destruct (weight_reading r); [reflexivity|exact IH].
Qed.

(** C1, as the program has it. For a motion-detection row at index [i] of the
    sorted batch the correlator examines the rows at [i+1 .. i+19], up to the
    first one more than 7 minutes after the motion row. The first examined row
    whose activity contains "weight recorded" and whose weight is above 0.5
    gives the identity of its classification, with a reason recording its
    weight and the elapsed whole minutes unless that identity is Unknown; with
    no such row the motion row keeps its own classification; and an identity
    Unknown always carries the reason "No weight found in 7m". In particular a
    motion row without weight and without a weight row in the window is
    Unknown, "No weight found in 7m". *)
Theorem correlate_motion_window
    (profiles : list profile) (parsed_rows : list parsed_row) (i : nat)
    (row : parsed_row) :
  contains "cat detected" (lower (activity row)) = true ->
  correlate profiles parsed_rows i row =
    match
      List.find weight_reading
        (take_while (within_7m row) (firstn 19 (skipn (S i) parsed_rows)))
    with
    | Some r =>
        (fst (classify_row r profiles),
         if String.eqb (fst (classify_row r profiles)) "Unknown"
         then "No weight found in 7m"%string
         else matched_reason r (dt r - dt row))
    | None =>
        (fst (classify_row row profiles),
         if String.eqb (fst (classify_row row profiles)) "Unknown"
         then "No weight found in 7m"%string
         else snd (classify_row row profiles))
    end
  /\ (List.find weight_reading
        (take_while (within_7m row) (firstn 19 (skipn (S i) parsed_rows))) = None ->
      existsb (fun k => contains k (lower (activity row))) sys_keywords = false ->
      (weight row <? 0.5)%float = true ->
      correlate profiles parsed_rows i row
        = ("Unknown"%string, "No weight found in 7m"%string)).
Proof.
  intros Hmotion.
  assert (Heq : correlate profiles parsed_rows i row =
    match
      List.find weight_reading
        (take_while (within_7m row) (firstn 19 (skipn (S i) parsed_rows)))
    with
    | Some r =>
        (fst (classify_row r profiles),
         if String.eqb (fst (classify_row r profiles)) "Unknown"
         then "No weight found in 7m"%string
         else matched_reason r (dt r - dt row))
    | None =>
        (fst (classify_row row profiles),
         if String.eqb (fst (classify_row row profiles)) "Unknown"
         then "No weight found in 7m"%string
         else snd (classify_row row profiles))
    end).
  { unfold correlate. rewrite Hmotion, look_ahead_find, look_ahead_rows_19.
    destruct (classify_row row profiles) as [cat_id reason].
    destruct (List.find weight_reading _) as [r|]; simpl.
    - now destruct (String.eqb (fst (classify_row r profiles)) "Unknown").
    - now destruct (String.eqb cat_id "Unknown"). }
  split; [exact Heq|].
  intros Hnone Hsys Hw. rewrite Heq, Hnone.
  unfold classify_row. rewrite Hsys, Hmotion, Hw. reflexivity.
Qed.

Lemma correlate_motion_window_witness :
  correlate [luna]
    [reading 0 "Cat detected" 0%float; reading 360 "Weight recorded" 9.1%float] 0
    (reading 0 "Cat detected" 0%float)
    = ("Luna"%string, "Matched w/ 9.1lbs (+6m)"%string)
  /\ correlate [luna]
    [reading 0 "Cat detected" 0%float; reading 480 "Weight recorded" 9.1%float] 0
    (reading 0 "Cat detected" 0%float)
    = ("Unknown"%string, "No weight found in 7m"%string).
Proof.
  split.
  - rewrite (proj1 (correlate_motion_window [luna]
      [reading 0 "Cat detected" 0%float; reading 360 "Weight recorded" 9.1%float] 0
      (reading 0 "Cat detected" 0%float) eq_refl)).
    vm_compute. reflexivity.
  - apply (proj2 (correlate_motion_window [luna]
      [reading 0 "Cat detected" 0%float; reading 480 "Weight recorded" 9.1%float] 0
      (reading 0 "Cat detected" 0%float) eq_refl)); vm_compute; reflexivity.
Defined.

(** C1 as worded fails in three ways: the row at [i+20] is never examined; a
    weight of exactly 0.5 is not adopted; and an adopted row that the
    classifier leaves Unknown has its weight and minutes overwritten by
    "No weight found in 7m". *)
Lemma correlate_counterexample :
  (correlate [luna]
     (reading 0 "Cat detected" 0%float
        :: repeat (reading 60 "Cat detected" 0%float) 19
        ++ [reading 120 "Weight recorded" 9.1%float]) 0
     (reading 0 "Cat detected" 0%float)
     = ("Unknown"%string, "No weight found in 7m"%string)
   /\ correlate_as_worded [luna]
     (reading 0 "Cat detected" 0%float
        :: repeat (reading 60 "Cat detected" 0%float) 19
        ++ [reading 120 "Weight recorded" 9.1%float]) 0
     (reading 0 "Cat detected" 0%float)
     = ("Luna"%string, "Matched w/ 9.1lbs (+2m)"%string))
  /\ (correlate [mk_cat "Kitten" 1%float]
        [reading 0 "Cat detected" 0%float; reading 60 "Weight recorded" 0.5%float] 0
        (reading 0 "Cat detected" 0%float)
        = ("Unknown"%string, "No weight found in 7m"%string)
      /\ correlate_as_worded [mk_cat "Kitten" 1%float]
        [reading 0 "Cat detected" 0%float; reading 60 "Weight recorded" 0.5%float] 0
        (reading 0 "Cat detected" 0%float)
        = ("Kitten"%string, "Matched w/ 0.5lbs (+1m)"%string))
  /\ (correlate [luna]
        [reading 0 "Cat detected" 0%float; reading 60 "Weight recorded" 30%float] 0
        (reading 0 "Cat detected" 0%float)
        = ("Unknown"%string, "No weight found in 7m"%string)
      /\ correlate_as_worded [luna]
        [reading 0 "Cat detected" 0%float; reading 60 "Weight recorded" 30%float] 0
        (reading 0 "Cat detected" 0%float)
        = ("Unknown"%string, "Matched w/ 30.0lbs (+1m)"%string)).
Proof. repeat split; vm_compute; reflexivity. Qed.

(** ** Frames ordered by timestamp *)

Lemma last_filter_None {A : Type} (f : A -> bool) (l : list A) :
  last (List.filter f l) = None <-> forall r, In r l -> f r = false.
Proof.
  rewrite last_None. split.
  - intros Hnil r Hr. destruct (f r) eqn:Hf; [|reflexivity].
    assert (Hin : In r (List.filter f l)) by (apply filter_In; now split).
    rewrite Hnil in Hin. destruct Hin.
  - intros Hall. induction l as [|x l IH]; [reflexivity|].
    simpl. rewrite (Hall x (or_introl eq_refl)). apply IH.
    intros r Hr. apply Hall. now right.
Qed.

(** In an ordered frame, [iloc[-1]] of a selection is its most recent row. *)
Lemma last_filter_most_recent (f : usage_log -> bool) (df : list usage_log)
    (s : usage_log) :
  time_ordered df ->
  last (List.filter f df) = Some s ->
  In s df /\ f s = true
  /\ forall r, In r df -> f r = true -> timestamp r <= timestamp s.
Proof.
  unfold time_ordered. intros Hsorted.
  induction Hsorted as [|x l Hl IH Hx]; [discriminate|].
  simpl. destruct (f x) eqn:Hfx.
  - rewrite last_cons. destruct (last (List.filter f l)) as [y|] eqn:Hlast.
    + intros Hs. injection Hs as ->. destruct (IH eq_refl) as (Hin & Hfy & Hmax).
      split; [now right|]. split; [exact Hfy|].
      intros r [Hr|Hr] Hfr; [|now apply Hmax].
      subst r. rewrite List.Forall_forall in Hx. now apply Z.lt_le_incl, Hx.
    + intros Hs. injection Hs as ->. split; [now left|]. split; [exact Hfx|].
      intros r [Hr|Hr] Hfr; [subst r; lia|].
      apply last_filter_None with (r := r) in Hlast; [congruence|exact Hr].
  - intros Hlast. destruct (IH Hlast) as (Hin & Hfs & Hmax).
    split; [now right|]. split; [exact Hfs|].
    intros r [Hr|Hr] Hfr; [subst r; congruence|now apply Hmax].
Qed.

(** The rows of an ordered frame are told apart by their timestamps. *)
Lemma time_ordered_inj (df : list usage_log) (a b : usage_log) :
  time_ordered df -> In a df -> In b df -> timestamp a = timestamp b -> a = b.
Proof.
  unfold time_ordered. intros Hsorted.
  induction Hsorted as [|x l Hl IH Hx]; [intros []|].
  rewrite List.Forall_forall in Hx.
  intros [Ha|Ha] [Hb|Hb] Heq; subst; trivial.
  - specialize (Hx b Hb). lia.
  - specialize (Hx a Ha). lia.
  - now apply IH.
Qed.

Lemma filter_filter_andb {A : Type} (f g : A -> bool) (l : list A) :
  List.filter g (List.filter f l) = List.filter (fun x => f x && g x) l.
Proof.
  induction l as [|x l IH]; [reflexivity|].
  simpl. destruct (f x); simpl; [destruct (g x)|]; now rewrite IH.
Qed.

(** ** Cycle durations: claim C4 *)

(** C4, as the program has it. In a frame ordered by timestamp, an end marker
    is paired with the most recent start marker before it, whether or not an
    earlier end marker was paired with that start; the pair gives a point of
    the duration series if and only if its duration is strictly between 60 and
    300 seconds and no "Cycle interrupted" row lies strictly between the two.
    A start and an end 90 seconds apart give one point; with an interruption
    between them they give none. *)
Theorem machine_point_most_recent_start
    (df : list usage_log) (end_row : usage_log) (ts d : Z) :
  time_ordered df ->
  (machine_point df end_row = Some (ts, d) <->
   exists start_row,
     In start_row df
     /\ log_activity start_row = "Clean Cycle In Progress"%string
     /\ timestamp start_row < timestamp end_row
     /\ (forall s, In s df ->
           log_activity s = "Clean Cycle In Progress"%string ->
           timestamp s < timestamp end_row ->
           timestamp s <= timestamp start_row)
     /\ ts = timestamp start_row
     /\ d = timestamp end_row - timestamp start_row
     /\ 60 < d < 300
     /\ (forall r, In r df ->
           log_activity r = "Cycle interrupted"%string ->
           ~ (timestamp start_row < timestamp r < timestamp end_row)))
  /\ (forall T w1 w2 i1 i2,
        machine_health
          [logged T "Clean Cycle In Progress" w1 i1;
           logged (T + 90) "Clean Cycle Complete" w2 i2] = [(T, 90)])
  /\ (forall T Ti w1 w2 w3 i1 i2 i3,
        T < Ti < T + 90 ->
        machine_health
          [logged T "Clean Cycle In Progress" w1 i1;
           logged Ti "Cycle interrupted" w3 i3;
           logged (T + 90) "Clean Cycle Complete" w2 i2] = []).
Proof.
  intros Hsorted. split; [|split].
  - unfold machine_point, cycle_start. rewrite filter_filter_andb.
    set (f := fun r : usage_log =>
                String.eqb (log_activity r) "Clean Cycle In Progress"
                && (timestamp r <? timestamp end_row)).
    assert (Hf : forall r, f r = true <->
               log_activity r = "Clean Cycle In Progress"%string
               /\ timestamp r < timestamp end_row).
    { intros r. unfold f. rewrite andb_true_iff, String.eqb_eq, Z.ltb_lt. tauto. }
    assert (Hint : forall s, Nat.eqb (List.length (interruptions df s end_row)) 0 = true <->
               forall r, In r df -> log_activity r = "Cycle interrupted"%string ->
                 ~ (timestamp s < timestamp r < timestamp end_row)).
    { intros s. rewrite Nat.eqb_eq, length_zero_iff_nil. unfold interruptions.
      split.
      - intros Hnil r Hr Hact Hbetween.
        assert (Hin : In r (List.filter
           (fun r => (timestamp s <? timestamp r) && (timestamp r <? timestamp end_row)
                     && String.eqb (log_activity r) "Cycle interrupted") df)).
        { apply filter_In. split; [exact Hr|].
          rewrite !andb_true_iff, !Z.ltb_lt, String.eqb_eq. tauto. }
        rewrite Hnil in Hin. destruct Hin.
      - intros Hno. apply last_None, last_filter_None. intros r Hr.
        apply not_true_is_false. rewrite !andb_true_iff, !Z.ltb_lt, String.eqb_eq.
        intros [[H1 H2] H3]. now apply (Hno r Hr H3). }
    split.
    + destruct (last (List.filter f df)) as [start_row|] eqn:Hlast; [|discriminate].
      destruct (last_filter_most_recent f df start_row Hsorted Hlast)
        as (Hin & Hfs & Hmax).
      apply Hf in Hfs. destruct Hfs as [Hact Hbefore].
      destruct (Nat.eqb _ 0) eqn:Hnone; [|discriminate]. simpl.
      destruct (Z.ltb_spec 60 (timestamp end_row - timestamp start_row)); [|discriminate].
      destruct (Z.ltb_spec (timestamp end_row - timestamp start_row) 300); [|discriminate].
      simpl. intros [= <- <-]. exists start_row.
      repeat split; trivial; try lia.
      * intros s Hs Hsact Hsbefore. apply Hmax; [exact Hs|]. now apply Hf.
      * apply Hint. exact Hnone.
    + intros (start_row & Hin & Hact & Hbefore & Hmax & -> & -> & Hdur & Hno).
      destruct (last (List.filter f df)) as [s|] eqn:Hlast.
      * destruct (last_filter_most_recent f df s Hsorted Hlast) as (Hsin & Hfs & Hsmax).
        apply Hf in Hfs. destruct Hfs as [Hsact Hsbefore].
        assert (Hts : timestamp s = timestamp start_row).
        { apply Z.le_antisymm; [now apply Hmax|]. apply Hsmax; [exact Hin|].
          now apply Hf. }
        assert (Hnone : Nat.eqb (List.length (interruptions df s end_row)) 0 = true).
        { apply Hint. intros r Hr Hract. rewrite Hts. now apply Hno. }
        rewrite Hnone, Hts. simpl.
        destruct (Z.ltb_spec 60 (timestamp end_row - timestamp start_row)); [|lia].
        destruct (Z.ltb_spec (timestamp end_row - timestamp start_row) 300); [|lia].
        reflexivity.
      * apply last_filter_None with (r := start_row) in Hlast; [|exact Hin].
        assert (f start_row = true) by now apply Hf. congruence.
  - intros T w1 w2 i1 i2. unfold machine_health, machine_point, interruptions.
    simpl. z_cases. z_cases. replace (T + 90 - T) with 90 by lia. reflexivity.
  - intros T Ti w1 w2 w3 i1 i2 i3 HTi.
    unfold machine_health, machine_point, interruptions.
    simpl. z_cases. z_cases. reflexivity.
Qed.

Lemma machine_point_most_recent_start_witness :
  time_ordered
    [logged 1000 "Clean Cycle In Progress" 0%float "System";
     logged 1090 "Clean Cycle Complete" 0%float "System"]
  /\ machine_point
       [logged 1000 "Clean Cycle In Progress" 0%float "System";
        logged 1090 "Clean Cycle Complete" 0%float "System"]
       (logged 1090 "Clean Cycle Complete" 0%float "System") = Some (1000, 90).
Proof.
  assert (Hsorted : time_ordered
    [logged 1000 "Clean Cycle In Progress" 0%float "System";
     logged 1090 "Clean Cycle Complete" 0%float "System"]).
  { repeat constructor; simpl; lia. }
  split; [exact Hsorted|].
  apply (proj1 (machine_point_most_recent_start _ _ 1000 90 Hsorted)).
  exists (logged 1000 "Clean Cycle In Progress" 0%float "System").
  repeat split; simpl; try lia; try tauto.
  - intros s [<-|[<-|[]]]; simpl; intros; solve [lia | discriminate].
  - intros r [<-|[<-|[]]]; simpl; intros; solve [lia | discriminate].
Defined.

(** C4 as worded fails on a start followed by two end markers: both pair with
    the one start and give two points, where pairing with unmatched starts
    gives one. *)
Lemma machine_health_counterexample :
  machine_health
    [logged 0 "Clean Cycle In Progress" 0%float "System";
     logged 90 "Clean Cycle Complete" 0%float "System";
     logged 180 "Clean Cycle Complete" 0%float "System"] = [(0, 90); (0, 180)]
  /\ machine_health_as_worded
    [logged 0 "Clean Cycle In Progress" 0%float "System";
     logged 90 "Clean Cycle Complete" 0%float "System";
     logged 180 "Clean Cycle Complete" 0%float "System"] = [(0, 90)].
Proof. split; vm_compute; reflexivity. Qed.

(** ** Dwell estimates: claim C5 *)

(** C5, as the program has it. For a cycle start and an identity, with the
    virtual exit 15 minutes before the start and the lookback window the 30
    minutes that end there, an estimate is emitted if and only if the most
    recent motion-detection row of the window, of whatever identity, has the
    identity under evaluation and lies strictly between 0 and 30 minutes
    before the virtual exit; the estimate is that gap. *)
Theorem dwell_point_last_motion
    (cat : string) (df : list usage_log) (start_row : usage_log) (ts d : Z) :
  time_ordered df ->
  (dwell_point cat df start_row = Some (ts, d) <->
   exists m,
     In m df
     /\ contains "cat detected" (lower (log_activity m)) = true
     /\ timestamp start_row - 15 * 60 - 30 * 60 <= timestamp m
        <= timestamp start_row - 15 * 60
     /\ (forall r, In r df ->
           contains "cat detected" (lower (log_activity r)) = true ->
           timestamp start_row - 15 * 60 - 30 * 60 <= timestamp r
             <= timestamp start_row - 15 * 60 ->
           timestamp r <= timestamp m)
     /\ cat_identity m = cat
     /\ ts = timestamp start_row
     /\ d = timestamp start_row - 15 * 60 - timestamp m
     /\ 0 < d < 30 * 60).
Proof.
  intros Hsorted. unfold dwell_point, dwell_candidates.
  set (f := fun r : usage_log =>
              (timestamp start_row - 15 * 60 - 30 * 60 <=? timestamp r)
              && (timestamp r <=? timestamp start_row - 15 * 60)
              && contains "cat detected" (lower (log_activity r))).
  assert (Hf : forall r, f r = true <->
             contains "cat detected" (lower (log_activity r)) = true
             /\ timestamp start_row - 15 * 60 - 30 * 60 <= timestamp r
                <= timestamp start_row - 15 * 60).
  { intros r. unfold f. rewrite !andb_true_iff, !Z.leb_le. tauto. }
  split.
  - destruct (last (List.filter f df)) as [m|] eqn:Hlast; [|discriminate].
    destruct (last_filter_most_recent f df m Hsorted Hlast) as (Hin & Hfm & Hmax).
    apply Hf in Hfm. destruct Hfm as [Hmotion Hwindow].
    destruct (String.eqb_spec (cat_identity m) cat) as [Hid|Hid]; [|discriminate].
    destruct (Z.ltb_spec 0 (timestamp start_row - 15 * 60 - timestamp m)); [|discriminate].
    destruct (Z.ltb_spec (timestamp start_row - 15 * 60 - timestamp m) (30 * 60));
      [|discriminate].
    simpl. intros [= <- <-]. exists m. repeat split; trivial; try lia.
    intros r Hr Hrm Hrw. apply Hmax; [exact Hr|]. now apply Hf.
  - intros (m & Hin & Hmotion & Hwindow & Hmax & Hid & -> & -> & Hd).
    destruct (last (List.filter f df)) as [s|] eqn:Hlast.
    + destruct (last_filter_most_recent f df s Hsorted Hlast) as (Hsin & Hfs & Hsmax).
      apply Hf in Hfs. destruct Hfs as [Hsmotion Hswindow].
      assert (Hsm : s = m).
      { apply (time_ordered_inj df); trivial.
        apply Z.le_antisymm; [now apply Hmax|]. apply Hsmax; [exact Hin|].
        now apply Hf. }
      subst s. rewrite Hid, String.eqb_refl.
      destruct (Z.ltb_spec 0 (timestamp start_row - 15 * 60 - timestamp m)); [|lia].
      destruct (Z.ltb_spec (timestamp start_row - 15 * 60 - timestamp m) (30 * 60));
        [|lia].
      reflexivity.
    + apply last_filter_None with (r := m) in Hlast; [|exact Hin].
      assert (f m = true) by now apply Hf. congruence.
Qed.

Lemma dwell_point_last_motion_witness :
  time_ordered
    [logged 2000 "Cat detected" 0%float "Luna";
     logged 3600 "Clean Cycle In Progress" 0%float "System"]
  /\ dwell_point "Luna"
       [logged 2000 "Cat detected" 0%float "Luna";
        logged 3600 "Clean Cycle In Progress" 0%float "System"]
       (logged 3600 "Clean Cycle In Progress" 0%float "System") = Some (3600, 700).
Proof.
  assert (Hsorted : time_ordered
    [logged 2000 "Cat detected" 0%float "Luna";
     logged 3600 "Clean Cycle In Progress" 0%float "System"]).
  { repeat constructor; simpl; lia. }
  split; [exact Hsorted|].
  apply (proj2 (dwell_point_last_motion "Luna" _ _ 3600 700 Hsorted)).
  exists (logged 2000 "Cat detected" 0%float "Luna").
  repeat split; simpl; try lia; try tauto.
  intros r [<-|[<-|[]]]; simpl; intros; solve [lia | discriminate].
Defined.

(** C5 as worded fails when a more recent motion row of another identity is in
    the window: Luna at 2000 and Milo at 2500 before a cycle start at 3600
    (virtual exit 2700). Luna's own most recent motion row is 700 seconds
    before the exit, yet no estimate is emitted for Luna. *)
Lemma dwell_point_counterexample :
  time_ordered
    [logged 2000 "Cat detected" 0%float "Luna";
     logged 2500 "Cat detected" 0%float "Milo";
     logged 3600 "Clean Cycle In Progress" 0%float "System"]
  /\ dwell_point "Luna"
       [logged 2000 "Cat detected" 0%float "Luna";
        logged 2500 "Cat detected" 0%float "Milo";
        logged 3600 "Clean Cycle In Progress" 0%float "System"]
       (logged 3600 "Clean Cycle In Progress" 0%float "System") = None
  /\ dwell_point_as_worded "Luna"
       [logged 2000 "Cat detected" 0%float "Luna";
        logged 2500 "Cat detected" 0%float "Milo";
        logged 3600 "Clean Cycle In Progress" 0%float "System"]
       (logged 3600 "Clean Cycle In Progress" 0%float "System") = Some (3600, 700)
  /\ cat_points "Luna"
       [logged 2000 "Cat detected" 0%float "Luna";
        logged 2500 "Cat detected" 0%float "Milo";
        logged 3600 "Clean Cycle In Progress" 0%float "System"] = [].
Proof.
  split; [repeat constructor; simpl; lia|].
  repeat split; vm_compute; reflexivity.
Qed.

(** ** Insertion: claims C8 and C9 *)


Lemma add_row_lookup (st : gmap Z usage_log * nat) (r : usage_log) (k : Z)
    (v : usage_log) :
  fst st !! k = Some v -> fst (add_row st r) !! k = Some v.
Proof.
  intros Hk. unfold add_row, insert_usage_log.
  destruct (fst st !! timestamp r) eqn:Hr; [exact Hk|]. simpl.
  rewrite lookup_insert_ne; [exact Hk|]. congruence.
Qed.

Lemma add_row_key (st : gmap Z usage_log * nat) (r : usage_log) :
  is_Some (fst (add_row st r) !! timestamp r).
Proof.
  unfold add_row, insert_usage_log.
  destruct (fst st !! timestamp r) eqn:Hr; simpl.
  - rewrite Hr. eauto.
  - rewrite lookup_insert_eq. eauto.
Qed.

Lemma add_row_origin (st : gmap Z usage_log * nat) (r : usage_log) (k : Z)
    (v : usage_log) :
  fst (add_row st r) !! k = Some v ->
  fst st !! k = Some v \/ (k = timestamp r /\ v = r).
Proof.
  unfold add_row, insert_usage_log.
  destruct (fst st !! timestamp r) eqn:Hr; simpl; [now left|].
  destruct (decide (timestamp r = k)) as [<-|Hne].
  - rewrite lookup_insert_eq. intros [= <-]. now right.
  - rewrite lookup_insert_ne by exact Hne. now left.
Qed.

Section InsertRows.
Variables (profiles : list profile) (parsed_rows : list parsed_row).

Lemma insert_rows_lookup (todo : list parsed_row) (i : nat)
    (st : gmap Z usage_log * nat) (k : Z) (v : usage_log) :
  fst st !! k = Some v ->
  fst (insert_rows profiles parsed_rows i todo st) !! k = Some v.
Proof.
  revert i st. induction todo as [|row todo IH]; intros i st Hk; [exact Hk|].
  simpl. destruct (correlate profiles parsed_rows i row) as [c rsn].
  apply IH. now apply add_row_lookup.
Qed.

(** After the loop every row of the batch has its key in the table. *)
Lemma insert_rows_keys (todo : list parsed_row) (i : nat)
    (st : gmap Z usage_log * nat) (r : parsed_row) :
  In r todo ->
  is_Some (fst (insert_rows profiles parsed_rows i todo st) !! dt r).
Proof.
  revert i st. induction todo as [|row todo IH]; intros i st []; simpl;
    destruct (correlate profiles parsed_rows i row) as [c rsn].
  - subst row.
    destruct (add_row_key st (log_of r c rsn)) as [v Hv].
    exists v. now apply insert_rows_lookup.
  - now apply IH.
Qed.


(** A row of the table after the loop was there before or comes from a row
    of the batch. *)
Lemma insert_rows_origin (todo : list parsed_row) (i : nat)
    (st : gmap Z usage_log * nat) (k : Z) (v : usage_log) :
  fst (insert_rows profiles parsed_rows i todo st) !! k = Some v ->
  fst st !! k = Some v
  \/ exists r, In r todo /\ k = dt r /\ log_weight v = sql_real (weight r).
Proof.
  revert i st. induction todo as [|row todo IH]; intros i st Hk; [now left|].
  simpl in Hk. destruct (correlate profiles parsed_rows i row) as [c rsn].
  destruct (IH _ _ Hk) as [Hbefore|(r & Hr & Hkr & Hw)].
  - destruct (add_row_origin _ _ _ _ Hbefore) as [Hst|[-> ->]]; [now left|].
    right. exists row. split; [now left|]. now split.
  - right. exists r. split; [now right|]. now split.
Qed.
End InsertRows.

(** ** The exceptions of an upload *)

Lemma look_ahead_In (row : parsed_row) (futures : list parsed_row)
    (future_row : parsed_row) (seconds : Z) :
  look_ahead row futures = Some (future_row, seconds) -> In future_row futures.
Proof.
  induction futures as [|r futures IH]; simpl; [discriminate|].
  destruct (7 * 60 <? dt r - dt row); [discriminate|].
  destruct (weight_reading r).
  - intros [= <- _]. now left.
  - intros H. right. now apply IH.
Qed.

Lemma look_ahead_rows_In (i : nat) (parsed_rows : list parsed_row) (r : parsed_row) :
  In r (look_ahead_rows i parsed_rows) -> In r parsed_rows.
Proof.
  unfold look_ahead_rows.
  generalize (Nat.min (i + 20) (List.length parsed_rows) - (i + 1))%nat.
  intros n H.
  assert (Hf : forall (l : list parsed_row) m, In r (firstn m l) -> In r l).
  { induction l as [|x l IHl]; intros [|m]; simpl; try tauto.
    intros [->|Hm]; [now left|right; now apply (IHl m)]. }
  assert (Hs : forall (l : list parsed_row) m, In r (skipn m l) -> In r l).
  { induction l as [|x l IHl]; intros [|m]; simpl; try tauto.
    intros Hm. right. now apply (IHl m). }
  apply Hf in H. now apply Hs in H.
Qed.

(** With no NULL target weight no row raises. *)
Lemma classify_row_raises_no_null (row : parsed_row) (profiles : list profile) :
  forallb (fun cat => negb (PrimFloat.is_nan (target_weight cat))) profiles = true ->
  classify_row_raises row profiles = false.
Proof.
  intros Hall. unfold classify_row_raises.
  destruct (existsb _ sys_keywords); [reflexivity|].
  destruct (_ && _); [reflexivity|].
  destruct (_ || _); [reflexivity|].
  apply not_true_is_false. intros Hex. apply existsb_exists in Hex.
  destruct Hex as (cat & Hcat & Hnan).
  rewrite forallb_forall in Hall. specialize (Hall cat Hcat).
  rewrite Hnan in Hall. discriminate.
Qed.

Section Exceptions.
Variables (profiles : list profile) (parsed_rows : list parsed_row).

Lemma correlate_checked_Some (i : nat) (row : parsed_row) (x : string * string) :
  correlate_checked profiles parsed_rows i row = Some x ->
  x = correlate profiles parsed_rows i row.
Proof.
  unfold correlate_checked.
  destruct (classify_row_checked row profiles); [|discriminate].
  destruct (contains "cat detected" (lower (activity row))); [|now intros [= <-]].
  destruct (look_ahead row (look_ahead_rows i parsed_rows)) as [[fr s]|];
    [|now intros [= <-]].
  destruct (classify_row_checked fr profiles); [|discriminate].
  now intros [= <-].
Qed.

Lemma correlate_checked_ok (i : nat) (row : parsed_row) :
  classify_row_raises row profiles = false ->
  (forall r, In r parsed_rows -> classify_row_raises r profiles = false) ->
  correlate_checked profiles parsed_rows i row
  = Some (correlate profiles parsed_rows i row).
Proof.
  intros Hrow Hall. unfold correlate_checked, classify_row_checked. rewrite Hrow.
  destruct (contains "cat detected" (lower (activity row))); [|reflexivity].
  destruct (look_ahead row (look_ahead_rows i parsed_rows)) as [[fr s]|] eqn:Hla;
    [|reflexivity].
  apply look_ahead_In, look_ahead_rows_In in Hla. now rewrite (Hall fr Hla).
Qed.

Lemma correlate_checked_raises (i : nat) (row : parsed_row) :
  classify_row_raises row profiles = true ->
  correlate_checked profiles parsed_rows i row = None.
Proof.
  intros Hrow. unfold correlate_checked, classify_row_checked. now rewrite Hrow.
Qed.

(** The loop that ends without exception is the loop [insert_rows]. *)
Lemma insert_rows_checked_Some (todo : list parsed_row) (i : nat)
    (st st' : gmap Z usage_log * nat) :
  insert_rows_checked profiles parsed_rows i todo st = Some st' ->
  st' = insert_rows profiles parsed_rows i todo st.
Proof.
  revert i st. induction todo as [|row todo IH]; intros i st; simpl.
  - now intros [= <-].
  - destruct (correlate_checked profiles parsed_rows i row) as [[c rsn]|] eqn:Hc;
      [|discriminate].
    apply correlate_checked_Some in Hc. rewrite <- Hc. apply IH.
Qed.

Lemma insert_rows_checked_ok (todo : list parsed_row) (i : nat)
    (st : gmap Z usage_log * nat) :
  (forall r, In r parsed_rows -> classify_row_raises r profiles = false) ->
  (forall r, In r todo -> In r parsed_rows) ->
  insert_rows_checked profiles parsed_rows i todo st
  = Some (insert_rows profiles parsed_rows i todo st).
Proof.
  intros Hall. revert i st. induction todo as [|row todo IH]; intros i st Hsub;
    [reflexivity|].
  simpl. rewrite correlate_checked_ok; [|apply Hall, Hsub; now left|exact Hall].
  destruct (correlate profiles parsed_rows i row) as [c rsn].
  apply IH. intros r Hr. apply Hsub. now right.
Qed.

Lemma insert_rows_checked_raises (todo : list parsed_row) (i : nat)
    (st : gmap Z usage_log * nat) (r : parsed_row) :
  In r todo -> classify_row_raises r profiles = true ->
  insert_rows_checked profiles parsed_rows i todo st = None.
Proof.
  revert i st. induction todo as [|row todo IH]; intros i st []; intros Hraise; simpl.
  - subst row. now rewrite correlate_checked_raises.
  - destruct (correlate_checked profiles parsed_rows i row) as [[c rsn]|];
      [|reflexivity].
    now apply IH.
Qed.
End Exceptions.

Lemma In_insert_by {A : Type} (key : A -> Z) (x r : A) (l : list A) :
  In x (insert_by key r l) <-> x = r \/ In x l.
Proof.
  induction l as [|y l IH]; simpl; [intuition congruence|].
  destruct (key r <=? key y); simpl; [intuition congruence|].
  rewrite IH. intuition congruence.
Qed.

Lemma In_sort_by {A : Type} (key : A -> Z) (x : A) (l : list A) :
  In x (sort_by key l) <-> In x l.
Proof.
  induction l as [|y l IH]; simpl; [tauto|].
  unfold sort_by in *. simpl. rewrite In_insert_by, IH. intuition congruence.
Qed.

Section IngestionFacts.
Variable parse_row : list string -> option parsed_row.

(** No row that the reading loop keeps has its key in the blacklist set. *)
Lemma read_rows_not_blacklisted (blacklist : gset (Z * string))
    (reader : list (list string)) (r : parsed_row) :
  In r (read_rows parse_row blacklist reader) ->
  blacklist_key (dt r) (weight r) ∉ blacklist.
Proof.
  induction reader as [|record reader IH]; simpl; [intros []|].
  destruct (parse_row record) as [r'|]; [|exact IH].
  destruct (bool_decide (blacklist_key (dt r') (weight r') ∈ blacklist)) eqn:Hb;
    [exact IH|].
  intros [<-|Hr]; [|now apply IH].
  now apply bool_decide_eq_false in Hb.
Qed.

(** A row that the reading loop decodes is kept unless blacklisted. *)
Lemma read_rows_complete (blacklist : gset (Z * string))
    (reader : list (list string)) (record : list string) (r : parsed_row) :
  In record reader -> parse_row record = Some r ->
  blacklist_key (dt r) (weight r) ∉ blacklist ->
  In r (read_rows parse_row blacklist reader).
Proof.
  intros Hin Hparse Hnb.
  induction reader as [|record' reader IH]; [destruct Hin|].
  simpl. destruct Hin as [->|Hin].
  - rewrite Hparse, bool_decide_eq_false_2 by exact Hnb. now left.
  - destruct (parse_row record') as [r'|]; [|now apply IH].
    destruct (bool_decide _); [now apply IH|right; now apply IH].
Qed.

(** An upload aborts and leaves the ledger as it was, or it is the run
    without exception. *)
Lemma upload_file_spec (file_name : string) (reader : list (list string))
    (db : database) :
  upload_file parse_row file_name reader db
  = if upload_aborts parse_row reader db then db
    else upload_file_run parse_row file_name reader db.
Proof.
  unfold upload_file, upload_file_run, upload_aborts.
  destruct (Nat.eqb (List.length (cat_profiles db)) 0);
    [now destruct (_ || _)|].
  destruct (existsb (fun r => PrimFloat.is_nan (bl_weight r)) (data_blacklist db));
    [reflexivity|].
  simpl.
  destruct (existsb (fun r => classify_row_raises r (cat_profiles db))
              (parsed_rows_of parse_row reader db)) eqn:Hraise.
  - apply existsb_exists in Hraise. destruct Hraise as (r & Hr & Hraise).
    now rewrite (insert_rows_checked_raises _ _ _ _ _ r Hr Hraise).
  - rewrite insert_rows_checked_ok; [reflexivity| |trivial].
    intros r Hr. apply not_true_is_false. intros Hraise'.
    assert (Hex : existsb (fun r => classify_row_raises r (cat_profiles db))
                    (parsed_rows_of parse_row reader db) = true)
      by (apply existsb_exists; now exists r).
    rewrite Hex in Hraise. discriminate.
Qed.

(** A ledger without NULL weight lets every upload reach its commit. *)
Lemma no_null_not_aborts (reader : list (list string)) (db : database) :
  no_null_weights db = true -> upload_aborts parse_row reader db = false.
Proof.
  unfold no_null_weights, upload_aborts. intros Hok.
  apply andb_true_iff in Hok. destruct Hok as [Hbl Hprof].
  apply orb_false_iff. split.
  - apply not_true_is_false. intros Hex. apply existsb_exists in Hex.
    destruct Hex as (e & He & Hnan). rewrite forallb_forall in Hbl.
    specialize (Hbl e He). rewrite Hnan in Hbl. discriminate.
  - apply not_true_is_false. intros Hex. apply existsb_exists in Hex.
    destruct Hex as (r & _ & Hraise).
    rewrite (classify_row_raises_no_null r _ Hprof) in Hraise. discriminate.
Qed.

Lemma parsed_rows_of_upload_run (file_name : string) (reader reader' : list (list string))
    (db : database) :
  parsed_rows_of parse_row reader' (upload_file_run parse_row file_name reader db)
  = parsed_rows_of parse_row reader' db.
Proof.
  unfold parsed_rows_of, upload_file_run.
  destruct (Nat.eqb _ 0); [reflexivity|].
  now destruct (insert_rows _ _ _ _ _).
Qed.

Lemma parsed_rows_of_upload (file_name : string) (reader reader' : list (list string))
    (db : database) :
  parsed_rows_of parse_row reader' (upload_file parse_row file_name reader db)
  = parsed_rows_of parse_row reader' db.
Proof.
  rewrite upload_file_spec. destruct (upload_aborts parse_row reader db);
    [reflexivity|apply parsed_rows_of_upload_run].
Qed.


End IngestionFacts.




(** A blacklist row puts its key in the blacklist set. *)
Lemma blacklist_set_elem (bl_rows : list blacklist_entry) (e : blacklist_entry) :
  In e bl_rows ->
  blacklist_key (bl_timestamp e) (bl_weight e) ∈ blacklist_set bl_rows.
Proof.
  intros He. unfold blacklist_set. apply elem_of_list_to_set, list_elem_of_In.
  apply in_map_iff. now exists e.
Qed.

(** The restore action when the timestamp is free in the events table. *)
Lemma fix_entry_restore_free (db : database) (ts : Z) (e : blacklist_entry) :
  List.find (fun e => bl_timestamp e =? ts) (data_blacklist db) = Some e ->
  usage_logs db !! ts = None ->
  fix_entry ts "restore" db =
    with_logs_blacklist db (<[ts := restored_log e]> (usage_logs db))
      (List.filter (fun e => negb (bl_timestamp e =? ts)) (data_blacklist db)).
Proof.
  intros Hfind Hfree. unfold fix_entry. simpl. rewrite Hfind.
  apply find_some in Hfind. destruct Hfind as [_ Hts]. apply Z.eqb_eq in Hts.
  unfold insert_usage_log. simpl. rewrite Hts, Hfree. reflexivity.
Qed.

(** The restore action when an active event holds the timestamp. *)
Lemma fix_entry_restore_taken (db : database) (ts : Z) :
  is_Some (usage_logs db !! ts) -> fix_entry ts "restore" db = db.
Proof.
  intros [v Hv]. unfold fix_entry. simpl.
  destruct (List.find _ (data_blacklist db)) as [e|] eqn:Hfind; [|reflexivity].
  apply find_some in Hfind. destruct Hfind as [_ Hts]. apply Z.eqb_eq in Hts.
  unfold insert_usage_log. simpl. now rewrite Hts, Hv.
Qed.

(** An event that an upload creates is the stored form of a row of its
    batch. *)
Lemma upload_file_row_origin
    (parse_row : list string -> option parsed_row) (file_name : string)
    (reader : list (list string)) (db : database) (ts : Z) (row : usage_log) :
  usage_logs db !! ts = None ->
  usage_logs (upload_file parse_row file_name reader db) !! ts = Some row ->
  exists r, In r (parsed_rows_of parse_row reader db)
    /\ dt r = ts /\ log_weight row = sql_real (weight r).
Proof.
  intros Hfree Hrow. rewrite upload_file_spec in Hrow.
  destruct (upload_aborts parse_row reader db); [congruence|].
  unfold upload_file_run in Hrow.
  destruct (Nat.eqb _ 0); [congruence|].
  set (rows := parsed_rows_of parse_row reader db) in *.
  pose proof (insert_rows_origin (cat_profiles db) rows rows 0
                (usage_logs db, 0%nat) ts row) as Horigin.
  destruct (insert_rows _ _ _ _ _) as [logs added]. simpl in *.
  destruct (Horigin Hrow) as [Hold|(r & Hr & Htsr & Hw)]; [congruence|].
  exists r. now repeat split.
Qed.

(** A weight that is stored as it was parsed: every one but the negative
    zero, when the stored value is not zero. *)
Lemma sql_real_nonzero (w : float) :
  (sql_real w =? 0)%float = false -> sql_real w = w.
Proof.
  unfold sql_real. destruct (w =? 0)%float eqn:Hz; [|reflexivity].
  intros H. vm_compute in H. discriminate.
Qed.

(** C9, as the program has it. A decoded row whose timestamp and weight text
    are those of a stored blacklist entry is left out of the batch. Every
    event that an upload creates comes from a row of the batch, whose
    timestamp and weight text no blacklist entry has, and holds the weight
    of that row as the table keeps it: so an upload creates no active event
    with a blacklisted (timestamp, weight) pair, unless the weight is zero (a
    negative zero is read with the text -0.0 and stored as 0.0). The restore
    action, on a timestamp that no active event holds, puts the first
    blacklist entry of that timestamp back into the active events with
    identity Unknown and the reason "Restored from Blacklist", and removes
    every blacklist entry of that timestamp; on a timestamp that an active
    event holds it changes nothing. *)
Theorem blacklist_suppression_and_restore
    (parse_row : list string -> option parsed_row) (file_name : string)
    (reader : list (list string)) (db : database) :
  (forall r e, In e (data_blacklist db) ->
     bl_timestamp e = dt r -> float_str (bl_weight e) = float_str (weight r) ->
     ~ In r (parsed_rows_of parse_row reader db))
  /\ (forall ts row,
        usage_logs db !! ts = None ->
        usage_logs (upload_file parse_row file_name reader db) !! ts = Some row ->
        exists r, In r (parsed_rows_of parse_row reader db)
          /\ dt r = ts
          /\ log_weight row = sql_real (weight r)
          /\ forall e, In e (data_blacklist db) -> bl_timestamp e = ts ->
               float_str (bl_weight e) <> float_str (weight r))
  /\ (forall ts row e,
        usage_logs db !! ts = None ->
        usage_logs (upload_file parse_row file_name reader db) !! ts = Some row ->
        In e (data_blacklist db) -> bl_timestamp e = ts ->
        (log_weight row =? 0)%float = false ->
        float_str (bl_weight e) <> float_str (log_weight row))
  /\ (forall ts e,
        List.find (fun e => bl_timestamp e =? ts) (data_blacklist db) = Some e ->
        usage_logs db !! ts = None ->
        usage_logs (fix_entry ts "restore" db) !! ts = Some (restored_log e)
        /\ timestamp (restored_log e) = ts
        /\ log_weight (restored_log e) = bl_weight e
        /\ cat_identity (restored_log e) = "Unknown"%string
        /\ flag_reason (restored_log e) = "Restored from Blacklist"%string
        /\ (forall k, k <> ts ->
              usage_logs (fix_entry ts "restore" db) !! k = usage_logs db !! k)
        /\ (forall e', In e' (data_blacklist (fix_entry ts "restore" db)) <->
              In e' (data_blacklist db) /\ bl_timestamp e' <> ts))
  /\ (forall ts, is_Some (usage_logs db !! ts) -> fix_entry ts "restore" db = db).
Proof.
  assert (Hleft : forall r e, In e (data_blacklist db) ->
            bl_timestamp e = dt r -> float_str (bl_weight e) = float_str (weight r) ->
            ~ In r (parsed_rows_of parse_row reader db)).
  { intros r e He Hts Hw Hr.
    apply In_sort_by, read_rows_not_blacklisted in Hr. apply Hr.
    replace (blacklist_key (dt r) (weight r))
      with (blacklist_key (bl_timestamp e) (bl_weight e)).
    - now apply blacklist_set_elem.
    - unfold blacklist_key. now rewrite Hts, Hw. }
  assert (Horigin : forall ts row,
            usage_logs db !! ts = None ->
            usage_logs (upload_file parse_row file_name reader db) !! ts = Some row ->
            exists r, In r (parsed_rows_of parse_row reader db)
              /\ dt r = ts
              /\ log_weight row = sql_real (weight r)
              /\ forall e, In e (data_blacklist db) -> bl_timestamp e = ts ->
                   float_str (bl_weight e) <> float_str (weight r)).
  { intros ts row Hfree Hrow.
    destruct (upload_file_row_origin _ _ _ _ _ _ Hfree Hrow) as (r & Hr & Hts & Hw).
    exists r. split; [exact Hr|]. split; [exact Hts|]. split; [exact Hw|].
    intros e He Hte Hkey. apply (Hleft r e He); [congruence|exact Hkey|exact Hr]. }
  split; [exact Hleft|]. split; [exact Horigin|]. split; [|split].
  - intros ts row e Hfree Hrow He Hts Hnz.
    destruct (Horigin ts row Hfree Hrow) as (r & _ & _ & Hw & Hkey).
    rewrite Hw in Hnz |- *. rewrite (sql_real_nonzero _ Hnz). now apply Hkey.
  - intros ts e Hfind Hfree.
    rewrite (fix_entry_restore_free db ts e Hfind Hfree). simpl.
    pose proof (find_some _ _ Hfind) as [_ Hts]. apply Z.eqb_eq in Hts.
    split; [apply lookup_insert_eq|]. split; [exact Hts|].
    split; [reflexivity|]. split; [reflexivity|]. split; [reflexivity|].
    split.
    + intros k Hk. now apply lookup_insert_ne.
    + intros e'. rewrite filter_In, negb_true_iff, Z.eqb_neq. tauto.
  - intros ts. apply fix_entry_restore_taken.
Qed.

Lemma blacklist_suppression_and_restore_witness :
  usage_logs sample_db_reuploaded !! 36300
    = Some {| timestamp := 36300; log_weight := 10.4%float;
              log_activity := "Weight recorded";
              metadata := Meta_raw_val "10.4 lbs";
              cat_identity := "Luna"; flag_reason := "" |}
  /\ usage_logs (fix_entry 36300 "restore" sample_db_blacklisted) !! 36300
    = Some {| timestamp := 36300; log_weight := 0%float;
              log_activity := "Cat detected"; metadata := Meta_empty;
              cat_identity := "Unknown";
              flag_reason := "Restored from Blacklist" |}
  /\ data_blacklist (fix_entry 36300 "restore" sample_db_blacklisted) = [].
Proof.
  split; [vm_compute; reflexivity|].
  destruct (blacklist_suppression_and_restore sample_parse "again.csv"
              sample_batch sample_db_blacklisted) as (_ & _ & _ & Hrestore & _).
  destruct (Hrestore 36300
              {| bl_timestamp := 36300; bl_weight := 0%float;
                 bl_reason := "Cat detected" |})
    as (Hrow & _); [vm_compute; reflexivity|vm_compute; reflexivity|].
  split; [exact Hrow|]. vm_compute. reflexivity.
Defined.

(** C9 as worded fails in two ways.

    On the restore after a second upload: the sample batch has two events in
    one minute; the first upload stores the first of them, which is then
    blacklisted; the second upload leaves that one out and stores the other
    under the same timestamp; the restore then finds the timestamp taken, and
    both tables stay as they are.

    On a negative zero: a record "-0.0 lbs" is stored with the weight 0.0;
    once that event is blacklisted the blacklist holds its timestamp with
    0.0, the second upload of the same file reads the weight -0.0, whose key
    text is not that of the entry, and the event is created again: an active
    event with a blacklisted (timestamp, weight) pair. *)
Lemma blacklist_counterexample :
  (data_blacklist sample_db_reuploaded
     = [{| bl_timestamp := 36300; bl_weight := 0%float; bl_reason := "Cat detected" |}]
   /\ usage_logs sample_db_reuploaded !! 36300
     = Some {| timestamp := 36300; log_weight := 10.4%float;
               log_activity := "Weight recorded";
               metadata := Meta_raw_val "10.4 lbs";
               cat_identity := "Luna"; flag_reason := "" |}
   /\ fix_entry 36300 "restore" sample_db_reuploaded = sample_db_reuploaded
   /\ usage_logs (fix_entry 36300 "restore" sample_db_reuploaded) !! 36300
      <> Some (restored_log {| bl_timestamp := 36300; bl_weight := 0%float;
                                bl_reason := "Cat detected" |}))
  /\ (sample_parse ["Weight recorded"; "1/5 3:05 PM"; "-0.0 lbs"]
        = Some {| dt := 36300; activity := "Weight recorded"; weight := neg_zero;
                  raw_val := "-0.0 lbs" |}
      /\ float_str neg_zero = "-0.0"%string
      /\ data_blacklist signed_zero_blacklisted
         = [{| bl_timestamp := 36300; bl_weight := 0%float;
               bl_reason := "Weight recorded" |}]
      /\ usage_logs signed_zero_blacklisted !! 36300 = None
      /\ usage_logs (upload_file sample_parse "again.csv" signed_zero_batch
                       signed_zero_blacklisted) !! 36300
         = Some {| timestamp := 36300; log_weight := 0%float;
                   log_activity := "Weight recorded";
                   metadata := Meta_raw_val "-0.0 lbs";
                   cat_identity := "Error";
                   flag_reason := "Weight too low (-0.0 lbs)" |}).
Proof.
  split.
  - split; [vm_compute; reflexivity|].
    split; [vm_compute; reflexivity|].
    split; [vm_compute; reflexivity|].
    vm_compute. discriminate.
  - repeat split; vm_compute; reflexivity.
Qed.

(** * Further properties of the program *)

(** ** The classifier *)

(** The state of the nearest-neighbour loop is the initial one or comes from
    a profile of the list, and no profile is strictly below its difference. *)
Lemma nearest_fold_origin (w : float) (l : list profile) (st : string * float) :
  fold_left (nearest_step w) l st = st
  \/ exists p, In p l /\ fold_left (nearest_step w) l st = (name p, diff_to w p).
Proof.
  revert st. induction l as [|x l IH]; intros st; [now left|].
  simpl. destruct (IH (nearest_step w st x)) as [Hsame|(p & Hp & Hfold)].
  - rewrite Hsame. unfold nearest_step.
    destruct (diff_to w x <? snd st)%float; [|now left].
    right. exists x. split; [now left|reflexivity].
  - right. exists p. split; [now right|exact Hfold].
Qed.

Lemma nearest_fold_minimal (w : float) (l : list profile) (st : string * float)
    (r : profile) :
  In r l -> (diff_to w r <? snd (fold_left (nearest_step w) l st))%float = false.
Proof.
  revert st. induction l as [|x l IH]; intros st []; simpl.
  - subst x. apply nearest_fold_not_below, nearest_step_self.
  - now apply IH.
Qed.

(** The classifier never invents an identity: it answers System, Unknown,
    Error or the name of a profile of the list. *)
Lemma classify_row_identity_range (row : parsed_row) (profiles : list profile) :
  In (fst (classify_row row profiles))
     ("System"%string :: "Unknown"%string :: "Error"%string :: map name profiles).
Proof.
  unfold classify_row.
  destruct (existsb _ sys_keywords); [now left|].
  destruct (_ && _); [right; now left|].
  destruct (_ || _); [right; right; now left|].
  destruct (nearest (weight row) profiles) as [b c] eqn:Hn.
  destruct (c <=? WEIGHT_TOLERANCE)%float; [|right; now left].
  simpl. unfold nearest in Hn.
  destruct (nearest_fold_origin (weight row) profiles ("Unknown"%string, closest_diff_init))
    as [Hsame|(p & Hp & Hfold)].
  - rewrite Hsame in Hn. injection Hn as <- _. right. now left.
  - rewrite Hfold in Hn. injection Hn as <- _.
    right. right. right. apply in_map_iff. now exists p.
Qed.

(** An empty reason is the mark of a match, and a match is sound: the row is
    no machine operation, weighs at least 0.5, and the identity is the name of
    a profile of the list whose target is within the tolerance of 2.0, with no
    profile strictly closer. *)
Theorem classify_row_match_sound (row : parsed_row) (profiles : list profile) :
  snd (classify_row row profiles) = ""%string ->
  existsb (fun k => contains k (lower (activity row))) sys_keywords = false
  /\ (weight row <? 0.5)%float = false
  /\ PrimFloat.is_nan (weight row) = false
  /\ exists p, In p profiles
       /\ fst (classify_row row profiles) = name p
       /\ (diff_to (weight row) p <=? 2.0)%float = true
       /\ forall r, In r profiles ->
            (diff_to (weight row) r <? diff_to (weight row) p)%float = false.
Proof.
  unfold classify_row.
  destruct (existsb _ sys_keywords); [discriminate|].
  destruct (contains "cat detected" _ && _) eqn:Hmotion; [discriminate|].
  destruct (PrimFloat.is_nan (weight row)) eqn:Hnan; [discriminate|].
  destruct (weight row <? 0.5)%float eqn:Hlow; [discriminate|]. simpl.
  destruct (nearest (weight row) profiles) as [b c] eqn:Hn.
  destruct (c <=? WEIGHT_TOLERANCE)%float eqn:Htol; [|discriminate].
  intros _. repeat split; trivial.
  unfold nearest in Hn.
  destruct (nearest_fold_origin (weight row) profiles ("Unknown"%string, closest_diff_init))
    as [Hsame|(p & Hp & Hfold)].
  - rewrite Hsame in Hn. injection Hn as _ <-. vm_compute in Htol. discriminate.
  - exists p. split; [exact Hp|]. rewrite Hfold in Hn. injection Hn as <- <-.
    split; [reflexivity|]. split; [exact Htol|].
    intros r Hr.
    pose proof (nearest_fold_minimal (weight row) profiles
                  ("Unknown"%string, closest_diff_init) r Hr) as Hmin.
    now rewrite Hfold in Hmin.
Qed.

Lemma classify_row_match_sound_witness :
  exists p, In p [luna; milo]
    /\ fst (classify_row (reading 0 "Weight recorded" 11%float) [luna; milo]) = name p
    /\ (diff_to 11%float p <=? 2.0)%float = true.
Proof.
  destruct (classify_row_match_sound (reading 0 "Weight recorded" 11%float) [luna; milo])
    as (_ & _ & _ & p & Hp & Hid & Htol & _); [vm_compute; reflexivity|].
  exists p. now repeat split.
Defined.

(** *** Substrings *)

Lemma lower_app (a b : string) : lower (a +:+ b) = lower a +:+ lower b.
Proof. induction a as [|c a IH]; simpl; [reflexivity|]. now rewrite IH. Qed.

Lemma prefix_app (k s : string) : String.prefix k (k +:+ s) = true.
Proof.
  induction k as [|c k IH]; simpl; [now destruct s|].
  destruct (ascii_dec c c); [exact IH|contradiction].
Qed.

Lemma contains_prefix (k s : string) :
  String.prefix k s = true -> contains k s = true.
Proof. destruct s; simpl; now intros ->. Qed.

Lemma contains_app_r (k pre s : string) :
  contains k s = true -> contains k (pre +:+ s) = true.
Proof.
  intros Hs. induction pre as [|c pre IH]; simpl; [exact Hs|].
  rewrite IH. apply orb_true_r.
Qed.

Lemma contains_infix (k pre post : string) :
  contains k (pre +:+ k +:+ post) = true.
Proof.
  apply contains_app_r, contains_prefix, prefix_app.
Qed.

(** A maintenance keyword anywhere in the activity text, in any letter case,
    makes the row a machine operation, whatever its weight and whatever the
    profiles, motion or weight texts included. *)
Theorem classify_row_system_keyword
    (row : parsed_row) (profiles : list profile) (pre kw post : string) :
  In (lower kw) sys_keywords ->
  activity row = pre +:+ kw +:+ post ->
  classify_row row profiles = ("System"%string, "Machine Operation"%string).
Proof.
  intros Hk Hact. unfold classify_row.
  replace (existsb _ sys_keywords) with true; [reflexivity|].
  symmetry. apply existsb_exists. exists (lower kw). split; [exact Hk|].
  rewrite Hact, !lower_app. apply contains_infix.
Qed.

Lemma classify_row_system_keyword_witness :
  classify_row (reading 0 "Cat detected - Clean CYCLE delayed" 10.5%float) [luna]
  = ("System"%string, "Machine Operation"%string).
Proof.
  apply (classify_row_system_keyword _ _ "Cat detected - Clean " "CYCLE" " delayed").
  - vm_compute. tauto.
  - reflexivity.
Defined.

(** ** The correlator *)

(** The reasons of the classifier: the motion reason goes with Unknown on a
    motion row only, and the correlator's own reason is none of them. *)
Lemma classify_row_reasons (row : parsed_row) (profiles : list profile) :
  (snd (classify_row row profiles) = "Motion detected (No weight)"%string ->
   contains "cat detected" (lower (activity row)) = true
   /\ fst (classify_row row profiles) = "Unknown"%string)
  /\ snd (classify_row row profiles) <> "No weight found in 7m"%string.
Proof.
  unfold classify_row, no_match_reason.
  destruct (existsb _ sys_keywords); [split; simpl; intros; discriminate|].
  destruct (contains "cat detected" (lower (activity row))) eqn:Hmotion; simpl.
  - destruct (weight row <? 0.5)%float; simpl; [split; [tauto|discriminate]|].
    rewrite orb_false_r.
    destruct (PrimFloat.is_nan (weight row)); [split; simpl; intros; discriminate|].
    destruct (nearest (weight row) profiles) as [b c].
    destruct (c <=? WEIGHT_TOLERANCE)%float; split; simpl; intros; discriminate.
  - destruct (_ || _); [split; simpl; intros; discriminate|].
    destruct (nearest (weight row) profiles) as [b c].
    destruct (c <=? WEIGHT_TOLERANCE)%float; split; simpl; intros; discriminate.
Qed.

(** The identity written at ingestion is System, Unknown, Error or the name
    of a current profile, with or without correlation. *)
Lemma correlate_identity_range
    (profiles : list profile) (parsed_rows : list parsed_row) (i : nat)
    (row : parsed_row) :
  In (fst (correlate profiles parsed_rows i row))
     ("System"%string :: "Unknown"%string :: "Error"%string :: map name profiles).
Proof.
  unfold correlate.
  pose proof (classify_row_identity_range row profiles) as Hown.
  destruct (classify_row row profiles) as [cat_id reason].
  destruct (contains "cat detected" _); [|exact Hown].
  destruct (look_ahead row _) as [[future_row seconds]|].
  - pose proof (classify_row_identity_range future_row profiles) as Hdonor.
    now destruct (String.eqb (fst (classify_row future_row profiles)) "Unknown").
  - now destruct (String.eqb cat_id "Unknown").
Qed.

(** The classifier's "Motion detected (No weight)" is never what ingestion
    writes: on a motion row the correlator replaces it. *)
Lemma correlate_never_motion_reason
    (profiles : list profile) (parsed_rows : list parsed_row) (i : nat)
    (row : parsed_row) :
  snd (correlate profiles parsed_rows i row) <> "Motion detected (No weight)"%string.
Proof.
  unfold correlate.
  destruct (classify_row_reasons row profiles) as [Hmotion _].
  destruct (classify_row row profiles) as [cat_id reason]. simpl in *.
  destruct (contains "cat detected" (lower (activity row))) eqn:Hm.
  - destruct (look_ahead row _) as [[future_row seconds]|].
    + destruct (String.eqb (fst (classify_row future_row profiles)) "Unknown");
        simpl; [discriminate|unfold matched_reason; simpl; discriminate].
    + destruct (String.eqb_spec cat_id "Unknown") as [Hu|Hu]; simpl;
        [discriminate|].
      intros H. now destruct (Hmotion H).
  - intros H. now destruct (Hmotion H).
Qed.

(** What ingestion writes for a motion row: the identity is Unknown exactly
    when the reason is "No weight found in 7m", so the classifier's reason for
    a motion row without weight is always replaced, and an identity taken from
    a weight row comes with the reason that records that row. A row that is no
    motion row keeps the classifier's answer. *)
Theorem correlate_reasons
    (profiles : list profile) (parsed_rows : list parsed_row) (i : nat)
    (row : parsed_row) :
  (contains "cat detected" (lower (activity row)) = true ->
   (fst (correlate profiles parsed_rows i row) = "Unknown"%string <->
    snd (correlate profiles parsed_rows i row) = "No weight found in 7m"%string)
   /\ (forall future_row seconds,
         look_ahead row (look_ahead_rows i parsed_rows) = Some (future_row, seconds) ->
         fst (correlate profiles parsed_rows i row)
           = fst (classify_row future_row profiles)
         /\ (fst (classify_row future_row profiles) <> "Unknown"%string ->
             snd (correlate profiles parsed_rows i row)
               = matched_reason future_row seconds)))
  /\ (contains "cat detected" (lower (activity row)) = false ->
      correlate profiles parsed_rows i row = classify_row row profiles).
Proof.
  unfold correlate.
  destruct (classify_row_reasons row profiles) as [Hmotion Hnot7].
  destruct (classify_row row profiles) as [cat_id reason]. simpl in *.
  destruct (contains "cat detected" (lower (activity row))) eqn:Hm.
  - split; [|discriminate]. intros _.
    destruct (look_ahead row _) as [[future_row seconds]|].
    + destruct (String.eqb_spec (fst (classify_row future_row profiles)) "Unknown")
        as [Hu|Hu]; simpl.
      * split; [tauto|]. intros f sec [= <- <-]. split; [reflexivity|contradiction].
      * split.
        -- split; [contradiction|unfold matched_reason; simpl; discriminate].
        -- intros f sec [= <- <-]. split; reflexivity.
    + split; [|discriminate].
      destruct (String.eqb_spec cat_id "Unknown") as [Hu|Hu]; simpl;
        [tauto|]. split; [contradiction|congruence].
  - split; [discriminate|reflexivity].
Qed.

(** ** The sorted batch *)

Section SortBy.
Context {A : Type} (key : A -> Z).

Lemma insert_by_sorted (x : A) (l : list A) :
  StronglySorted (fun a b => key a <= key b) l ->
  StronglySorted (fun a b => key a <= key b) (insert_by key x l).
Proof.
  intros Hl. induction Hl as [|y l Hl IH Hy]; simpl.
  - repeat constructor.
  - destruct (Z.leb_spec (key x) (key y)) as [Hxy|Hxy].
    + constructor; [now constructor|].
      constructor; [exact Hxy|].
      rewrite List.Forall_forall in Hy |- *. intros z Hz.
      specialize (Hy z Hz). lia.
    + constructor; [exact IH|].
      rewrite List.Forall_forall in Hy |- *. intros z Hz.
      apply In_insert_by in Hz. destruct Hz as [->|Hz]; [lia|now apply Hy].
Qed.

Lemma sort_by_sorted (l : list A) :
  StronglySorted (fun a b => key a <= key b) (sort_by key l).
Proof.
  induction l as [|x l IH]; [constructor|].
  unfold sort_by in *. simpl. now apply insert_by_sorted.
Qed.

Lemma insert_by_perm (x : A) (l : list A) :
  Permutation (x :: l) (insert_by key x l).
Proof.
  induction l as [|y l IH]; simpl; [reflexivity|].
  destruct (key x <=? key y); [reflexivity|].
  rewrite perm_swap. now constructor.
Qed.

Lemma sort_by_perm (l : list A) : Permutation l (sort_by key l).
Proof.
  induction l as [|x l IH]; [reflexivity|].
  unfold sort_by in *. simpl. rewrite <- insert_by_perm. now constructor.
Qed.

(** Stability: the rows of one key keep their order. *)
Lemma insert_by_filter_key (k : Z) (x : A) (l : list A) :
  List.filter (fun a => key a =? k) (insert_by key x l)
  = if key x =? k then x :: List.filter (fun a => key a =? k) l
    else List.filter (fun a => key a =? k) l.
Proof.
  induction l as [|y l IH]; simpl; [reflexivity|].
  destruct (Z.leb_spec (key x) (key y)) as [Hxy|Hxy]; simpl; [reflexivity|].
  rewrite IH.
  destruct (Z.eqb_spec (key x) k) as [Hx|Hx]; [|reflexivity].
  destruct (Z.eqb_spec (key y) k) as [Hy|Hy]; [lia|reflexivity].
Qed.

Lemma sort_by_filter_key (k : Z) (l : list A) :
  List.filter (fun a => key a =? k) (sort_by key l)
  = List.filter (fun a => key a =? k) l.
Proof.
  induction l as [|x l IH]; [reflexivity|].
  unfold sort_by in *. simpl. rewrite insert_by_filter_key, IH. reflexivity.
Qed.

End SortBy.

(** The batch that [upload_file] classifies and inserts is the rows kept by
    the reading loop, in non-decreasing time order, the rows of one timestamp
    in the order of the file. *)
Theorem parsed_rows_of_sorted_stable
    (parse_row : list string -> option parsed_row) (reader : list (list string))
    (db : database) :
  StronglySorted (fun a b => dt a <= dt b) (parsed_rows_of parse_row reader db)
  /\ Permutation
       (read_rows parse_row (blacklist_set (data_blacklist db)) reader)
       (parsed_rows_of parse_row reader db)
  /\ forall ts,
       List.filter (fun r => dt r =? ts) (parsed_rows_of parse_row reader db)
       = List.filter (fun r => dt r =? ts)
           (read_rows parse_row (blacklist_set (data_blacklist db)) reader).
Proof.
  unfold parsed_rows_of. split; [apply sort_by_sorted|].
  split; [apply sort_by_perm|]. intros ts. apply sort_by_filter_key.
Qed.

(** In a list in time order, the rows before the first one that is more than
    7 minutes away are all the rows within 7 minutes. *)
Lemma take_while_within_sorted (row : parsed_row) (futures : list parsed_row) :
  StronglySorted (fun a b => dt a <= dt b) futures ->
  take_while (within_7m row) futures = List.filter (within_7m row) futures.
Proof.
  intros Hs. induction Hs as [|x l Hl IH Hx]; [reflexivity|].
  simpl. destruct (within_7m row x) eqn:Hw; [now rewrite IH|].
  symmetry. apply last_None, last_filter_None. intros r Hr.
  rewrite List.Forall_forall in Hx. specialize (Hx r Hr).
  unfold within_7m in *. apply negb_false_iff in Hw. apply negb_false_iff.
  apply Z.ltb_lt in Hw. apply Z.ltb_lt. lia.
Qed.

Lemma In_firstn {A : Type} (n : nat) (l : list A) (y : A) :
  In y (firstn n l) -> In y l.
Proof.
  revert n. induction l as [|x l IH]; intros [|n]; simpl; try tauto.
  intros [->|Hy]; [now left|right; now apply (IH n)].
Qed.

Lemma StronglySorted_firstn {A : Type} (R : A -> A -> Prop) (n : nat) (l : list A) :
  StronglySorted R l -> StronglySorted R (firstn n l).
Proof.
  intros Hs. revert n. induction Hs as [|x l Hl IH Hx]; intros n.
  - destruct n; constructor.
  - destruct n as [|n]; simpl; [constructor|].
    constructor; [apply IH|].
    rewrite List.Forall_forall in Hx |- *. intros y Hy.
    apply Hx. now apply (In_firstn n).
Qed.

Lemma StronglySorted_skipn {A : Type} (R : A -> A -> Prop) (n : nat) (l : list A) :
  StronglySorted R l -> StronglySorted R (skipn n l).
Proof.
  intros Hs. revert n. induction Hs as [|x l Hl IH Hx]; intros n.
  - destruct n; constructor.
  - destruct n as [|n]; simpl; [now constructor|apply IH].
Qed.

Lemma find_filter {A : Type} (f g : A -> bool) (l : list A) :
  List.find f (List.filter g l) = List.find (fun x => g x && f x) l.
Proof.
  induction l as [|x l IH]; [reflexivity|].
  simpl. destruct (g x); simpl; [now destruct (f x)|exact IH].
Qed.

(** On the sorted batch the [break] of the look-ahead loses nothing: the
    adopted row is the first of the next 19 rows that is a weight reading
    above 0.5 at most 7 minutes after the motion row. *)
Theorem look_ahead_sorted_batch
    (parse_row : list string -> option parsed_row) (reader : list (list string))
    (db : database) (i : nat) (row : parsed_row) :
  look_ahead row (look_ahead_rows i (parsed_rows_of parse_row reader db))
  = option_map (fun r => (r, dt r - dt row))
      (List.find (fun r => within_7m row r && weight_reading r)
         (firstn 19 (skipn (S i) (parsed_rows_of parse_row reader db)))).
Proof.
  rewrite look_ahead_find, look_ahead_rows_19, take_while_within_sorted.
  - now rewrite find_filter.
  - apply StronglySorted_firstn, StronglySorted_skipn.
    unfold parsed_rows_of. apply sort_by_sorted.
Qed.

(** ** Uploads *)

Lemma add_row_size (st : gmap Z usage_log * nat) (r : usage_log) :
  (size (fst (add_row st r)) + snd st = size (fst st) + snd (add_row st r))%nat.
Proof.
  unfold add_row, insert_usage_log.
  destruct (fst st !! timestamp r) eqn:Hr; simpl; [reflexivity|].
  rewrite map_size_insert_None by exact Hr. lia.
Qed.

Lemma insert_rows_size (profiles : list profile) (parsed_rows todo : list parsed_row)
    (i : nat) (st : gmap Z usage_log * nat) :
  (size (fst (insert_rows profiles parsed_rows i todo st)) + snd st
   = size (fst st) + snd (insert_rows profiles parsed_rows i todo st))%nat
  /\ (snd (insert_rows profiles parsed_rows i todo st) <= snd st + List.length todo)%nat.
Proof.
  revert i st. induction todo as [|row todo IH]; intros i st; simpl; [lia|].
  destruct (correlate profiles parsed_rows i row) as [c rsn].
  destruct (IH (S i) (add_row st (log_of row c rsn))) as [Hsize Hle].
  pose proof (add_row_size st (log_of row c rsn)) as Hone.
  split; [lia|].
  assert (snd (add_row st (log_of row c rsn)) <= S (snd st))%nat; [|lia].
  unfold add_row. destruct (insert_usage_log _ _); simpl; lia.
Qed.

(** A row of the table after the loop was there before or is the row written
    for a row of the batch, with the identity and reason of the correlator. *)
Lemma insert_rows_origin_full (profiles : list profile)
    (parsed_rows todo : list parsed_row) (i : nat) (st : gmap Z usage_log * nat)
    (k : Z) (v : usage_log) :
  fst (insert_rows profiles parsed_rows i todo st) !! k = Some v ->
  fst st !! k = Some v
  \/ exists r j, In r todo /\ k = dt r
       /\ v = log_of r (fst (correlate profiles parsed_rows j r))
                       (snd (correlate profiles parsed_rows j r)).
Proof.
  revert i st. induction todo as [|row todo IH]; intros i st Hk; [now left|].
  simpl in Hk. destruct (correlate profiles parsed_rows i row) as [c rsn] eqn:Hc.
  destruct (IH _ _ Hk) as [Hbefore|(r & j & Hr & Hkr & Hv)].
  - destruct (add_row_origin _ _ _ _ Hbefore) as [Hst|[-> ->]]; [now left|].
    right. exists row, i. split; [now left|]. split; [reflexivity|].
    now rewrite Hc.
  - right. exists r, j. split; [now right|]. now split.
Qed.

(** The first row of a timestamp is the one stored when the timestamp is
    free. *)
Lemma insert_rows_first (profiles : list profile)
    (parsed_rows todo : list parsed_row) (i : nat) (st : gmap Z usage_log * nat)
    (ts : Z) (r : parsed_row) :
  fst st !! ts = None ->
  List.find (fun x => dt x =? ts) todo = Some r ->
  exists c rsn,
    fst (insert_rows profiles parsed_rows i todo st) !! ts = Some (log_of r c rsn).
Proof.
  revert i st. induction todo as [|row todo IH]; intros i st Hfree Hfind;
    [discriminate|].
  simpl in *. destruct (correlate profiles parsed_rows i row) as [c rsn].
  destruct (Z.eqb_spec (dt row) ts) as [Hts|Hts].
  - injection Hfind as <-. exists c, rsn.
    apply insert_rows_lookup. unfold add_row, insert_usage_log. simpl.
    rewrite Hts, Hfree. simpl. rewrite <- Hts. apply lookup_insert_eq.
  - apply IH; [|exact Hfind].
    unfold add_row, insert_usage_log. simpl.
    destruct (fst st !! dt row); [exact Hfree|]. simpl.
    now rewrite lookup_insert_ne.
Qed.

Lemma find_hd_filter {A : Type} (f : A -> bool) (l : list A) :
  List.find f l = hd_error (List.filter f l).
Proof.
  induction l as [|x l IH]; [reflexivity|]. simpl. now destruct (f x).
Qed.

Section UploadFacts.
Variable parse_row : list string -> option parsed_row.
Variables (file_name : string) (reader : list (list string)) (db : database).

(** An upload never changes or removes a stored event, leaves the blacklist
    and the profiles as they are, and keeps every row under its own
    timestamp. *)
Theorem upload_file_preserves :
  (forall ts row, usage_logs db !! ts = Some row ->
     usage_logs (upload_file parse_row file_name reader db) !! ts = Some row)
  /\ data_blacklist (upload_file parse_row file_name reader db) = data_blacklist db
  /\ cat_profiles (upload_file parse_row file_name reader db) = cat_profiles db
  /\ (keyed (usage_logs db) ->
      keyed (usage_logs (upload_file parse_row file_name reader db))).
Proof.
  rewrite upload_file_spec.
  destruct (upload_aborts parse_row reader db); [tauto|].
  unfold upload_file_run.
  destruct (Nat.eqb _ 0); [tauto|].
  set (rows := parsed_rows_of parse_row reader db).
  pose proof (insert_rows_lookup (cat_profiles db) rows rows 0
                (usage_logs db, 0%nat)) as Hkeep.
  pose proof (insert_rows_origin_full (cat_profiles db) rows rows 0
                (usage_logs db, 0%nat)) as Horigin.
  destruct (insert_rows _ _ _ _ _) as [logs added]. simpl in *.
  split; [exact Hkeep|]. split; [reflexivity|]. split; [reflexivity|].
  intros Hkeyed k v Hv.
  destruct (Horigin k v Hv) as [Hold|(r & j & _ & -> & ->)]; [now apply Hkeyed|].
  reflexivity.
Qed.

(** An upload that reaches its commit, with a profile in the ledger, appends
    one record to the upload history, and the count it records is the growth
    of the events table, at most the number of rows of the batch. An upload
    that is refused for want of a profile or that aborts appends nothing. *)
Theorem upload_file_added_is_growth :
  (cat_profiles db <> [] ->
   upload_aborts parse_row reader db = false ->
   exists added,
     upload_history (upload_file parse_row file_name reader db)
       = upload_history db ++ [{| filename := file_name; entries_added := added |}]
     /\ size (usage_logs (upload_file parse_row file_name reader db))
        = (size (usage_logs db) + added)%nat
     /\ (added <= List.length (parsed_rows_of parse_row reader db))%nat)
  /\ (cat_profiles db = [] \/ upload_aborts parse_row reader db = true ->
      upload_history (upload_file parse_row file_name reader db) = upload_history db
      /\ usage_logs (upload_file parse_row file_name reader db) = usage_logs db).
Proof.
  rewrite upload_file_spec. split.
  - intros Hprofiles ->. unfold upload_file_run.
    destruct (Nat.eqb_spec (List.length (cat_profiles db)) 0) as [Hzero|_].
    + apply length_zero_iff_nil in Hzero. contradiction.
    + set (rows := parsed_rows_of parse_row reader db).
      destruct (insert_rows_size (cat_profiles db) rows rows 0 (usage_logs db, 0%nat))
        as [Hsize Hle].
      destruct (insert_rows _ _ _ _ _) as [logs added]. simpl in *.
      exists added. split; [reflexivity|]. split; lia.
  - intros [Hnone| ->]; [|now split].
    destruct (upload_aborts parse_row reader db); [now split|].
    unfold upload_file_run. now rewrite Hnone.
Qed.

Lemma upload_file_key_present (record : list string) (r : parsed_row) :
  cat_profiles db <> [] ->
  upload_aborts parse_row reader db = false ->
  In record reader ->
  parse_row record = Some r ->
  blacklist_key (dt r) (weight r) ∉ blacklist_set (data_blacklist db) ->
  is_Some (usage_logs (upload_file parse_row file_name reader db) !! dt r).
Proof.
  intros Hprofiles Hcommit Hin Hparse Hnb.
  rewrite upload_file_spec, Hcommit. unfold upload_file_run.
  destruct (Nat.eqb_spec (List.length (cat_profiles db)) 0) as [Hzero|_].
  - apply length_zero_iff_nil in Hzero. contradiction.
  - set (rows := parsed_rows_of parse_row reader db).
    assert (Hr : In r rows).
    { apply In_sort_by. now apply (read_rows_complete parse_row _ _ record). }
    pose proof (insert_rows_keys (cat_profiles db) rows rows 0
                  (usage_logs db, 0%nat) r Hr) as Hkey.
    now destruct (insert_rows _ _ _ _ _).
Qed.

(** With a profile in the ledger, an upload that reaches its commit leaves
    every record that decodes and is not blacklisted with its timestamp in
    the events table. The upload changes nothing at all when the ledger has
    no profile and when it aborts: on a NULL weight in the blacklist, or on a
    row that reaches the matching loop while a profile has a NULL target
    weight. A ledger without NULL weight lets every upload reach its
    commit. *)
Theorem upload_file_complete (record : list string) (r : parsed_row) :
  (cat_profiles db <> [] ->
   upload_aborts parse_row reader db = false ->
   In record reader ->
   parse_row record = Some r ->
   blacklist_key (dt r) (weight r) ∉ blacklist_set (data_blacklist db) ->
   is_Some (usage_logs (upload_file parse_row file_name reader db) !! dt r))
  /\ (cat_profiles db = [] ->
      upload_file parse_row file_name reader db = db)
  /\ (upload_aborts parse_row reader db = true ->
      upload_file parse_row file_name reader db = db)
  /\ (no_null_weights db = true -> upload_aborts parse_row reader db = false)
  /\ ((exists e, In e (data_blacklist db) /\ PrimFloat.is_nan (bl_weight e) = true)
      \/ (exists row, In row (parsed_rows_of parse_row reader db)
            /\ classify_row_raises row (cat_profiles db) = true) ->
      upload_file parse_row file_name reader db = db).
Proof.
  split; [apply upload_file_key_present|].
  split; [intros Hnone; unfold upload_file; now rewrite Hnone|].
  split; [intros Habort; now rewrite upload_file_spec, Habort|].
  split; [apply no_null_not_aborts|].
  intros Hcause. rewrite upload_file_spec.
  replace (upload_aborts parse_row reader db) with true; [reflexivity|].
  symmetry. unfold upload_aborts. apply orb_true_iff.
  destruct Hcause as [(e & He & Hnan)|(row & Hrow & Hraise)].
  - left. apply existsb_exists. now exists e.
  - right. apply existsb_exists. now exists row.
Qed.

(** Of the kept records of one timestamp, it is the first in the file whose
    weight (as the table keeps it), activity and raw value are stored, when
    the timestamp is free and the upload reaches its commit. *)
Theorem upload_file_first_record_wins (ts : Z) (r : parsed_row) :
  cat_profiles db <> [] ->
  upload_aborts parse_row reader db = false ->
  usage_logs db !! ts = None ->
  List.find (fun x => dt x =? ts)
    (read_rows parse_row (blacklist_set (data_blacklist db)) reader) = Some r ->
  exists row,
    usage_logs (upload_file parse_row file_name reader db) !! ts = Some row
    /\ timestamp row = ts
    /\ log_weight row = sql_real (weight r)
    /\ log_activity row = activity r
    /\ metadata row = Meta_raw_val (raw_val r).
Proof.
  intros Hprofiles Hcommit Hfree Hfind.
  rewrite upload_file_spec, Hcommit. unfold upload_file_run.
  destruct (Nat.eqb_spec (List.length (cat_profiles db)) 0) as [Hzero|_].
  - apply length_zero_iff_nil in Hzero. contradiction.
  - set (rows := parsed_rows_of parse_row reader db).
    assert (Hfirst : List.find (fun x => dt x =? ts) rows = Some r).
    { unfold rows, parsed_rows_of.
      rewrite find_hd_filter, sort_by_filter_key, <- find_hd_filter. exact Hfind. }
    destruct (insert_rows_first (cat_profiles db) rows rows 0
                (usage_logs db, 0%nat) ts r Hfree Hfirst) as (c & rsn & Hrow).
    destruct (insert_rows _ _ _ _ _) as [logs added]. simpl in *.
    exists (log_of r c rsn). split; [exact Hrow|].
    apply find_some in Hfind. destruct Hfind as [_ Hts]. apply Z.eqb_eq in Hts.
    now repeat split.
Qed.

(** An event created by an upload carries the identity System, Unknown, Error
    or the name of a current profile, and never the reason
    "Motion detected (No weight)"; its activity is that of a row of the batch
    and its weight is the weight of that row as the table keeps it: the row's
    own weight, or 0.0 for a negative zero. *)
Theorem upload_file_new_event (ts : Z) (row : usage_log) :
  usage_logs db !! ts = None ->
  usage_logs (upload_file parse_row file_name reader db) !! ts = Some row ->
  timestamp row = ts
  /\ In (cat_identity row)
        ("System"%string :: "Unknown"%string :: "Error"%string
           :: map name (cat_profiles db))
  /\ flag_reason row <> "Motion detected (No weight)"%string
  /\ exists r, In r (parsed_rows_of parse_row reader db)
       /\ dt r = ts /\ log_weight row = sql_real (weight r)
       /\ log_activity row = activity r
       /\ ((weight r =? 0)%float = false -> log_weight row = weight r)
       /\ ((weight r =? 0)%float = true -> log_weight row = 0%float).
Proof.
  intros Hfree Hrow. rewrite upload_file_spec in Hrow.
  destruct (upload_aborts parse_row reader db); [congruence|].
  unfold upload_file_run in Hrow.
  destruct (Nat.eqb _ 0); [congruence|].
  set (rows := parsed_rows_of parse_row reader db) in *.
  pose proof (insert_rows_origin_full (cat_profiles db) rows rows 0
                (usage_logs db, 0%nat) ts row) as Horigin.
  destruct (insert_rows _ _ _ _ _) as [logs added]. simpl in *.
  destruct (Horigin Hrow) as [Hold|(r & j & Hr & -> & ->)]; [congruence|].
  simpl. split; [reflexivity|].
  split; [apply correlate_identity_range|].
  split; [apply correlate_never_motion_reason|].
  exists r. split; [exact Hr|]. split; [reflexivity|]. split; [reflexivity|].
  split; [reflexivity|]. unfold sql_real. split; intros ->; reflexivity.
Qed.

End UploadFacts.

Lemma upload_file_added_is_growth_witness :
  exists added,
    upload_history (upload_file sample_parse "first.csv" sample_batch sample_db)
      = upload_history sample_db
        ++ [{| filename := "first.csv"; entries_added := added |}]
    /\ size (usage_logs (upload_file sample_parse "first.csv" sample_batch sample_db))
       = (size (usage_logs sample_db) + added)%nat
    /\ (added <= List.length (parsed_rows_of sample_parse sample_batch sample_db))%nat.
Proof.
  apply (proj1 (upload_file_added_is_growth sample_parse "first.csv" sample_batch
                  sample_db)).
  - discriminate.
  - reflexivity.
Defined.

(** The sample upload stores the event of 3:05 PM; on a ledger whose profile
    has a NULL target weight the same upload aborts on the weight reading and
    stores nothing. *)
Lemma upload_file_complete_witness :
  is_Some (usage_logs (upload_file sample_parse "first.csv" sample_batch sample_db)
             !! 36300)
  /\ upload_file sample_parse "first.csv" sample_batch null_target_db
     = null_target_db.
Proof.
  split.
  - apply (proj1 (upload_file_complete sample_parse "first.csv" sample_batch sample_db
             ["Weight recorded"; "1/5 3:05 PM"; "10.4 lbs"]
             {| dt := 36300; activity := "Weight recorded"; weight := 10.4%float;
                raw_val := "10.4 lbs" |})).
    + discriminate.
    + reflexivity.
    + simpl. tauto.
    + reflexivity.
    + apply not_elem_of_empty.
  - apply (proj1 (proj2 (proj2 (upload_file_complete sample_parse "first.csv"
             sample_batch null_target_db [] (reading 0 "" 0%float))))).
    reflexivity.
Defined.

Lemma upload_file_first_record_wins_witness :
  exists row,
    usage_logs (upload_file sample_parse "first.csv" sample_batch sample_db) !! 36300
      = Some row
    /\ timestamp row = 36300
    /\ log_weight row = sql_real 0%float
    /\ log_activity row = "Cat detected"%string
    /\ metadata row = Meta_raw_val "-".
Proof.
  apply (upload_file_first_record_wins sample_parse "first.csv" sample_batch
           sample_db 36300
           {| dt := 36300; activity := "Cat detected"; weight := 0%float;
              raw_val := "-" |}).
  - discriminate.
  - reflexivity.
  - reflexivity.
  - vm_compute. reflexivity.
Defined.

Lemma upload_file_new_event_witness :
  In "Luna"%string
     ("System"%string :: "Unknown"%string :: "Error"%string
        :: map name (cat_profiles sample_db))
  /\ "Matched w/ 10.4lbs (+0m)"%string <> "Motion detected (No weight)"%string.
Proof.
  destruct (upload_file_new_event sample_parse "first.csv" sample_batch sample_db
              36300
              {| timestamp := 36300; log_weight := 0%float;
                 log_activity := "Cat detected"; metadata := Meta_raw_val "-";
                 cat_identity := "Luna";
                 flag_reason := "Matched w/ 10.4lbs (+0m)" |})
    as (_ & Hid & Hreason & _).
  - reflexivity.
  - vm_compute. reflexivity.
  - split; [exact Hid|exact Hreason].
Defined.

(** ** Correction actions *)

(** The delete action removes the event of the timestamp and nothing else;
    on a timestamp without event it changes nothing. It does not suppress: an
    upload that reaches its commit and whose batch has a record of that
    timestamp stores an event there again. *)
Theorem fix_entry_delete (timestamp_id : Z) (db : database) :
  usage_logs (fix_entry timestamp_id "delete" db) !! timestamp_id = None
  /\ (forall k, k <> timestamp_id ->
        usage_logs (fix_entry timestamp_id "delete" db) !! k = usage_logs db !! k)
  /\ data_blacklist (fix_entry timestamp_id "delete" db) = data_blacklist db
  /\ cat_profiles (fix_entry timestamp_id "delete" db) = cat_profiles db
  /\ upload_history (fix_entry timestamp_id "delete" db) = upload_history db
  /\ (usage_logs db !! timestamp_id = None ->
      fix_entry timestamp_id "delete" db = db)
  /\ (forall parse_row file_name reader record r,
        cat_profiles db <> [] ->
        upload_aborts parse_row reader db = false ->
        In record reader ->
        parse_row record = Some r ->
        dt r = timestamp_id ->
        blacklist_key (dt r) (weight r) ∉ blacklist_set (data_blacklist db) ->
        is_Some (usage_logs (upload_file parse_row file_name reader
                               (fix_entry timestamp_id "delete" db))
                 !! timestamp_id)).
Proof.
  unfold fix_entry. simpl.
  split; [apply lookup_delete_eq|].
  split; [intros k Hk; now apply lookup_delete_ne|].
  split; [reflexivity|]. split; [reflexivity|]. split; [reflexivity|].
  split.
  - intros Hnone. destruct db as [logs hist bl ps]. unfold with_logs. simpl in *.
    f_equal. now apply delete_id.
  - intros parse_row file_name reader record r Hps Hcommit Hin Hparse <- Hnb.
    now apply (upload_file_key_present parse_row file_name reader _ record).
Qed.

(** The blacklist action on the timestamp of an event moves the event out of
    the events table and appends its timestamp, weight and activity to the
    blacklist. An event that a later upload stores under that timestamp comes
    from a row whose weight text is not the blacklisted one, and unless its
    stored weight is zero it does not have the blacklisted weight: only a
    negative zero, read as -0.0 and stored as 0.0, passes a blacklisted 0.0.
    If the weight of the event is NULL, every later upload aborts. On a
    timestamp without event the action changes nothing. *)
Theorem fix_entry_blacklist (timestamp_id : Z) (db : database) (row : usage_log) :
  usage_logs db !! timestamp_id = Some row ->
  timestamp row = timestamp_id ->
  usage_logs (fix_entry timestamp_id "blacklist" db)
    = delete timestamp_id (usage_logs db)
  /\ data_blacklist (fix_entry timestamp_id "blacklist" db)
     = data_blacklist db
       ++ [{| bl_timestamp := timestamp_id; bl_weight := log_weight row;
              bl_reason := log_activity row |}]
  /\ cat_profiles (fix_entry timestamp_id "blacklist" db) = cat_profiles db
  /\ (forall parse_row file_name reader row',
        usage_logs (upload_file parse_row file_name reader
                      (fix_entry timestamp_id "blacklist" db)) !! timestamp_id
          = Some row' ->
        exists r,
          In r (parsed_rows_of parse_row reader
                  (fix_entry timestamp_id "blacklist" db))
          /\ dt r = timestamp_id
          /\ log_weight row' = sql_real (weight r)
          /\ float_str (weight r) <> float_str (log_weight row)
          /\ ((log_weight row' =? 0)%float = false ->
              float_str (log_weight row') <> float_str (log_weight row)))
  /\ (PrimFloat.is_nan (log_weight row) = true ->
      forall parse_row file_name reader,
        upload_file parse_row file_name reader
          (fix_entry timestamp_id "blacklist" db)
        = fix_entry timestamp_id "blacklist" db)
  /\ (forall ts, usage_logs db !! ts = None -> fix_entry ts "blacklist" db = db).
Proof.
  intros Hrow Hts.
  assert (Hdb : fix_entry timestamp_id "blacklist" db
                = with_logs_blacklist db (delete timestamp_id (usage_logs db))
                    (data_blacklist db
                     ++ [{| bl_timestamp := timestamp_id; bl_weight := log_weight row;
                            bl_reason := log_activity row |}])).
  { unfold fix_entry. simpl. now rewrite Hrow, Hts. }
  rewrite Hdb. set (db' := with_logs_blacklist db _ _).
  split; [reflexivity|]. split; [reflexivity|]. split; [reflexivity|].
  split; [|split].
  - intros parse_row file_name reader row' Hrow'.
    assert (Hfree : usage_logs db' !! timestamp_id = None)
      by apply lookup_delete_eq.
    destruct (upload_file_row_origin _ _ _ _ _ _ Hfree Hrow')
      as (r & Hr & Htsr & Hw).
    assert (Hkey : float_str (weight r) <> float_str (log_weight row)).
    { intros Hkey. apply In_sort_by, read_rows_not_blacklisted in Hr. apply Hr.
      unfold db'. simpl. unfold blacklist_set. rewrite map_app. simpl.
      apply elem_of_list_to_set, list_elem_of_In, in_or_app. right. left.
      unfold blacklist_key. simpl. congruence. }
    exists r. split; [exact Hr|]. split; [exact Htsr|]. split; [exact Hw|].
    split; [exact Hkey|].
    intros Hnz. rewrite Hw in Hnz |- *. now rewrite (sql_real_nonzero _ Hnz).
  - intros Hnan parse_row file_name reader. rewrite upload_file_spec.
    replace (upload_aborts parse_row reader db') with true; [reflexivity|].
    symmetry. unfold upload_aborts. apply orb_true_iff. left.
    apply existsb_exists.
    exists {| bl_timestamp := timestamp_id; bl_weight := log_weight row;
              bl_reason := log_activity row |}.
    split; [|exact Hnan]. unfold db'. simpl. apply in_or_app. right. now left.
  - intros ts Hnone. unfold fix_entry. simpl. now rewrite Hnone.
Qed.

Lemma fix_entry_blacklist_witness :
  data_blacklist sample_db_blacklisted
    = [{| bl_timestamp := 36300; bl_weight := 0%float; bl_reason := "Cat detected" |}]
  /\ usage_logs sample_db_blacklisted !! 36300 = None.
Proof.
  destruct (fix_entry_blacklist 36300
              (upload_file sample_parse "first.csv" sample_batch sample_db)
              {| timestamp := 36300; log_weight := 0%float;
                 log_activity := "Cat detected"; metadata := Meta_raw_val "-";
                 cat_identity := "Luna";
                 flag_reason := "Matched w/ 10.4lbs (+0m)" |})
    as (Hlogs & Hbl & _); [vm_compute; reflexivity|reflexivity|].
  unfold sample_db_blacklisted. rewrite Hlogs, Hbl.
  split; [vm_compute; reflexivity|apply lookup_delete_eq].
Defined.

Lemma find_app_first {A : Type} (f : A -> bool) (l : list A) (x : A) :
  List.find f (l ++ [x])
  = match List.find f l with
    | Some y => Some y
    | None => if f x then Some x else None
    end.
Proof.
  induction l as [|y l IH]; simpl; [reflexivity|]. now destruct (f y).
Qed.

(** Blacklisting an event and restoring it brings the event back with its
    timestamp, weight and activity, but with identity Unknown, the reason
    "Restored from Blacklist" and empty metadata; the blacklist is left
    without any entry of that timestamp. If the blacklist already had an entry
    of the timestamp, it is the weight and activity of that older entry that
    come back. *)
Theorem fix_entry_blacklist_restore (timestamp_id : Z) (db : database)
    (row : usage_log) :
  usage_logs db !! timestamp_id = Some row ->
  timestamp row = timestamp_id ->
  (forall e,
     List.find (fun e => bl_timestamp e =? timestamp_id) (data_blacklist db)
       = Some e ->
     usage_logs (fix_entry timestamp_id "restore"
                   (fix_entry timestamp_id "blacklist" db))
       = <[timestamp_id := restored_log e]> (usage_logs db))
  /\ (List.find (fun e => bl_timestamp e =? timestamp_id) (data_blacklist db)
        = None ->
      usage_logs (fix_entry timestamp_id "restore"
                    (fix_entry timestamp_id "blacklist" db))
        = <[timestamp_id :=
              {| timestamp := timestamp_id; log_weight := log_weight row;
                 log_activity := log_activity row; metadata := Meta_empty;
                 cat_identity := "Unknown";
                 flag_reason := "Restored from Blacklist" |}]> (usage_logs db)
      /\ data_blacklist (fix_entry timestamp_id "restore"
                           (fix_entry timestamp_id "blacklist" db))
         = data_blacklist db)
  /\ data_blacklist (fix_entry timestamp_id "restore"
                       (fix_entry timestamp_id "blacklist" db))
     = List.filter (fun e => negb (bl_timestamp e =? timestamp_id))
                   (data_blacklist db).
Proof.
  intros Hrow Hts.
  set (entry := {| bl_timestamp := timestamp_id; bl_weight := log_weight row;
                   bl_reason := log_activity row |}).
  assert (Hdb : fix_entry timestamp_id "blacklist" db
                = with_logs_blacklist db (delete timestamp_id (usage_logs db))
                    (data_blacklist db ++ [entry])).
  { unfold fix_entry. simpl. now rewrite Hrow, Hts. }
  assert (Hrestore : forall e,
            List.find (fun e => bl_timestamp e =? timestamp_id)
                      (data_blacklist db ++ [entry]) = Some e ->
            fix_entry timestamp_id "restore" (fix_entry timestamp_id "blacklist" db)
            = with_logs_blacklist db
                (<[timestamp_id := restored_log e]> (usage_logs db))
                (List.filter (fun e => negb (bl_timestamp e =? timestamp_id))
                             (data_blacklist db))).
  { intros e He. rewrite Hdb.
    rewrite (fix_entry_restore_free _ timestamp_id e); simpl; trivial;
      [|apply lookup_delete_eq].
    unfold with_logs_blacklist. simpl. f_equal.
    - apply insert_delete_eq.
    - rewrite List.filter_app. simpl. rewrite Z.eqb_refl. simpl. apply app_nil_r. }
  split; [|split].
  - intros e He. rewrite (Hrestore e); [reflexivity|].
    now rewrite find_app_first, He.
  - intros Hnone. rewrite (Hrestore entry).
    + simpl. split; [reflexivity|].
      apply List.forallb_filter_id. apply forallb_forall. intros e He.
      apply negb_true_iff.
      destruct (bl_timestamp e =? timestamp_id) eqn:Heq; [|reflexivity].
      now apply (find_none _ _ Hnone) in He; rewrite He in Heq.
    + rewrite find_app_first, Hnone. simpl. now rewrite Z.eqb_refl.
  - destruct (List.find (fun e => bl_timestamp e =? timestamp_id) (data_blacklist db))
      as [e|] eqn:Hfind.
    + rewrite (Hrestore e); [reflexivity|]. now rewrite find_app_first, Hfind.
    + rewrite (Hrestore entry); [reflexivity|].
      rewrite find_app_first, Hfind. simpl. now rewrite Z.eqb_refl.
Qed.

Lemma fix_entry_blacklist_restore_witness :
  usage_logs (fix_entry 36300 "restore"
                (fix_entry 36300 "blacklist"
                   (upload_file sample_parse "first.csv" sample_batch sample_db)))
    !! 36300
  = Some {| timestamp := 36300; log_weight := 0%float;
            log_activity := "Cat detected"; metadata := Meta_empty;
            cat_identity := "Unknown"; flag_reason := "Restored from Blacklist" |}.
Proof.
  destruct (fix_entry_blacklist_restore 36300
              (upload_file sample_parse "first.csv" sample_batch sample_db)
              {| timestamp := 36300; log_weight := 0%float;
                 log_activity := "Cat detected"; metadata := Meta_raw_val "-";
                 cat_identity := "Luna";
                 flag_reason := "Matched w/ 10.4lbs (+0m)" |})
    as (_ & Hfresh & _); [vm_compute; reflexivity|reflexivity|].
  destruct Hfresh as [Hlogs _]; [vm_compute; reflexivity|].
  rewrite Hlogs. apply lookup_insert_eq.
Defined.

(** ** The review list *)

Lemma In_rows_asc (logs : gmap Z usage_log) (r : usage_log) :
  In r (rows_asc logs) <-> exists k, logs !! k = Some r.
Proof.
  unfold rows_asc. rewrite In_sort_by, in_map_iff. split.
  - intros ([k v] & <- & Hin). exists k.
    now apply list_elem_of_In, elem_of_map_to_list in Hin.
  - intros [k Hk]. exists (k, r). split; [reflexivity|].
    now apply list_elem_of_In, elem_of_map_to_list.
Qed.

Lemma In_review (db : database) (r : usage_log) :
  In r (review db) <->
  (exists k, usage_logs db !! k = Some r) /\ needs_review r = true.
Proof.
  unfold review. now rewrite filter_In, <- in_rev, In_rows_asc.
Qed.

(** An action that is none of delete, blacklist and restore is taken as an
    identity: the event of the timestamp gets it, loses its reason and keeps
    everything else; it stays on the review list exactly when the identity is
    Error or Unknown. Other events, the blacklist and the profiles are as
    before, and on a timestamp without event nothing changes. *)
Theorem fix_entry_reassign (timestamp_id : Z) (action : string) (db : database) :
  action <> "delete"%string -> action <> "blacklist"%string ->
  action <> "restore"%string ->
  (forall row, usage_logs db !! timestamp_id = Some row ->
     usage_logs (fix_entry timestamp_id action db) !! timestamp_id
       = Some {| timestamp := timestamp row; log_weight := log_weight row;
                 log_activity := log_activity row; metadata := metadata row;
                 cat_identity := action; flag_reason := "" |}
     /\ (In (reassign action row) (review (fix_entry timestamp_id action db)) <->
         action = "Error"%string \/ action = "Unknown"%string))
  /\ (forall k, k <> timestamp_id ->
        usage_logs (fix_entry timestamp_id action db) !! k = usage_logs db !! k)
  /\ data_blacklist (fix_entry timestamp_id action db) = data_blacklist db
  /\ cat_profiles (fix_entry timestamp_id action db) = cat_profiles db
  /\ (usage_logs db !! timestamp_id = None ->
      fix_entry timestamp_id action db = db).
Proof.
  intros Hd Hb Hr.
  assert (Hdb : fix_entry timestamp_id action db
                = with_logs db (alter (reassign action) timestamp_id (usage_logs db))).
  { unfold fix_entry.
    destruct (String.eqb_spec action "delete"); [contradiction|].
    destruct (String.eqb_spec action "blacklist"); [contradiction|].
    destruct (String.eqb_spec action "restore"); [contradiction|]. reflexivity. }
  rewrite Hdb. simpl.
  split; [|split; [|split; [|split]]]; trivial.
  - intros row Hrow.
    assert (Hnew : alter (reassign action) timestamp_id (usage_logs db) !! timestamp_id
                   = Some (reassign action row)).
    { now rewrite lookup_alter_eq, Hrow. }
    split; [exact Hnew|].
    rewrite In_review. simpl. split.
    + intros [_ Hreview]. unfold needs_review in Hreview. simpl in Hreview.
      destruct (String.eqb_spec action "Error"); [now left|].
      destruct (String.eqb_spec action "Unknown"); [now right|]. discriminate.
    + intros Hid. split; [now exists timestamp_id|].
      unfold needs_review. simpl. now destruct Hid as [-> | ->].
  - intros k Hk. now apply lookup_alter_ne.
  - intros Hnone. destruct db as [logs hist bl ps]. unfold with_logs. simpl in *.
    f_equal. apply map_eq. intros k.
    destruct (decide (timestamp_id = k)) as [<-|Hk].
    + now rewrite lookup_alter_eq, Hnone.
    + now rewrite lookup_alter_ne.
Qed.

Lemma fix_entry_reassign_witness :
  usage_logs (fix_entry 36300 "Milo"
                (upload_file sample_parse "first.csv" sample_batch sample_db))
    !! 36300
  = Some {| timestamp := 36300; log_weight := 0%float;
            log_activity := "Cat detected"; metadata := Meta_raw_val "-";
            cat_identity := "Milo"; flag_reason := "" |}.
Proof.
  destruct (fix_entry_reassign 36300 "Milo"
              (upload_file sample_parse "first.csv" sample_batch sample_db))
    as (Hrow & _); try discriminate.
  destruct (Hrow {| timestamp := 36300; log_weight := 0%float;
                    log_activity := "Cat detected"; metadata := Meta_raw_val "-";
                    cat_identity := "Luna";
                    flag_reason := "Matched w/ 10.4lbs (+0m)" |})
    as [Hnew _]; [vm_compute; reflexivity|].
  exact Hnew.
Defined.

(** The review count of the dashboard is the length of the review list as
    soon as an event of the current year is stored; with no such event it is
    0, whatever the review list holds. *)
Theorem review_count_review (current_year_start : Z) (db : database) :
  ((exists k r, usage_logs db !! k = Some r /\ current_year_start <= timestamp r) ->
   review_count current_year_start db = List.length (review db))
  /\ ((forall k r, usage_logs db !! k = Some r -> timestamp r < current_year_start) ->
      review_count current_year_start db = 0%nat).
Proof.
  unfold review_count, review. split.
  - intros (k & r & Hr & Hyear).
    destruct (Nat.eqb_spec
                (List.length (List.filter (fun r => current_year_start <=? timestamp r)
                                          (rows_asc (usage_logs db)))) 0)
      as [Hzero|_].
    + apply length_zero_iff_nil in Hzero.
      assert (Hin : In r (List.filter (fun r => current_year_start <=? timestamp r)
                                      (rows_asc (usage_logs db)))).
      { apply filter_In. split; [apply In_rows_asc; now exists k|].
        now apply Z.leb_le. }
      rewrite Hzero in Hin. destruct Hin.
    + now rewrite List.filter_rev, length_rev.
  - intros Hold.
    replace (List.filter _ (rows_asc (usage_logs db))) with (@nil usage_log);
      [reflexivity|].
    symmetry. apply last_None, last_filter_None. intros r Hr.
    apply In_rows_asc in Hr. destruct Hr as [k Hk].
    apply Z.leb_gt. now apply (Hold k).
Qed.

(** ** Profiles *)

(** Where a new event of an upload comes from. *)
Lemma upload_file_new_origin
    (parse_row : list string -> option parsed_row) (file_name : string)
    (reader : list (list string)) (db : database) (ts : Z) (row : usage_log) :
  usage_logs db !! ts = None ->
  usage_logs (upload_file parse_row file_name reader db) !! ts = Some row ->
  exists r j,
    row = log_of r
            (fst (correlate (cat_profiles db)
                    (parsed_rows_of parse_row reader db) j r))
            (snd (correlate (cat_profiles db)
                    (parsed_rows_of parse_row reader db) j r)).
Proof.
  intros Hfree Hrow. rewrite upload_file_spec in Hrow.
  destruct (upload_aborts parse_row reader db); [congruence|].
  unfold upload_file_run in Hrow.
  destruct (Nat.eqb _ 0); [congruence|].
  set (rows := parsed_rows_of parse_row reader db) in *.
  pose proof (insert_rows_origin_full (cat_profiles db) rows rows 0
                (usage_logs db, 0%nat) ts row) as Horigin.
  destruct (insert_rows _ _ _ _ _) as [logs added]. simpl in *.
  destruct (Horigin Hrow) as [Hold|(r & j & _ & _ & ->)]; [congruence|].
  now exists r, j.
Qed.

Lemma NoDup_map_filter {A B : Type} (g : A -> B) (f : A -> bool) (l : list A) :
  List.NoDup (map g l) -> List.NoDup (map g (List.filter f l)).
Proof.
  induction l as [|x l IH]; simpl; [trivial|].
  intros Hnd. apply List.NoDup_cons_iff in Hnd. destruct Hnd as [Hx Hl].
  destruct (f x); simpl; [|now apply IH].
  apply List.NoDup_cons; [|now apply IH].
  intros Hin. apply Hx. apply in_map_iff in Hin.
  destruct Hin as (y & Hy & Hin). apply filter_In in Hin.
  apply in_map_iff. exists y. tauto.
Qed.

Lemma existsb_name (n : string) (profiles : list profile) :
  existsb (fun p => String.eqb (name p) n) profiles = true
  <-> In n (map name profiles).
Proof.
  rewrite existsb_exists, in_map_iff. split.
  - intros (p & Hp & Heq). apply String.eqb_eq in Heq. now exists p.
  - intros (p & Heq & Hp). exists p. split; [exact Hp|]. now apply String.eqb_eq.
Qed.

(** [manage_cats] keeps the names of the profiles distinct and touches nothing
    but the profiles: the events stay as they are, under whatever identity.
    Adding a name that is there changes nothing, the target weight of the
    existing profile included; a new name goes to the end of the list. After
    a delete no profile has the name, the other profiles are as before, and no
    later upload gives a new event that identity (the three reserved
    identities apart). *)
Theorem manage_cats_profiles (action : string) (form : profile) (db : database) :
  List.NoDup (map name (cat_profiles db)) ->
  List.NoDup (map name (cat_profiles (manage_cats action form db)))
  /\ usage_logs (manage_cats action form db) = usage_logs db
  /\ data_blacklist (manage_cats action form db) = data_blacklist db
  /\ (In (name form) (map name (cat_profiles db)) ->
      manage_cats "add" form db = db)
  /\ (~ In (name form) (map name (cat_profiles db)) ->
      cat_profiles (manage_cats "add" form db) = cat_profiles db ++ [form])
  /\ ~ In (name form) (map name (cat_profiles (manage_cats "delete" form db)))
  /\ (forall p, name p <> name form ->
        (In p (cat_profiles (manage_cats "delete" form db))
         <-> In p (cat_profiles db)))
  /\ (forall parse_row file_name reader ts row,
        ~ In (name form) ["System"; "Unknown"; "Error"]%string ->
        usage_logs db !! ts = None ->
        usage_logs (upload_file parse_row file_name reader
                      (manage_cats "delete" form db)) !! ts = Some row ->
        cat_identity row <> name form).
Proof.
  intros Hnd.
  assert (Hdel : ~ In (name form)
                   (map name (cat_profiles (manage_cats "delete" form db)))).
  { unfold manage_cats. simpl. rewrite in_map_iff.
    intros (p & Hname & Hp). apply filter_In in Hp. destruct Hp as [_ Hp].
    apply negb_true_iff, String.eqb_neq in Hp. contradiction. }
  split; [|split; [|split; [|split; [|split; [|split; [|split]]]]]].
  - unfold manage_cats.
    destruct (String.eqb action "add").
    + destruct (existsb _ (cat_profiles db)) eqn:Hex; [exact Hnd|]. simpl.
      rewrite map_app. simpl.
      apply List.NoDup_app; [exact Hnd|repeat constructor; simpl; tauto|].
      intros n Hn [<-|[]].
      apply existsb_name in Hn. congruence.
    + destruct (String.eqb action "delete"); [|exact Hnd]. simpl.
      now apply NoDup_map_filter.
  - unfold manage_cats. destruct (String.eqb action "add");
      [now destruct (existsb _ _)|now destruct (String.eqb action "delete")].
  - unfold manage_cats. destruct (String.eqb action "add");
      [now destruct (existsb _ _)|now destruct (String.eqb action "delete")].
  - intros Hin. unfold manage_cats. simpl.
    apply existsb_name in Hin. now rewrite Hin.
  - intros Hnot. unfold manage_cats. simpl.
    destruct (existsb _ (cat_profiles db)) eqn:Hex; [|reflexivity].
    apply existsb_name in Hex. contradiction.
  - exact Hdel.
  - intros p Hp. unfold manage_cats. simpl. rewrite filter_In.
    rewrite negb_true_iff, String.eqb_neq. tauto.
  - intros parse_row file_name reader ts row Hres Hfree Hrow Hid.
    destruct (upload_file_new_origin parse_row file_name reader
                (manage_cats "delete" form db) ts row) as (r & j & ->);
      [exact Hfree|exact Hrow|].
    cbn [cat_identity log_of] in Hid.
    pose proof (correlate_identity_range
                  (cat_profiles (manage_cats "delete" form db))
                  (parsed_rows_of parse_row reader (manage_cats "delete" form db))
                  j r) as Hrange.
    rewrite Hid in Hrange.
    destruct Hrange as [H|[H|[H|H]]]; [| | |contradiction];
      apply Hres; simpl; tauto.
Qed.

Lemma manage_cats_profiles_witness :
  cat_profiles (manage_cats "add" milo sample_db) = [luna; milo]
  /\ manage_cats "add" (mk_cat "Luna" 99%float) sample_db = sample_db.
Proof.
  destruct (manage_cats_profiles "add" milo sample_db) as (_ & _ & _ & _ & Hnew & _).
  { repeat constructor; simpl; tauto. }
  destruct (manage_cats_profiles "add" (mk_cat "Luna" 99%float) sample_db)
    as (_ & _ & _ & Hsame & _).
  { repeat constructor; simpl; tauto. }
  split.
  - apply Hnew. simpl. intros [H|[]]. discriminate.
  - apply Hsame. simpl. now left.
Defined.

(** ** Visit counts *)

(** The loop from an open visit at [a], on times in order: the count grows by
    at most one per event, the anchor moves by more than 10 minutes per new
    visit, and no visit is added exactly when every event is within 10
    minutes of [a]. *)
Lemma visit_fold_sorted (l : list Z) (a : Z) (n : nat) :
  StronglySorted Z.le (a :: l) ->
  exists a',
    snd (fold_left visit_step l (n, Some a)) = Some a'
    /\ In a' (a :: l)
    /\ (n <= fst (fold_left visit_step l (n, Some a)) <= n + List.length l)%nat
    /\ a + 600 * (Z.of_nat (fst (fold_left visit_step l (n, Some a))) - Z.of_nat n)
       <= a'
    /\ (fst (fold_left visit_step l (n, Some a)) = n
        <-> forall t, In t l -> t - a <= 600).
Proof.
  revert a n. induction l as [|t l IH]; intros a n Hs.
  - exists a. simpl. split; [reflexivity|]. split; [now left|].
    split; [lia|]. split; [lia|]. split; [intros _ t []|reflexivity].
  - apply StronglySorted_inv in Hs. destruct Hs as [Hs Ha].
    apply List.Forall_cons_iff in Ha. destruct Ha as [Hat Hal].
    simpl. unfold visit_step at 2 4 6 8 10. simpl.
    destruct (Z.ltb_spec (10 * 60) (t - a)) as [Hgap|Hgap].
    + destruct (IH t (S n) Hs) as (a' & Hsnd & Hin & Hcount & Hanchor & _).
      exists a'. split; [exact Hsnd|]. split; [now right|].
      split; [lia|]. split; [lia|].
      split; [lia|]. intros Hall. specialize (Hall t (or_introl eq_refl)). lia.
    + assert (Hs' : StronglySorted Z.le (a :: l)).
      { constructor; [now apply StronglySorted_inv in Hs|exact Hal]. }
      destruct (IH a n Hs') as (a' & Hsnd & Hin & Hcount & Hanchor & Hiff).
      exists a'. split; [exact Hsnd|].
      split; [destruct Hin as [<-|Hin]; [now left|right; now right]|].
      split; [lia|]. split; [exact Hanchor|].
      rewrite Hiff. split.
      * intros Hall t' [<-|Ht']; [lia|now apply Hall].
      * intros Hall t' Ht'. apply Hall. now right.
Qed.

(** On event times in order, with first event [t0] and all events up to [T]:
    there is at least one visit and at most one per event; the visits after
    the first are more than 10 minutes apart, so [n] visits need a span of at
    least [10 * (n - 1)] minutes; and there is a single visit exactly when
    every event is within 10 minutes of the first. *)
Theorem visit_loop_bounds (t0 : Z) (rest : list Z) (T : Z) :
  StronglySorted Z.le (t0 :: rest) ->
  (forall t, In t (t0 :: rest) -> t <= T) ->
  (1 <= fst (visit_loop (t0 :: rest)) <= S (List.length rest))%nat
  /\ 600 * (Z.of_nat (fst (visit_loop (t0 :: rest))) - 1) <= T - t0
  /\ (fst (visit_loop (t0 :: rest)) = 1%nat
      <-> forall t, In t rest -> t - t0 <= 600).
Proof.
  intros Hs HT. unfold visit_loop. simpl. unfold visit_step at 2 4 6. simpl.
  destruct (visit_fold_sorted rest t0 1 Hs)
    as (a' & _ & Hin & Hcount & Hanchor & Hiff).
  specialize (HT a' Hin).
  split; [lia|]. split; [lia|exact Hiff].
Qed.

Lemma visit_loop_bounds_witness :
  (1 <= fst (visit_loop [0; 300; 720; 1500]%Z) <= 4)%nat
  /\ 600 * (Z.of_nat (fst (visit_loop [0; 300; 720; 1500])) - 1) <= 1500 - 0.
Proof.
  destruct (visit_loop_bounds 0 [300; 720; 1500] 1500) as (Hcount & Hspan & _).
  - repeat constructor; lia.
  - simpl. intros t Ht. intuition lia.
  - split; [exact Hcount|exact Hspan].
Defined.

Lemma visit_loop_nil_iff (times : list Z) :
  fst (visit_loop times) = 0%nat <-> times = [].
Proof.
  split; [|now intros ->].
  destruct times as [|t0 rest]; [reflexivity|].
  unfold visit_loop. simpl. unfold visit_step at 2. simpl.
  assert (Hmono : forall l st, (fst st <= fst (fold_left visit_step l st))%nat).
  { induction l as [|t l IH]; intros st; [simpl; lia|].
    simpl. etransitivity; [|apply IH].
    unfold visit_step. destruct (snd st); [|simpl; lia].
    destruct (_ <? _); simpl; lia. }
  specialize (Hmono rest (1%nat, Some t0)). simpl in Hmono. lia.
Qed.

(** An identity has no visit on a day exactly when it has no event that day. *)
Lemma day_visits_zero_iff (cat : string) (day : Z) (df : list usage_log) :
  day_visits cat day df = 0%nat <->
  forall r, In r df -> date_of (timestamp r) = day -> cat_identity r <> cat.
Proof.
  unfold day_visits. rewrite visit_loop_nil_iff.
  set (f := fun r : usage_log =>
              (date_of (timestamp r) =? day) && String.eqb (cat_identity r) cat).
  assert (Hf : forall r, f r = true <->
             date_of (timestamp r) = day /\ cat_identity r = cat).
  { intros r. unfold f. now rewrite andb_true_iff, Z.eqb_eq, String.eqb_eq. }
  split.
  - intros Hnil r Hr Hday Hid.
    assert (Hr' : In r (sort_by timestamp (List.filter f df))).
    { apply In_sort_by, filter_In. split; [exact Hr|]. now apply Hf. }
    apply (in_map timestamp) in Hr'. rewrite Hnil in Hr'. destruct Hr'.
  - intros Hnone. destruct (sort_by timestamp (List.filter f df)) as [|r l] eqn:Hlog;
      [reflexivity|].
    assert (Hr : In r (sort_by timestamp (List.filter f df)))
      by (rewrite Hlog; now left).
    apply In_sort_by, filter_In in Hr. destruct Hr as [Hr Hfr].
    apply Hf in Hfr. destruct Hfr as [Hday Hid]. now destruct (Hnone r Hr Hday).
Qed.

(** The visits of an identity on one day, as the frequency chart counts them:
    none exactly when the identity has no event that day, never more than the
    events of the day, and never more than 144, whatever the frame. *)
Theorem day_visits_bounds (cat : string) (day : Z) (df : list usage_log) :
  (day_visits cat day df = 0%nat <->
   forall r, In r df -> date_of (timestamp r) = day -> cat_identity r <> cat)
  /\ (day_visits cat day df
      <= List.length
           (List.filter
              (fun r => (date_of (timestamp r) =? day)%Z
                        && String.eqb (cat_identity r) cat) df))%nat
  /\ (day_visits cat day df <= 144)%nat.
Proof.
  set (f := fun r : usage_log =>
              (date_of (timestamp r) =? day) && String.eqb (cat_identity r) cat).
  set (day_log := sort_by timestamp (List.filter f df)).
  assert (Hdv : day_visits cat day df = fst (visit_loop (map timestamp day_log)))
    by reflexivity.
  assert (Hin : forall r, In r day_log <-> In r df /\ f r = true).
  { intros r. unfold day_log. now rewrite In_sort_by, filter_In. }
  assert (Hlen : List.length day_log = List.length (List.filter f df)).
  { unfold day_log. symmetry. apply Permutation_length, sort_by_perm. }
  assert (Hsorted : StronglySorted Z.le (map timestamp day_log)).
  { unfold day_log. generalize (sort_by_sorted timestamp (List.filter f df)).
    generalize (sort_by timestamp (List.filter f df)).
    intros l Hl. induction Hl as [|x l Hl IH Hx]; [constructor|].
    simpl. constructor; [exact IH|].
    rewrite List.Forall_forall in Hx |- *. intros t Ht.
    apply in_map_iff in Ht. destruct Ht as (y & <- & Hy). now apply Hx. }
  split; [|split].
  - apply day_visits_zero_iff.
  - rewrite Hdv, <- Hlen.
    destruct (map timestamp day_log) as [|t0 rest] eqn:Htimes.
    + simpl. lia.
    + assert (Hl : List.length day_log = S (List.length rest)).
      { rewrite <- (length_map timestamp), Htimes. reflexivity. }
      destruct (visit_fold_sorted rest t0 1 Hsorted) as (_ & _ & _ & Hcount & _).
      unfold visit_loop. simpl. unfold visit_step at 2. simpl. lia.
  - rewrite Hdv.
    destruct (map timestamp day_log) as [|t0 rest] eqn:Htimes; [simpl; lia|].
    assert (Hrange : forall t, In t (t0 :: rest) ->
                       86400 * day <= t <= 86400 * day + 86399).
    { intros t Ht. rewrite <- Htimes in Ht. apply in_map_iff in Ht.
      destruct Ht as (r & <- & Hr). apply Hin in Hr. destruct Hr as [_ Hf].
      unfold f in Hf. apply andb_true_iff in Hf. destruct Hf as [Hday _].
      apply Z.eqb_eq in Hday. unfold date_of in Hday.
      pose proof (Z.div_mod (timestamp r) 86400 ltac:(lia)) as Hdm.
      pose proof (Z.mod_pos_bound (timestamp r) 86400 ltac:(lia)) as Hmod.
      rewrite Hday in Hdm. lia. }
    destruct (visit_fold_sorted rest t0 1 Hsorted)
      as (a' & _ & Ha' & _ & Hanchor & _).
    pose proof (Hrange a' Ha') as Hrange_a.
    pose proof (Hrange t0 (or_introl eq_refl)) as Hrange_0.
    unfold visit_loop. simpl. unfold visit_step at 2. simpl. lia.
Qed.

(** ** The dwell and cycle series *)

Lemma In_omap {A B : Type} (f : A -> option B) (l : list A) (y : B) :
  In y (omap f l) <-> exists x, In x l /\ f x = Some y.
Proof.
  rewrite <- list_elem_of_In, list_elem_of_omap.
  split; intros (x & Hx & Hf); exists x; split; trivial; now apply list_elem_of_In.
Qed.

Lemma dwell_point_shape (cat : string) (df : list usage_log) (start_row : usage_log)
    (x d : Z) :
  dwell_point cat df start_row = Some (x, d) ->
  x = timestamp start_row /\ 0 < d < 30 * 60
  /\ exists m, last (dwell_candidates df start_row) = Some m
       /\ cat_identity m = cat
       /\ d = timestamp start_row - 15 * 60 - timestamp m.
Proof.
  unfold dwell_point.
  destruct (last (dwell_candidates df start_row)) as [m|]; [|discriminate].
  destruct (String.eqb_spec (cat_identity m) cat) as [Hid|]; [|discriminate].
  destruct (Z.ltb_spec 0 (timestamp start_row - 15 * 60 - timestamp m));
    [|discriminate].
  destruct (Z.ltb_spec (timestamp start_row - 15 * 60 - timestamp m) (30 * 60));
    [|discriminate].
  simpl. intros [= <- <-]. split; [reflexivity|]. split; [lia|].
  exists m. now repeat split.
Qed.

(** The dwell chart has a series only for a profile name or Unknown, never for
    System, and no empty series; every point of a series belongs to a cycle
    start of the frame and lies strictly between 0 and 30 minutes; and in a
    frame ordered by timestamp a cycle start gives a point to at most one
    identity. *)
Theorem dwell_data_series (profiles : list profile) (df : list usage_log) :
  (forall label pts, In (label, pts) (dwell_data profiles df) ->
     label <> "System"%string
     /\ (In label (map name profiles) \/ label = "Unknown"%string)
     /\ pts = cat_points label df /\ pts <> []
     /\ forall x d, In (x, d) pts ->
          0 < d < 30 * 60
          /\ exists s, In s df
               /\ log_activity s = "Clean Cycle In Progress"%string
               /\ timestamp s = x)
  /\ (time_ordered df ->
      forall c1 c2 x d1 d2,
        In (x, d1) (cat_points c1 df) -> In (x, d2) (cat_points c2 df) ->
        c1 = c2 /\ d1 = d2).
Proof.
  split.
  - intros label pts Hin. unfold dwell_data in Hin.
    apply in_flat_map in Hin. destruct Hin as (cat & Hkey & Hin).
    destruct (String.eqb_spec cat "System") as [|Hsys]; [destruct Hin|].
    destruct (cat_points cat df) as [|pt pts'] eqn:Hpts; [destruct Hin|].
    destruct Hin as [[= <- <-]|[]].
    split; [exact Hsys|]. split.
    { unfold colors_keys in Hkey.
      destruct (existsb (String.eqb "Unknown") (map name profiles)) eqn:Hu.
      - destruct (existsb (String.eqb "System") (map name profiles));
          [now left|].
        apply in_app_or in Hkey. destruct Hkey as [Hkey|[<-|[]]];
          [now left|contradiction].
      - destruct (existsb (String.eqb "System") (map name profiles ++ ["Unknown"%string])).
        + apply in_app_or in Hkey. destruct Hkey as [Hkey|[<-|[]]];
            [now left|now right].
        + apply in_app_or in Hkey. destruct Hkey as [Hkey|[<-|[]]];
            [|contradiction].
          apply in_app_or in Hkey. destruct Hkey as [Hkey|[<-|[]]];
            [now left|now right]. }
    split; [now rewrite Hpts|]. split; [discriminate|].
    intros x d Hxd. rewrite <- Hpts in Hxd. unfold cat_points in Hxd.
    apply In_omap in Hxd. destruct Hxd as (s & Hs & Hpoint).
    apply dwell_point_shape in Hpoint. destruct Hpoint as (-> & Hd & _).
    split; [exact Hd|]. unfold cycle_start in Hs. apply filter_In in Hs.
    destruct Hs as [Hs Hact]. apply String.eqb_eq in Hact. now exists s.
  - intros Hsorted c1 c2 x d1 d2 H1 H2. unfold cat_points in *.
    apply In_omap in H1. destruct H1 as (s1 & Hs1 & Hp1).
    apply In_omap in H2. destruct H2 as (s2 & Hs2 & Hp2).
    apply dwell_point_shape in Hp1. destruct Hp1 as (Hx1 & _ & m1 & Hl1 & Hc1 & Hd1).
    apply dwell_point_shape in Hp2. destruct Hp2 as (Hx2 & _ & m2 & Hl2 & Hc2 & Hd2).
    assert (Hs : s1 = s2).
    { apply (time_ordered_inj df); trivial;
        [unfold cycle_start in Hs1; now apply filter_In in Hs1
        |unfold cycle_start in Hs2; now apply filter_In in Hs2
        |congruence]. }
    subst s2. rewrite Hl1 in Hl2. injection Hl2 as <-.
    split; congruence.
Qed.

Lemma dwell_data_series_witness :
  In (3600, 700)
     (cat_points "Luna"
        [logged 2000 "Cat detected" 0%float "Luna";
         logged 3600 "Clean Cycle In Progress" 0%float "System"])
  /\ ~ In (3600, 700)
       (cat_points "Milo"
          [logged 2000 "Cat detected" 0%float "Luna";
           logged 3600 "Clean Cycle In Progress" 0%float "System"]).
Proof.
  assert (Hluna : In (3600, 700)
     (cat_points "Luna"
        [logged 2000 "Cat detected" 0%float "Luna";
         logged 3600 "Clean Cycle In Progress" 0%float "System"])).
  { vm_compute. now left. }
  split; [exact Hluna|]. intros Hmilo.
  destruct (proj2 (dwell_data_series [luna]
                     [logged 2000 "Cat detected" 0%float "Luna";
                      logged 3600 "Clean Cycle In Progress" 0%float "System"])
              ltac:(repeat constructor; simpl; lia)
              "Luna"%string "Milo"%string 3600 700 700 Hluna Hmilo) as [Hid _].
  discriminate.
Defined.

(** The cycle-duration series has at most one point per end marker; every
    point is the duration, strictly between 60 and 300 seconds, from a start
    marker of the frame to a later end marker with no "Cycle interrupted" row
    strictly between them; a frame without start marker or without end marker
    gives no point. *)
Theorem machine_health_points (df : list usage_log) :
  (List.length (machine_health df) <= List.length (cycle_end df))%nat
  /\ (forall x d, In (x, d) (machine_health df) ->
        60 < d < 300
        /\ exists s e,
             In s df /\ In e df
             /\ log_activity s = "Clean Cycle In Progress"%string
             /\ log_activity e = "Clean Cycle Complete"%string
             /\ timestamp s = x /\ timestamp e = x + d
             /\ interruptions df s e = [])
  /\ (cycle_start df = [] -> machine_health df = [])
  /\ (cycle_end df = [] -> machine_health df = []).
Proof.
  split; [|split; [|split]].
  - unfold machine_health. generalize (cycle_end df). intros l.
    induction l as [|e l IH]; [simpl; lia|].
    change (omap (machine_point df) (e :: l))
      with (match machine_point df e with
            | Some y => y :: omap (machine_point df) l
            | None => omap (machine_point df) l
            end).
    destruct (machine_point df e); simpl in *; lia.
  - intros x d Hin. unfold machine_health in Hin.
    apply In_omap in Hin. destruct Hin as (e & He & Hpoint).
    unfold cycle_end in He. apply filter_In in He. destruct He as [He Hact].
    apply String.eqb_eq in Hact.
    unfold machine_point in Hpoint.
    destruct (last (List.filter (fun s => timestamp s <? timestamp e) (cycle_start df)))
      as [s|] eqn:Hlast; [|discriminate].
    apply last_Some in Hlast. destruct Hlast as [l' Hl'].
    assert (Hs : In s (List.filter (fun s => timestamp s <? timestamp e)
                                   (cycle_start df))).
    { rewrite Hl'. apply in_or_app. right. now left. }
    apply filter_In in Hs. destruct Hs as [Hs _].
    unfold cycle_start in Hs. apply filter_In in Hs. destruct Hs as [Hs Hsact].
    apply String.eqb_eq in Hsact.
    destruct (Nat.eqb_spec (List.length (interruptions df s e)) 0) as [Hnone|];
      [|discriminate].
    destruct (Z.ltb_spec 60 (timestamp e - timestamp s)); [|discriminate].
    destruct (Z.ltb_spec (timestamp e - timestamp s) 300); [|discriminate].
    simpl in Hpoint. injection Hpoint as <- <-.
    split; [lia|]. exists s, e.
    split; [exact Hs|]. split; [exact He|]. split; [exact Hsact|].
    split; [exact Hact|]. split; [reflexivity|]. split; [lia|].
    now apply length_zero_iff_nil.
  - intros Hnone. unfold machine_health, machine_point. rewrite Hnone. simpl.
    induction (cycle_end df) as [|e l IH]; [reflexivity|exact IH].
  - intros Hnone. unfold machine_health. now rewrite Hnone.
Qed.

(** ** The frequency chart and the dashboard's visit count *)

Lemma In_colors_keys (c : string) (profiles : list profile) :
  In c (colors_keys profiles)
  <-> In c (map name profiles) \/ c = "Unknown"%string \/ c = "System"%string.
Proof.
  unfold colors_keys.
  assert (Hex : forall (n : string) l, existsb (String.eqb n) l = true <-> In n l).
  { intros n l. rewrite existsb_exists. split.
    - intros (x & Hx & Heq). apply String.eqb_eq in Heq. now subst.
    - intros Hn. exists n. split; [exact Hn|apply String.eqb_refl]. }
  destruct (existsb (String.eqb "Unknown") (map name profiles)) eqn:Hu.
  - apply Hex in Hu.
    destruct (existsb (String.eqb "System") (map name profiles)) eqn:Hs.
    + apply Hex in Hs. intuition (subst; assumption).
    + rewrite in_app_iff. simpl. intuition (subst; auto).
  - destruct (existsb (String.eqb "System") (map name profiles ++ ["Unknown"%string]))
      eqn:Hs.
    + apply Hex in Hs. rewrite in_app_iff in Hs |- *. simpl in *.
      destruct Hs as [Hs|[Hs|[]]]; [|discriminate].
      intuition (subst; auto).
    + rewrite !in_app_iff. simpl. intuition (subst; auto).
Qed.

Lemma In_days_of (d : Z) (df : list usage_log) :
  In d (days_of df) <-> exists r, In r df /\ date_of (timestamp r) = d.
Proof.
  unfold days_of. rewrite In_sort_by, nodup_In, in_map_iff.
  split; intros (r & H1 & H2); exists r; tauto.
Qed.

Lemma days_of_increasing (df : list usage_log) : StronglySorted Z.lt (days_of df).
Proof.
  unfold days_of.
  set (l := nodup Z.eq_dec (map (fun r => date_of (timestamp r)) df)).
  assert (Hnd : List.NoDup (sort_by (fun d : Z => d) l)).
  { eapply Permutation_NoDup; [apply sort_by_perm|]. apply List.NoDup_nodup. }
  pose proof (sort_by_sorted (fun d : Z => d) l) as Hs.
  induction Hs as [|x s Hs IH Hx]; [constructor|].
  apply List.NoDup_cons_iff in Hnd. destruct Hnd as [Hnx Hnd].
  constructor; [now apply IH|].
  rewrite List.Forall_forall in Hx |- *. intros y Hy.
  specialize (Hx y Hy). simpl in Hx.
  assert (x <> y) by (intros ->; contradiction). lia.
Qed.

(** An identity has a visit on a day exactly when it has an event that day. *)
Lemma day_visits_pos (cat : string) (day : Z) (df : list usage_log) :
  (0 < day_visits cat day df)%nat
  <-> exists r, In r df /\ date_of (timestamp r) = day /\ cat_identity r = cat.
Proof.
  unfold day_visits.
  set (f := fun r : usage_log =>
              (date_of (timestamp r) =? day) && String.eqb (cat_identity r) cat).
  assert (Hf : forall r, f r = true <->
             date_of (timestamp r) = day /\ cat_identity r = cat).
  { intros r. unfold f. now rewrite andb_true_iff, Z.eqb_eq, String.eqb_eq. }
  destruct (sort_by timestamp (List.filter f df)) as [|r l] eqn:Hlog.
  - simpl. split; [lia|]. intros (r & Hr & Hday & Hid).
    assert (Hr' : In r (sort_by timestamp (List.filter f df))).
    { apply In_sort_by, filter_In. split; [exact Hr|]. now apply Hf. }
    rewrite Hlog in Hr'. destruct Hr'.
  - split.
    + intros _. assert (Hr : In r (sort_by timestamp (List.filter f df)))
        by (rewrite Hlog; now left).
      apply In_sort_by, filter_In in Hr. destruct Hr as [Hr Hfr].
      apply Hf in Hfr. exists r. tauto.
    + intros _.
      pose proof (proj1 (visit_loop_nil_iff (map timestamp (r :: l)))) as Hnil.
      destruct (fst (visit_loop (map timestamp (r :: l)))); [|lia].
      specialize (Hnil eq_refl). discriminate.
Qed.

Lemma list_sum_pos (l : list nat) :
  (0 < list_sum l)%nat <-> exists n, In n l /\ (0 < n)%nat.
Proof.
  induction l as [|x l IH]; simpl.
  - split; [lia|]. now intros (n & [] & _).
  - split.
    + intros Hpos. destruct x as [|x].
      * destruct (proj1 IH) as (n & Hn & Hn0); [simpl in Hpos; lia|].
        exists n. auto.
      * exists (S x). split; [now left|lia].
    + intros (n & [->|Hn] & Hn0); [lia|].
      assert (0 < list_sum l)%nat by (apply IH; now exists n). lia.
Qed.

(** The daily counts of an identity sum to a positive number exactly when the
    frame has an event of that identity. *)
Lemma daily_counts_pos (cat : string) (df : list usage_log) :
  (0 < list_sum (map (fun day => day_visits cat day df) (days_of df)))%nat
  <-> exists r, In r df /\ cat_identity r = cat.
Proof.
  rewrite list_sum_pos. split.
  - intros (n & Hn & Hpos). apply in_map_iff in Hn. destruct Hn as (day & <- & _).
    apply day_visits_pos in Hpos. destruct Hpos as (r & Hr & _ & Hid). now exists r.
  - intros (r & Hr & Hid). exists (day_visits cat (date_of (timestamp r)) df). split.
    + apply in_map_iff. exists (date_of (timestamp r)). split; [reflexivity|].
      apply In_days_of. now exists r.
    + apply day_visits_pos. now exists r.
Qed.

(** The frequency chart: its labels are the distinct days of the frame in
    increasing order; it has a series exactly for each profile name or Unknown
    (never System) that has an event in the frame, so the events of an
    identity without a profile are left out; and a series has one count per
    label. *)
Theorem freq_data_series (profiles : list profile) (df : list usage_log) :
  (forall label counts,
     In (label, counts) (freq_data profiles df)
     <-> (label <> "System"%string
          /\ (In label (map name profiles) \/ label = "Unknown"%string)
          /\ counts = map (fun day => day_visits label day df) (days_of df)
          /\ exists r, In r df /\ cat_identity r = label))
  /\ (forall label counts,
        In (label, counts) (freq_data profiles df) ->
        List.length counts = List.length (days_of df))
  /\ (forall d, In d (days_of df)
                <-> exists r, In r df /\ date_of (timestamp r) = d)
  /\ StronglySorted Z.lt (days_of df).
Proof.
  assert (Hchar : forall label counts,
     In (label, counts) (freq_data profiles df)
     <-> (label <> "System"%string
          /\ (In label (map name profiles) \/ label = "Unknown"%string)
          /\ counts = map (fun day => day_visits label day df) (days_of df)
          /\ exists r, In r df /\ cat_identity r = label)).
  { intros label counts. unfold freq_data. rewrite in_flat_map. split.
    - intros (cat & Hkey & Hin).
      destruct (String.eqb_spec cat "System") as [|Hsys]; [destruct Hin|].
      destruct (Nat.ltb_spec 0
                  (list_sum (map (fun day => day_visits cat day df) (days_of df))))
        as [Hpos|]; [|destruct Hin].
      destruct Hin as [[= <- <-]|[]].
      apply In_colors_keys in Hkey. apply daily_counts_pos in Hpos.
      split; [exact Hsys|]. split; [|split; [reflexivity|exact Hpos]].
      destruct Hkey as [Hkey|[Hkey|Hkey]]; [now left|now right|contradiction].
    - intros (Hsys & Hkey & -> & Hev). exists label. split.
      + apply In_colors_keys. tauto.
      + destruct (String.eqb_spec label "System") as [|_]; [contradiction|].
        apply daily_counts_pos in Hev. apply Nat.ltb_lt in Hev. rewrite Hev.
        now left. }
  split; [exact Hchar|]. split; [|split].
  - intros label counts Hin. apply Hchar in Hin. destruct Hin as (_ & _ & -> & _).
    apply length_map.
  - intros d. apply In_days_of.
  - apply days_of_increasing.
Qed.

(** The visit count on a frame: zero exactly when the frame has no event of
    the cat strictly after the thirty-day mark, and at most the number of
    those events. *)
Lemma true_visits_frame (cat_name : string) (thirty_days_ago_dt : Z)
    (df : list usage_log) :
  (true_visits cat_name thirty_days_ago_dt df = 0%nat
   <-> forall r, In r df -> cat_identity r = cat_name ->
         timestamp r <= thirty_days_ago_dt)
  /\ (true_visits cat_name thirty_days_ago_dt df
      <= List.length
           (List.filter
              (fun r => String.eqb (cat_identity r) cat_name
                        && (thirty_days_ago_dt <? timestamp r)%Z) df))%nat.
Proof.
  unfold true_visits.
  set (cat_df := List.filter (fun r => String.eqb (cat_identity r) cat_name) df).
  set (recent := List.filter (fun r => thirty_days_ago_dt <? timestamp r) cat_df).
  assert (Hin : forall r, In r (sort_by timestamp recent)
                  <-> In r df /\ cat_identity r = cat_name
                      /\ thirty_days_ago_dt < timestamp r).
  { intros r. unfold recent, cat_df.
    rewrite In_sort_by, !filter_In, String.eqb_eq, Z.ltb_lt. tauto. }
  assert (Hlen : List.length (sort_by timestamp recent)
                 = List.length
                     (List.filter
                        (fun r => String.eqb (cat_identity r) cat_name
                                  && (thirty_days_ago_dt <? timestamp r)%Z) df)).
  { rewrite <- (Permutation_length (sort_by_perm timestamp recent)).
    unfold recent, cat_df. clear. induction df as [|r df IH]; [reflexivity|].
    simpl. destruct (String.eqb (cat_identity r) cat_name); simpl; [|exact IH].
    destruct (thirty_days_ago_dt <? timestamp r); simpl; now rewrite IH. }
  split.
  - rewrite visit_loop_nil_iff. split.
    + intros Hnil r Hr Hid.
      destruct (Z.le_gt_cases (timestamp r) thirty_days_ago_dt) as [|Hlt]; [assumption|].
      assert (Hr' : In r (sort_by timestamp recent)) by (apply Hin; repeat split; trivial; lia).
      apply (in_map timestamp) in Hr'. rewrite Hnil in Hr'. destruct Hr'.
    + intros Hnone. destruct (sort_by timestamp recent) as [|r l] eqn:Hlog; [reflexivity|].
      assert (Hr : In r (r :: l)) by now left.
      apply Hin in Hr. destruct Hr as (Hr & Hid & Hlt).
      specialize (Hnone r Hr Hid). lia.
  - rewrite <- Hlen.
    assert (Hsorted : StronglySorted Z.le (map timestamp (sort_by timestamp recent))).
    { generalize (sort_by_sorted timestamp recent).
      generalize (sort_by timestamp recent).
      intros l Hl. induction Hl as [|x l Hl IH Hx]; [constructor|].
      simpl. constructor; [exact IH|].
      rewrite List.Forall_forall in Hx |- *. intros t Ht.
      apply in_map_iff in Ht. destruct Ht as (y & <- & Hy). now apply Hx. }
    destruct (map timestamp (sort_by timestamp recent)) as [|t0 rest] eqn:Htimes.
    + simpl. lia.
    + assert (Hl : List.length (sort_by timestamp recent) = S (List.length rest)).
      { rewrite <- (length_map timestamp), Htimes. reflexivity. }
      destruct (visit_fold_sorted rest t0 1 Hsorted) as (_ & _ & _ & Hcount & _).
      unfold visit_loop. simpl. unfold visit_step at 2. simpl. lia.
Qed.

(** The dashboard's visit count of a cat is taken on the events of the
    current year: it is zero exactly when the table has no event of that cat
    that is both strictly after the thirty-day mark and not before the start
    of the year, and it is at most the number of those events. In the first
    thirty days of a year the events of the last December are left out. *)
Theorem visits_total_bounds (cat_name : string)
    (current_year_start thirty_days_ago_dt : Z) (db : database) :
  (visits_total cat_name current_year_start thirty_days_ago_dt db = 0%nat
   <-> forall k r, usage_logs db !! k = Some r -> cat_identity r = cat_name ->
         timestamp r <= thirty_days_ago_dt \/ timestamp r < current_year_start)
  /\ (visits_total cat_name current_year_start thirty_days_ago_dt db
      <= List.length
           (List.filter
              (fun r => String.eqb (cat_identity r) cat_name
                        && (thirty_days_ago_dt <? timestamp r)%Z)
              (dashboard_df current_year_start db)))%nat
  /\ ((forall k r, usage_logs db !! k = Some r -> timestamp r < current_year_start) ->
      visits_total cat_name current_year_start thirty_days_ago_dt db = 0%nat).
Proof.
  unfold visits_total.
  destruct (true_visits_frame cat_name thirty_days_ago_dt
              (dashboard_df current_year_start db)) as [Hzero Hle].
  assert (Hin : forall r, In r (dashboard_df current_year_start db)
                  <-> (exists k, usage_logs db !! k = Some r)
                      /\ current_year_start <= timestamp r).
  { intros r. unfold dashboard_df.
    now rewrite filter_In, In_rows_asc, Z.leb_le. }
  assert (Hiff : true_visits cat_name thirty_days_ago_dt
                   (dashboard_df current_year_start db) = 0%nat
                 <-> forall k r, usage_logs db !! k = Some r ->
                       cat_identity r = cat_name ->
                       timestamp r <= thirty_days_ago_dt
                       \/ timestamp r < current_year_start).
  { rewrite Hzero. split.
    - intros Hall k r Hk Hid.
      destruct (Z.lt_ge_cases (timestamp r) current_year_start) as [|Hyear];
        [now right|].
      left. apply Hall; [|exact Hid]. apply Hin. split; [now exists k|lia].
    - intros Hall r Hr Hid. apply Hin in Hr. destruct Hr as [[k Hk] Hyear].
      destruct (Hall k r Hk Hid); lia. }
  split; [exact Hiff|]. split; [exact Hle|].
  intros Hold. apply Hiff. intros k r Hk _. right. now apply (Hold k).
Qed.

(** On 10 January an event of 20 December is within thirty days and is not
    counted; the day count is in seconds from 1 December. *)
Example visits_total_january :
  visits_total "Luna" (31 * 86400) (10 * 86400)
    {| usage_logs := {[ 19 * 86400 := logged (19 * 86400) "Weight recorded" 10.4%float "Luna" ]};
       upload_history := []; data_blacklist := []; cat_profiles := [luna] |}
  = 0%nat
  /\ true_visits "Luna" (10 * 86400)
       [logged (19 * 86400) "Weight recorded" 10.4%float "Luna"] = 1%nat.
Proof. split; vm_compute; reflexivity. Qed.

(** ** Splitting a sequence of event times *)

Lemma StronglySorted_app_parts {A : Type} (R : A -> A -> Prop) (l1 l2 : list A) :
  StronglySorted R (l1 ++ l2) ->
  StronglySorted R l1 /\ StronglySorted R l2
  /\ forall x y, In x l1 -> In y l2 -> R x y.
Proof.
  induction l1 as [|a l1 IH]; simpl; intros Hs.
  - split; [constructor|]. split; [exact Hs|]. intros x y [].
  - apply StronglySorted_inv in Hs. destruct Hs as [Hs Ha].
    destruct (IH Hs) as (H1 & H2 & H12).
    rewrite List.Forall_forall in Ha.
    split; [|split; [exact H2|]].
    + constructor; [exact H1|]. rewrite List.Forall_forall. intros x Hx.
      apply Ha, in_or_app. now left.
    + intros x y [<-|Hx] Hy; [|now apply H12].
      apply Ha, in_or_app. now right.
Qed.

(** The count the loop starts from is carried along unchanged. *)
Lemma visit_fold_shift (l : list Z) (o : option Z) (n k : nat) :
  fst (fold_left visit_step l ((n + k)%nat, o))
  = (fst (fold_left visit_step l (n, o)) + k)%nat.
Proof.
  revert o n. induction l as [|t l IH]; intros o n; [reflexivity|].
  simpl. unfold visit_step at 2 4. simpl. destruct o as [a|].
  - destruct (10 * 60 <? t - a); [apply (IH (Some t) (S n))|apply IH].
  - apply (IH (Some t) (S n)).
Qed.

(** Two runs of the loop over the same ordered times, the first from an
    earlier anchor: the first run is never behind, and never more than one
    visit ahead. *)
Lemma visit_fold_two_anchors (l : list Z) (a b : Z) (na nb : nat) :
  StronglySorted Z.le l ->
  (forall t, In t l -> a <= t /\ b <= t) ->
  (na = nb /\ a <= b) \/ (na = S nb /\ b <= a) ->
  fst (fold_left visit_step l (na, Some a)) = fst (fold_left visit_step l (nb, Some b))
  \/ fst (fold_left visit_step l (na, Some a))
     = S (fst (fold_left visit_step l (nb, Some b))).
Proof.
  revert a b na nb. induction l as [|t l IH]; intros a b na nb Hs Hle Hinv.
  - simpl. destruct Hinv as [[-> _]|[-> _]]; [now left|now right].
  - apply StronglySorted_inv in Hs. destruct Hs as [Hs Ht].
    rewrite List.Forall_forall in Ht.
    destruct (Hle t (or_introl eq_refl)) as [Hat Hbt].
    assert (Hle' : forall x y, (x = a \/ x = b \/ x = t) -> In y l -> x <= y).
    { intros x y Hx Hy. destruct (Hle y (or_intror Hy)) as [Hay Hby].
      specialize (Ht y Hy). destruct Hx as [-> | [-> | ->] ]; assumption. }
    simpl. unfold visit_step at 2 4 6 8. simpl.
    destruct (Z.ltb_spec (10 * 60) (t - a)) as [Hga|Hga];
      destruct (Z.ltb_spec (10 * 60) (t - b)) as [Hgb|Hgb].
    + apply IH; [exact Hs|intros y Hy; split; apply Hle'; auto|].
      destruct Hinv as [[-> _]|[-> _]]; [left|right]; split; (reflexivity || lia).
    + apply IH; [exact Hs|intros y Hy; split; apply Hle'; auto|].
      destruct Hinv as [[-> Hab]|[-> Hba]]; [right; split; [reflexivity|lia]|lia].
    + apply IH; [exact Hs|intros y Hy; split; apply Hle'; auto|].
      destruct Hinv as [[-> Hab]|[-> Hba]]; [lia|left; split; [reflexivity|lia]].
    + apply IH; [exact Hs|intros y Hy; split; apply Hle'; auto|exact Hinv].
Qed.

(** Cutting an ordered sequence of event times in two (as the per-day counts
    of the frequency chart and of the report cut the times of a cat at
    midnight) never loses a visit and adds at most one: the visits of the
    whole are the visits of the two parts, or one fewer. *)
Theorem visit_loop_app_bounds (l1 l2 : list Z) :
  StronglySorted Z.le (l1 ++ l2) -> l1 <> [] -> l2 <> [] ->
  (fst (visit_loop l1) + fst (visit_loop l2) - 1
   <= fst (visit_loop (l1 ++ l2))
   <= fst (visit_loop l1) + fst (visit_loop l2))%nat.
Proof.
  intros Hs H1 H2.
  destruct l1 as [|t0 r1]; [contradiction|]. destruct l2 as [|b r2]; [contradiction|].
  destruct (StronglySorted_app_parts _ _ _ Hs) as (Hs1 & Hs2 & H12).
  unfold visit_loop. rewrite fold_left_app.
  change (fold_left visit_step (t0 :: r1) (0%nat, None))
    with (fold_left visit_step r1 (1%nat, Some t0)).
  change (fold_left visit_step (b :: r2) (0%nat, None))
    with (fold_left visit_step r2 (1%nat, Some b)).
  destruct (visit_fold_sorted r1 t0 1 Hs1) as (x1 & Hsnd & Hx1 & Hn1 & _).
  destruct (fold_left visit_step r1 (1%nat, Some t0)) as [n1 o1].
  simpl in Hsnd, Hn1. subst o1. cbn [fst].
  assert (Hx1b : x1 <= b) by (apply H12; [exact Hx1|now left]).
  apply StronglySorted_inv in Hs2. destruct Hs2 as [Hs2 Hb].
  rewrite List.Forall_forall in Hb.
  cbn [fold_left].
  assert (Hstep : visit_step (n1, Some x1) b
                  = if 10 * 60 <? b - x1 then (S n1, Some b) else (n1, Some x1))
    by reflexivity.
  rewrite Hstep. clear Hstep.
  destruct (Z.ltb_spec (10 * 60) (b - x1)) as [Hgap|Hgap].
  - replace (S n1) with (1 + n1)%nat by lia.
    rewrite (visit_fold_shift r2 (Some b) 1 n1).
    generalize (fst (fold_left visit_step r2 (1%nat, Some b))). intros c. lia.
  - assert (Hshift : fst (fold_left visit_step r2 (n1, Some x1))
                     = (fst (fold_left visit_step r2 (1%nat, Some x1)) + (n1 - 1))%nat).
    { rewrite <- visit_fold_shift. do 3 f_equal. lia. }
    rewrite Hshift. clear Hshift.
    destruct (visit_fold_two_anchors r2 x1 b 1 1 Hs2) as [Heq|Heq].
    + intros t Ht. specialize (Hb t Ht). lia.
    + left. split; [reflexivity|exact Hx1b].
    + rewrite Heq. generalize (fst (fold_left visit_step r2 (1%nat, Some b))).
      intros c. lia.
    + rewrite Heq. generalize (fst (fold_left visit_step r2 (1%nat, Some b))).
      intros c. lia.
Qed.

(** Times at 23:55, 00:04, 00:06 and 00:15: two visits as a whole, three when
    cut at midnight. *)
Lemma visit_loop_app_bounds_witness :
  (fst (visit_loop [86100]%Z) + fst (visit_loop [86640; 86760; 87300]%Z) - 1
   <= fst (visit_loop ([86100]%Z ++ [86640; 86760; 87300]%Z))
   <= fst (visit_loop [86100]%Z) + fst (visit_loop [86640; 86760; 87300]%Z))%nat
  /\ fst (visit_loop ([86100]%Z ++ [86640; 86760; 87300]%Z)) = 2%nat
  /\ (fst (visit_loop [86100]%Z) + fst (visit_loop [86640; 86760; 87300]%Z))%nat = 3%nat.
Proof.
  split; [|split; reflexivity].
  apply (visit_loop_app_bounds [86100] [86640; 86760; 87300]).
  - repeat constructor; lia.
  - discriminate.
  - discriminate.
Defined.

(** ** The properties above on the sample data *)

(** The motion event of the sample batch takes the identity of the weight
    reading of the same minute. *)
Lemma correlate_reasons_witness :
  fst (correlate [luna]
         [reading 36300 "Cat detected" 0%float;
          reading 36300 "Weight recorded" 10.4%float]
         0 (reading 36300 "Cat detected" 0%float))
  = fst (classify_row (reading 36300 "Weight recorded" 10.4%float) [luna]).
Proof.
  destruct (correlate_reasons [luna]
              [reading 36300 "Cat detected" 0%float;
               reading 36300 "Weight recorded" 10.4%float]
              0%nat (reading 36300 "Cat detected" 0%float)) as [Hmotion _].
  destruct (Hmotion eq_refl) as [_ Hdonor].
  destruct (Hdonor (reading 36300 "Weight recorded" 10.4%float) 0) as [Hid _];
    [vm_compute; reflexivity|exact Hid].
Defined.

(** A deleted event comes back with the next upload of its file. *)
Lemma fix_entry_delete_witness :
  is_Some
    (usage_logs
       (upload_file sample_parse "again.csv" sample_batch
          (fix_entry 36300 "delete"
             (upload_file sample_parse "first.csv" sample_batch sample_db)))
     !! 36300).
Proof.
  destruct (fix_entry_delete 36300
              (upload_file sample_parse "first.csv" sample_batch sample_db))
    as (_ & _ & _ & _ & _ & _ & Hagain).
  apply (Hagain sample_parse "again.csv" sample_batch
           ["Weight recorded"; "1/5 3:05 PM"; "10.4 lbs"]
           {| dt := 36300; activity := "Weight recorded"; weight := 10.4%float;
              raw_val := "10.4 lbs" |}).
  - vm_compute. discriminate.
  - vm_compute. reflexivity.
  - simpl. tauto.
  - reflexivity.
  - reflexivity.
  - assert (Hbl : data_blacklist
                    (upload_file sample_parse "first.csv" sample_batch sample_db) = [])
      by (vm_compute; reflexivity).
    rewrite Hbl. apply not_elem_of_empty.
Defined.

(** After the sample upload the dashboard counts the rows of the review page. *)
Lemma review_count_review_witness :
  review_count 0 (upload_file sample_parse "first.csv" sample_batch sample_db)
  = List.length
      (review (upload_file sample_parse "first.csv" sample_batch sample_db)).
Proof.
  apply (proj1 (review_count_review 0
                  (upload_file sample_parse "first.csv" sample_batch sample_db))).
  exists 36300,
    {| timestamp := 36300; log_weight := 0%float;
       log_activity := "Cat detected"; metadata := Meta_raw_val "-";
       cat_identity := "Luna"; flag_reason := "Matched w/ 10.4lbs (+0m)" |}.
  split; [vm_compute; reflexivity|simpl; lia].
Defined.
